(** * Irrigation backend: pump arbitration, auto-off timer, alert cooldown
      and schedule compilation

    A shallow embedding of the control core of
    [backend/ifs325grp2_backend.py]: the in-memory [Database], the pump
    primitives [turn_pump_on] / [turn_pump_off] with the auto-off
    [threading.Timer], the MQTT handler [on_message], the alert cooldown
    [should_send_alert], the manual endpoints [post_pump_on] /
    [post_pump_off] and the schedule compiler
    [_add_or_update_job_in_scheduler] / [_remove_job_from_scheduler].

    Modelling conventions.
    - The program is modelled sequentially: every operation runs to
      completion on a [world] (the module-level globals of the file).
    - JSON numbers (Python [int] and finite [float]) are represented by their
      exact rational value in [Q]; Python compares such numbers exactly, so
      [<] and [<=] are the rational orders. The three special floats that
      [json.loads] also yields (NaN and the two infinities) are values of
      their own, with the comparisons of IEEE 754. An [int] beyond the range
      of a float is a number like any other until it is formatted with
      [:.1f], which raises [OverflowError]. The two thresholds are finite
      floats. [total_seconds()] is taken as the exact quotient.
    - [datetime] values are integers counting microseconds of local wall
      time from [datetime.min] (year 1); the wall clock read by
      [datetime.now] is the [clock] field of the world. Adding a [timedelta]
      raises [OverflowError] when the result leaves the years 1 to 9999.
    - Strings are ASCII text.
    - Calls handed to [schedule_async_task] or awaited by an endpoint are
      recorded, in order, in the [trace] together with the MQTT publishes.
      Formatted message texts are kept as their arguments (alert type,
      severity, mode, moisture).
    - Console output is recorded (field [console]) only on the paths whose
      sole effect is a print: an ignored duplicate pump request, the
      [except] branch of the MQTT handler and of the schedule compiler. *)

From Stdlib Require Import ZArith QArith Qabs String Ascii List Lia Lqa Bool.
From stdpp Require Import base option gmap strings list pretty.

Open Scope string_scope.
Open Scope Z_scope.

(** ** Python values carried by JSON payloads *)

Inductive pyval : Type :=
  | PNone
  | PBool (b : bool)
  | PNum (q : Q)                     (* an int, or a finite float *)
  | PNaN                             (* float('nan') *)
  | PInfinity (negative : bool)      (* float('inf'), float('-inf') *)
  | PStr (s : string)
  | POther.                          (* a list or an object *)

Definition Qltb (a b : Q) : bool := negb (Qle_bool b a).
Definition Qleb (a b : Q) : bool := Qle_bool a b.

(** A Python number as [<], [<=] and [>] see it. *)
Inductive number : Type :=
  | Finite (q : Q)
  | NaN
  | Infinity (negative : bool).

Coercion Finite : Q >-> number.

(** [a < b] (and [b > a]) on numbers: false as soon as one side is NaN. *)
Definition num_ltb (a b : number) : bool :=
  match a, b with
  | Finite x, Finite y => Qltb x y
  | Finite _, Infinity negative => negb negative
  | Infinity negative, Finite _ => negative
  | Infinity negative, Infinity negative' => negative && negb negative'
  | NaN, _ | _, NaN => false
  end.

(** [a <= b]. *)
Definition num_leb (a b : number) : bool :=
  match a, b with
  | Finite x, Finite y => Qleb x y
  | Finite _, Infinity negative => negb negative
  | Infinity negative, Finite _ => negative
  | Infinity negative, Infinity negative' => negative || negb negative'
  | NaN, _ | _, NaN => false
  end.

Inductive exn : Type :=
  | JSONDecodeError      (* also a payload that is not valid UTF-8 *)
  | AttributeError       (* [.get] on a JSON value that is not an object *)
  | FormatError          (* [:.1f] applied to a value that is not a number *)
  | OverflowError        (* an int too large for a float; a date out of range *)
  | TypeError            (* [round] applied to a value that is not a number *)
  | ValueError
  | IndexError.

(** The first magnitude at which converting an [int] to a [float] raises
    [OverflowError]: halfway between the largest float and [2 ^ 1024]. No
    finite float is that large. *)
Definition FLOAT_OVERFLOW : Z := 2 ^ 1024 - 2 ^ 970.

(** [f"{x:.1f}"]: the number whose text is produced, or the exception
    raised. [bool] is a subclass of [int]; NaN and the infinities are
    formatted like any float; an [int] is converted to a float first. *)
Definition format_1f (v : pyval) : number + exn :=
  match v with
  | PNum q =>
      if Qltb (Qabs q) (inject_Z FLOAT_OVERFLOW) then inl (Finite q)
      else inr OverflowError
  | PBool true => inl (Finite (1 # 1))
  | PBool false => inl (Finite (0 # 1))
  | PNaN => inl NaN
  | PInfinity negative => inl (Infinity negative)
  | PNone | PStr _ | POther => inr FormatError
  end.

(** The value of a finite number that [:.1f] formats. *)
Definition as_number (v : pyval) : option Q :=
  match format_1f v with
  | inl (Finite q) => Some q
  | _ => None
  end.

(** Whether [round(x, 2)] returns: it does on every [int] and [float]. *)
Definition rounds (v : pyval) : bool :=
  match v with
  | PNum _ | PBool _ | PNaN | PInfinity _ => true
  | PNone | PStr _ | POther => false
  end.

(** [d.get(key) == s] for a string literal [s]. *)
Definition get_eq_str (v : option pyval) (s : string) : bool :=
  match v with
  | Some (PStr s') => String.eqb s' s
  | _ => false
  end.

(** Truth value of an [Optional[str]]. *)
Definition truthy (o : option string) : bool :=
  match o with
  | Some s => negb (String.eqb s "")
  | None => false
  end.

(** ** Configuration constants *)

Definition ALERT_COOLDOWN_CRITICAL : Z := 3600.
Definition ALERT_COOLDOWN_INFO : Z := 600.

(** ** The in-memory database [Database._state] *)

Record state : Type := mkState {
  pump_is_on : bool;
  last_known_flow_lpm : pyval;
  last_known_moisture : pyval;
  automated_mode_enabled : bool;
  critical_low_threshold : Q;
  critical_high_threshold : Q;
  total_flow : pyval;
  current_cycle_volume_l : pyval;
  manual_override_active : bool;
  manual_override_state : option string;
  allow_manual_override_at_any_moisture : bool;
  current_schedule_name : option string;
  schedule_end_time : option Z;
  last_critical_low_alert : option Z;
  last_critical_high_alert : option Z;
  last_normal_alert : option Z
}.

(** [Database.__init__]; the keys [last_flow_rate] and
    [last_flow_rate_check] are never read or written again and are left
    out. *)
Definition initial_state : state :=
  {| pump_is_on := false;
     last_known_flow_lpm := PNum (0 # 1);
     last_known_moisture := PNum (50 # 1);
     automated_mode_enabled := true;
     critical_low_threshold := (40 # 1)%Q;
     critical_high_threshold := (80 # 1)%Q;
     total_flow := PNum (0 # 1);
     current_cycle_volume_l := PNum (0 # 1);
     manual_override_active := false;
     manual_override_state := None;
     allow_manual_override_at_any_moisture := true;
     current_schedule_name := None;
     schedule_end_time := None;
     last_critical_low_alert := None;
     last_critical_high_alert := None;
     last_normal_alert := None |}.

(** Single-key writes, [db.set(key, value)]; [db.update] is a sequence of
    them. *)
Definition set_pump_is_on (v : bool) (s : state) : state :=
  mkState
    v (last_known_flow_lpm s) (last_known_moisture s)
    (automated_mode_enabled s) (critical_low_threshold s)
    (critical_high_threshold s) (total_flow s) (current_cycle_volume_l s)
    (manual_override_active s) (manual_override_state s)
    (allow_manual_override_at_any_moisture s) (current_schedule_name s)
    (schedule_end_time s) (last_critical_low_alert s)
    (last_critical_high_alert s) (last_normal_alert s).
Definition set_last_known_flow_lpm (v : pyval) (s : state) : state :=
  mkState
    (pump_is_on s) v (last_known_moisture s) (automated_mode_enabled s)
    (critical_low_threshold s) (critical_high_threshold s) (total_flow s)
    (current_cycle_volume_l s) (manual_override_active s)
    (manual_override_state s) (allow_manual_override_at_any_moisture s)
    (current_schedule_name s) (schedule_end_time s)
    (last_critical_low_alert s) (last_critical_high_alert s)
    (last_normal_alert s).
Definition set_last_known_moisture (v : pyval) (s : state) : state :=
  mkState
    (pump_is_on s) (last_known_flow_lpm s) v (automated_mode_enabled s)
    (critical_low_threshold s) (critical_high_threshold s) (total_flow s)
    (current_cycle_volume_l s) (manual_override_active s)
    (manual_override_state s) (allow_manual_override_at_any_moisture s)
    (current_schedule_name s) (schedule_end_time s)
    (last_critical_low_alert s) (last_critical_high_alert s)
    (last_normal_alert s).
Definition set_total_flow (v : pyval) (s : state) : state :=
  mkState
    (pump_is_on s) (last_known_flow_lpm s) (last_known_moisture s)
    (automated_mode_enabled s) (critical_low_threshold s)
    (critical_high_threshold s) v (current_cycle_volume_l s)
    (manual_override_active s) (manual_override_state s)
    (allow_manual_override_at_any_moisture s) (current_schedule_name s)
    (schedule_end_time s) (last_critical_low_alert s)
    (last_critical_high_alert s) (last_normal_alert s).
Definition set_current_cycle_volume_l (v : pyval) (s : state) : state :=
  mkState
    (pump_is_on s) (last_known_flow_lpm s) (last_known_moisture s)
    (automated_mode_enabled s) (critical_low_threshold s)
    (critical_high_threshold s) (total_flow s) v (manual_override_active s)
    (manual_override_state s) (allow_manual_override_at_any_moisture s)
    (current_schedule_name s) (schedule_end_time s)
    (last_critical_low_alert s) (last_critical_high_alert s)
    (last_normal_alert s).
Definition set_manual_override_active (v : bool) (s : state) : state :=
  mkState
    (pump_is_on s) (last_known_flow_lpm s) (last_known_moisture s)
    (automated_mode_enabled s) (critical_low_threshold s)
    (critical_high_threshold s) (total_flow s) (current_cycle_volume_l s) v
    (manual_override_state s) (allow_manual_override_at_any_moisture s)
    (current_schedule_name s) (schedule_end_time s)
    (last_critical_low_alert s) (last_critical_high_alert s)
    (last_normal_alert s).
Definition set_manual_override_state (v : option string) (s : state) : state :=
  mkState
    (pump_is_on s) (last_known_flow_lpm s) (last_known_moisture s)
    (automated_mode_enabled s) (critical_low_threshold s)
    (critical_high_threshold s) (total_flow s) (current_cycle_volume_l s)
    (manual_override_active s) v (allow_manual_override_at_any_moisture s)
    (current_schedule_name s) (schedule_end_time s)
    (last_critical_low_alert s) (last_critical_high_alert s)
    (last_normal_alert s).
Definition set_current_schedule_name (v : option string) (s : state) : state :=
  mkState
    (pump_is_on s) (last_known_flow_lpm s) (last_known_moisture s)
    (automated_mode_enabled s) (critical_low_threshold s)
    (critical_high_threshold s) (total_flow s) (current_cycle_volume_l s)
    (manual_override_active s) (manual_override_state s)
    (allow_manual_override_at_any_moisture s) v (schedule_end_time s)
    (last_critical_low_alert s) (last_critical_high_alert s)
    (last_normal_alert s).
Definition set_schedule_end_time (v : option Z) (s : state) : state :=
  mkState
    (pump_is_on s) (last_known_flow_lpm s) (last_known_moisture s)
    (automated_mode_enabled s) (critical_low_threshold s)
    (critical_high_threshold s) (total_flow s) (current_cycle_volume_l s)
    (manual_override_active s) (manual_override_state s)
    (allow_manual_override_at_any_moisture s) (current_schedule_name s) v
    (last_critical_low_alert s) (last_critical_high_alert s)
    (last_normal_alert s).
Definition set_last_critical_low_alert (v : option Z) (s : state) : state :=
  mkState
    (pump_is_on s) (last_known_flow_lpm s) (last_known_moisture s)
    (automated_mode_enabled s) (critical_low_threshold s)
    (critical_high_threshold s) (total_flow s) (current_cycle_volume_l s)
    (manual_override_active s) (manual_override_state s)
    (allow_manual_override_at_any_moisture s) (current_schedule_name s)
    (schedule_end_time s) v (last_critical_high_alert s) (last_normal_alert s).
Definition set_last_critical_high_alert (v : option Z) (s : state) : state :=
  mkState
    (pump_is_on s) (last_known_flow_lpm s) (last_known_moisture s)
    (automated_mode_enabled s) (critical_low_threshold s)
    (critical_high_threshold s) (total_flow s) (current_cycle_volume_l s)
    (manual_override_active s) (manual_override_state s)
    (allow_manual_override_at_any_moisture s) (current_schedule_name s)
    (schedule_end_time s) (last_critical_low_alert s) v (last_normal_alert s).
Definition set_last_normal_alert (v : option Z) (s : state) : state :=
  mkState
    (pump_is_on s) (last_known_flow_lpm s) (last_known_moisture s)
    (automated_mode_enabled s) (critical_low_threshold s)
    (critical_high_threshold s) (total_flow s) (current_cycle_volume_l s)
    (manual_override_active s) (manual_override_state s)
    (allow_manual_override_at_any_moisture s) (current_schedule_name s)
    (schedule_end_time s) (last_critical_low_alert s)
    (last_critical_high_alert s) v.

Definition set_allow_manual_override_at_any_moisture (v : bool) (s : state) : state :=
  mkState
    (pump_is_on s) (last_known_flow_lpm s) (last_known_moisture s)
    (automated_mode_enabled s) (critical_low_threshold s)
    (critical_high_threshold s) (total_flow s) (current_cycle_volume_l s)
    (manual_override_active s) (manual_override_state s) v
    (current_schedule_name s) (schedule_end_time s)
    (last_critical_low_alert s) (last_critical_high_alert s)
    (last_normal_alert s).

(** The three alert-timestamp keys handed to [should_send_alert]. *)
Inductive alert_key : Type :=
  | k_last_critical_low_alert
  | k_last_critical_high_alert
  | k_last_normal_alert.

Definition get_alert (k : alert_key) (s : state) : option Z :=
  match k with
  | k_last_critical_low_alert => last_critical_low_alert s
  | k_last_critical_high_alert => last_critical_high_alert s
  | k_last_normal_alert => last_normal_alert s
  end.

(** ** Effects visible outside the process *)

Inductive coro : Type :=
  | log_audit (event_type description source severity : string)
  | create_alert (alert_type severity : string)
      (mode : option string) (moisture : option number)
  | broadcast_current_state.

Inductive event : Type :=
  | Publish (command : string)       (* mqtt_client.publish(MQTT_TOPIC_CONTROL, _) *)
  | Task (c : coro)                  (* schedule_async_task(c) *)
  | Awaited (c : coro).              (* await c, inside an endpoint *)

Inductive log_line : Type :=
  | AlreadyOn
  | AlreadyOff
  | HandlerError (e : exn)
  | ScheduleFailed (e : exn).

(** ** The auto-off timer objects *)

Inductive timer_status : Type :=
  | Waiting      (* started, sleeping until its deadline *)
  | Running      (* executing its callback *)
  | Cancelled    (* cancel() reached it while waiting *)
  | Finished.    (* the callback returned *)

Record Timer : Type := mkTimer {
  deadline : Z;
  status : timer_status
}.

Definition is_alive (t : Timer) : bool :=
  match status t with
  | Waiting | Running => true
  | Cancelled | Finished => false
  end.

(** [Timer.cancel()]: only a waiting timer is stopped; a callback that is
    already running is not interrupted. A cancelled timer counts as dead at
    once (its thread exits without running the callback, and a further
    [cancel()] on it changes nothing). *)
Definition cancel (t : Timer) : Timer :=
  match status t with
  | Waiting => mkTimer (deadline t) Cancelled
  | _ => t
  end.

(** ** The globals of the module *)

Record world : Type := mkWorld {
  db : state;
  auto_off_timer : option nat;     (* index into [timers] *)
  timers : list Timer;             (* every Timer object created so far *)
  clock : Z;
  trace : list event;
  console : list log_line
}.

Definition initial_world : world :=
  mkWorld initial_state None [] 0 [] [].

Definition with_db (f : state -> state) (w : world) : world :=
  mkWorld (f (db w)) (auto_off_timer w) (timers w) (clock w) (trace w) (console w).
Definition emit (e : event) (w : world) : world :=
  mkWorld (db w) (auto_off_timer w) (timers w) (clock w) (trace w ++ [e]) (console w).
Definition print (l : log_line) (w : world) : world :=
  mkWorld (db w) (auto_off_timer w) (timers w) (clock w) (trace w) (console w ++ [l]).
Definition set_clock (t : Z) (w : world) : world :=
  mkWorld (db w) (auto_off_timer w) (timers w) t (trace w) (console w).

Definition schedule_async_task (c : coro) (w : world) : world := emit (Task c) w.
Definition publish (command : string) (w : world) : world := emit (Publish command) w.

(** [if auto_off_timer and auto_off_timer.is_alive(): auto_off_timer.cancel()] *)
Definition cancel_if_alive (w : world) : world :=
  match auto_off_timer w with
  | Some i =>
      match timers w !! i with
      | Some t =>
          if is_alive t
          then mkWorld (db w) (auto_off_timer w) (<[i := cancel t]> (timers w))
                       (clock w) (trace w) (console w)
          else w
      | None => w
      end
  | None => w
  end.

(** The same test, followed by [auto_off_timer = None] inside the [if]. *)
Definition cancel_and_clear_if_alive (w : world) : world :=
  match auto_off_timer w with
  | Some i =>
      match timers w !! i with
      | Some t =>
          if is_alive t
          then mkWorld (db w) None (<[i := cancel t]> (timers w))
                       (clock w) (trace w) (console w)
          else w
      | None => w
      end
  | None => w
  end.

Definition second : Z := 1000000.
Definition day : Z := 86400 * second.

(** ** [datetime] and [timedelta] *)

(** [datetime.max], the last microsecond of the year 9999 (3652059 days
    after the start of the year 1). *)
Definition DATETIME_MAX : Z := 3652059 * day - 1.

(** The largest number of days a [timedelta] holds. *)
Definition TIMEDELTA_MAX_DAYS : Z := 999999999.

(** [timedelta(minutes=n)] in microseconds; [None] is its [OverflowError]. *)
Definition timedelta_minutes (n : Z) : option Z :=
  if (- TIMEDELTA_MAX_DAYS <=? n / 1440) && (n / 1440 <=? TIMEDELTA_MAX_DAYS)
  then Some (n * 60 * second)
  else None.

(** [dt + delta]; [None] is the [OverflowError] of a result outside the
    years 1 to 9999. *)
Definition datetime_add (dt delta : Z) : option Z :=
  let result := dt + delta in
  if (0 <=? result) && (result <=? DATETIME_MAX) then Some result else None.

(** [dt + timedelta(minutes=n)]. *)
Definition plus_minutes (dt n : Z) : option Z :=
  match timedelta_minutes n with
  | Some delta => datetime_add dt delta
  | None => None
  end.

(** [dt.hour] and [dt.minute]. *)
Definition datetime_hour (dt : Z) : Z := dt mod day / (3600 * second).
Definition datetime_minute (dt : Z) : Z := dt mod (3600 * second) / (60 * second).

Section Backend.

(** [config.PUMP_AUTO_OFF_MINUTES], read from the environment. *)
Variable PUMP_AUTO_OFF_MINUTES : Z.

(** [threading.Timer(interval, ...)] followed by [start()]. *)
Definition start_timer (interval_seconds : Z) (w : world) : world :=
  mkWorld (db w) (Some (length (timers w)))
          (timers w ++ [mkTimer (clock w + interval_seconds * second) Waiting])
          (clock w) (trace w) (console w).

Definition turn_pump_on (source : string) (w : world) : world :=
  if pump_is_on (db w) then print AlreadyOn w
  else
    let w := schedule_async_task
               (log_audit "PUMP_CONTROL" ("Pump turned ON - " ++ source) source "INFO") w in
    let w := publish "ON" w in
    let w := with_db (set_pump_is_on true) w in
    let w := cancel_if_alive w in
    let w := start_timer (PUMP_AUTO_OFF_MINUTES * 60) w in
    schedule_async_task broadcast_current_state w.

Definition turn_pump_off (source : string) (w : world) : world :=
  if negb (pump_is_on (db w)) then print AlreadyOff w
  else
    let w := schedule_async_task
               (log_audit "PUMP_CONTROL" ("Pump turned OFF - " ++ source) source "INFO") w in
    let w := publish "OFF" w in
    let w := with_db (fun s => set_last_known_flow_lpm (PNum (0 # 1)) (set_pump_is_on false s)) w in
    let w := cancel_and_clear_if_alive w in
    schedule_async_task broadcast_current_state w.


(** *** Expiry of timers and passage of time *)

Definition set_timer_status (i : nat) (st : timer_status) (w : world) : world :=
  match timers w !! i with
  | Some t =>
      mkWorld (db w) (auto_off_timer w) (<[i := mkTimer (deadline t) st]> (timers w))
              (clock w) (trace w) (console w)
  | None => w
  end.

(** [Timer.run] once the wait has elapsed without a cancel: the callback
    [lambda: turn_pump_off("Auto-shutoff")] runs on the timer's thread. *)
Definition fire (i : nat) (w : world) : world :=
  let w := set_timer_status i Running w in
  let w := turn_pump_off "Auto-shutoff" w in
  set_timer_status i Finished w.

Definition due (now : Z) (t : Timer) : bool :=
  match status t with
  | Waiting => deadline t <=? now
  | _ => false
  end.

Definition fire_if_due (w : world) (i : nat) : world :=
  match timers w !! i with
  | Some t => if due (clock w) t then fire i w else w
  | None => w
  end.

Definition fire_due (w : world) : world :=
  fold_left fire_if_due (seq 0 (length (timers w))) w.

(** The wall clock reaches [t]; every timer whose deadline has passed runs. *)
Definition advance (t : Z) (w : world) : world := fire_due (set_clock t w).

(** *** Alert cooldown *)

(** [timedelta.total_seconds()] of a difference of two datetimes. *)
Definition total_seconds (microseconds : Z) : Q := microseconds # 1000000.

Definition should_send_alert (key : alert_key) (cooldown_seconds : Z) (w : world) : bool :=
  match get_alert key (db w) with
  | None => true
  | Some last_alert_time =>
      let now := clock w in
      let time_since_last := total_seconds (now - last_alert_time) in
      Qleb (inject_Z cooldown_seconds) time_since_last
  end.

(** *** Reported operating mode *)

Definition get_current_mode (s : state) : string :=
  if manual_override_active s then "MANUAL"
  else if truthy (current_schedule_name s) then "SCHEDULED"
  else if automated_mode_enabled s then "AUTOMATED"
  else "IDLE".

(** *** Moisture zones *)

Inductive zone : Type := CRITICAL_LOW | NORMAL | CRITICAL_HIGH.

(** The [if] / [elif] / [elif] chain of the moisture monitoring block; the
    chain has no [else], hence the [option]. *)
Definition classify (moisture : number) (critical_low critical_high : Q) : option zone :=
  if num_ltb moisture critical_low then Some CRITICAL_LOW
  else if num_leb critical_low moisture && num_leb moisture critical_high then Some NORMAL
  else if num_ltb critical_high moisture then Some CRITICAL_HIGH
  else None.

(** *** The MQTT handler *)

(** What [json.loads(msg.payload.decode())] yields. *)
Inductive message : Type :=
  | Undecodable                          (* decode() or json.loads raises *)
  | NotAnObject                          (* valid JSON, but not a dict: no .get *)
  | Payload (payload : gmap string pyval).

Definition monitor_moisture (moisture : number) (critical_low critical_high : Q)
    (current_mode : string) (now : Z) (w : world) : world :=
  match classify moisture critical_low critical_high with
  | Some CRITICAL_LOW =>
      let w :=
        if should_send_alert k_last_critical_low_alert ALERT_COOLDOWN_CRITICAL w
        then
          let w := schedule_async_task
                     (create_alert "CRITICAL_LOW_MOISTURE" "CRITICAL"
                                   (Some current_mode) (Some moisture)) w in
          with_db (set_last_critical_low_alert (Some now)) w
        else w in
      let w := with_db (set_last_normal_alert None) w in
      with_db (set_last_critical_high_alert None) w
  | Some NORMAL =>
      let w :=
        if should_send_alert k_last_normal_alert ALERT_COOLDOWN_INFO w
        then
          let w := schedule_async_task
                     (create_alert "NORMAL_MOISTURE" "INFO"
                                   (Some current_mode) (Some moisture)) w in
          with_db (set_last_normal_alert (Some now)) w
        else w in
      let w := with_db (set_last_critical_low_alert None) w in
      with_db (set_last_critical_high_alert None) w
  | Some CRITICAL_HIGH =>
      let w :=
        if should_send_alert k_last_critical_high_alert ALERT_COOLDOWN_CRITICAL w
        then
          let w := schedule_async_task
                     (create_alert "CRITICAL_HIGH_MOISTURE" "CRITICAL"
                                   (Some current_mode) (Some moisture)) w in
          with_db (set_last_critical_high_alert (Some now)) w
        else w in
      let w := with_db (set_last_normal_alert None) w in
      with_db (set_last_critical_low_alert None) w
  | None => w
  end.

(** Manual override enforcement, else automated control. *)
Definition control (moisture : number) (critical_low critical_high : Q)
    (manual_override_active' : bool) (manual_override_state' : option string)
    (new_pump_status : bool) (w : world) : world :=
  if manual_override_active' && truthy manual_override_state' then
    let desired_state_on :=
      match manual_override_state' with
      | Some s => String.eqb s "ON"
      | None => false
      end in
    if desired_state_on && negb new_pump_status
    then turn_pump_on "Manual Override - Enforcement" w
    else if negb desired_state_on && new_pump_status
    then turn_pump_off "Manual Override - Enforcement" w
    else w
  else if automated_mode_enabled (db w) then
    let pump_on := pump_is_on (db w) in
    if num_ltb moisture critical_low && negb pump_on
    then turn_pump_on "Automated - Critical Low Moisture" w
    else if num_leb critical_low moisture && num_leb moisture critical_high && pump_on
    then turn_pump_off "Automated - Normal Moisture Reached" w
    else if num_ltb critical_high moisture && pump_on
    then turn_pump_off "Automated - Critical High Moisture" w
    else w
  else w.

(** Pump state change alerts. *)
Definition state_change_alerts (old_pump_status new_pump_status : bool)
    (current_mode : string) (moisture : number) (w : world) : world :=
  if negb (Bool.eqb old_pump_status new_pump_status) then
    if new_pump_status then
      schedule_async_task
        (create_alert "PUMP_ON" "INFO" (Some current_mode) (Some moisture)) w
    else
      let w := schedule_async_task
                 (create_alert "PUMP_OFF" "INFO" (Some current_mode) (Some moisture)) w in
      if truthy (current_schedule_name (db w))
      then with_db (fun s => set_schedule_end_time None (set_current_schedule_name None s)) w
      else w
  else w.

(** The [db.update(...)] that merges the sample into the state; the
    defaults [db.get(...)] are read before the update. *)
Definition merge_sample (payload : gmap string pyval) (s : state) : state :=
  set_current_cycle_volume_l (default (PNum (0 # 1)) (payload !! "cycle_usage"))
  (set_total_flow (default (total_flow s) (payload !! "total_flow"))
  (set_last_known_moisture (default (last_known_moisture s) (payload !! "moisture"))
  (set_pump_is_on (get_eq_str (payload !! "pump_status") "ON")
  (set_last_known_flow_lpm (default (PNum (0 # 1)) (payload !! "flow_rate")) s)))).

(** The body of the [try] block: the world it leaves behind and the
    exception that ended it, if any. *)
Definition on_message_try (msg : message) (w : world) : world * option exn :=
  match msg with
  | Undecodable => (w, Some JSONDecodeError)
  | NotAnObject => (w, Some AttributeError)
  | Payload payload =>
      let old_pump_status := pump_is_on (db w) in
      let new_pump_status := get_eq_str (payload !! "pump_status") "ON" in
      let w := with_db (merge_sample payload) w in
      let now := clock w in
      let critical_low := critical_low_threshold (db w) in
      let critical_high := critical_high_threshold (db w) in
      let manual_override_active' := manual_override_active (db w) in
      let manual_override_state' := manual_override_state (db w) in
      let allow_override_at_any_moisture := allow_manual_override_at_any_moisture (db w) in
      let current_mode := get_current_mode (db w) in
      (* the first f-string formatting moisture with [:.1f] *)
      match format_1f (last_known_moisture (db w)) with
      | inr e => (w, Some e)
      | inl moisture =>
          let w := monitor_moisture moisture critical_low critical_high current_mode now w in
          if num_ltb critical_high moisture && negb allow_override_at_any_moisture
             && new_pump_status
          then
            let w := turn_pump_off "Emergency - Soil Too Wet" w in
            let w := with_db (fun s => set_manual_override_state None
                                         (set_manual_override_active false s)) w in
            (schedule_async_task broadcast_current_state w, None)
          else
            let w := control moisture critical_low critical_high
                             manual_override_active' manual_override_state'
                             new_pump_status w in
            let w := state_change_alerts old_pump_status new_pump_status
                                         current_mode moisture w in
            (schedule_async_task broadcast_current_state w, None)
      end
  end.

Definition on_message (msg : message) (w : world) : world :=
  match on_message_try msg w with
  | (w, None) => w
  | (w, Some e) => print (HandlerError e) w
  end.

(** *** Manual endpoints *)

(** [await broadcast_current_state()]: building the snapshot applies [round]
    to the four sensor values and raises on one that is not a number. (When
    the same coroutine is handed to [schedule_async_task], the failure stays
    inside the task.) *)
Definition await_broadcast (w : world) : world * option exn :=
  if rounds (last_known_flow_lpm (db w))
     && rounds (last_known_moisture (db w))
     && rounds (total_flow (db w))
     && rounds (current_cycle_volume_l (db w))
  then (emit (Awaited broadcast_current_state) w, None)
  else (w, Some TypeError).

(** [POST /pump/on]; the exception, if any, leaves the endpoint. *)
Definition post_pump_on (w : world) : world * option exn :=
  let w := with_db (fun s =>
             set_schedule_end_time None
             (set_current_schedule_name None
             (set_manual_override_state (Some "ON")
             (set_manual_override_active true s)))) w in
  match format_1f (last_known_moisture (db w)) with
  | inr e => (w, Some e)
  | inl moisture =>
      let w := emit (Awaited (create_alert "MANUAL_OVERRIDE_ON" "INFO" None (Some moisture))) w in
      let w := turn_pump_on "Manual Control" w in
      await_broadcast w
  end.

(** [POST /pump/off]. *)
Definition post_pump_off (w : world) : world * option exn :=
  let w := with_db (fun s =>
             set_schedule_end_time None
             (set_current_schedule_name None
             (set_manual_override_state (Some "OFF")
             (set_manual_override_active true s)))) w in
  let w := emit (Awaited (create_alert "MANUAL_OVERRIDE_OFF" "INFO" None None)) w in
  let w := turn_pump_off "Manual Control" w in
  await_broadcast w.

(** *** Schedule compiler *)

(** String helpers on ASCII text: [str.split(sep)], [sep in s],
    [str.lower()] and [int(s)], which accepts an optionally signed run of
    at most 4300 decimal digits, single underscores between digits, and
    blanks around the whole. *)
Fixpoint split (sep : ascii) (s : string) : list string :=
  match s with
  | EmptyString => [EmptyString]
  | String c rest =>
      if Ascii.eqb c sep then EmptyString :: split sep rest
      else match split sep rest with
           | x :: xs => String c x :: xs
           | [] => [String c EmptyString]
           end
  end.

Fixpoint contains (c : ascii) (s : string) : bool :=
  match s with
  | EmptyString => false
  | String c' rest => Ascii.eqb c' c || contains c rest
  end.

Definition lower_ascii (c : ascii) : ascii :=
  let n := nat_of_ascii c in
  if ((65 <=? n) && (n <=? 90))%nat then ascii_of_nat (n + 32) else c.

Fixpoint lower (s : string) : string :=
  match s with
  | EmptyString => EmptyString
  | String c rest => String (lower_ascii c) (lower rest)
  end.

(** The ASCII characters [int] skips as white space: the blank and tab
    to carriage return. *)
Definition is_blank (c : ascii) : bool :=
  let n := nat_of_ascii c in
  ((n =? 32) || ((9 <=? n) && (n <=? 13)))%nat.

Fixpoint lstrip (s : string) : string :=
  match s with
  | String c rest => if is_blank c then lstrip rest else s
  | EmptyString => EmptyString
  end.

Fixpoint rstrip (s : string) : string :=
  match s with
  | EmptyString => EmptyString
  | String c rest =>
      match rstrip rest with
      | EmptyString => if is_blank c then EmptyString else String c EmptyString
      | r => String c r
      end
  end.

Definition digit_value (c : ascii) : option Z :=
  let n := nat_of_ascii c in
  if ((48 <=? n) && (n <=? 57))%nat then Some (Z.of_nat n - 48) else None.

(** Digits, with single underscores allowed between two digits;
    [after_digit] tells whether the previous character was a digit. *)
Fixpoint digits (acc : Z) (after_digit : bool) (s : string) : option Z :=
  match s with
  | EmptyString => if after_digit then Some acc else None
  | String c rest =>
      match digit_value c with
      | Some d => digits (10 * acc + d) true rest
      | None =>
          if Ascii.eqb c "_" && after_digit then digits acc false rest
          else None
      end
  end.

(** [sys.int_info.default_max_str_digits]: [int] refuses a text with more
    digits. *)
Definition INT_MAX_STR_DIGITS : Z := 4300.

Fixpoint count_digits (s : string) : Z :=
  match s with
  | EmptyString => 0
  | String c rest =>
      match digit_value c with
      | Some _ => 1 + count_digits rest
      | None => count_digits rest
      end
  end.

Definition unsigned_int (s : string) : option Z :=
  if count_digits s <=? INT_MAX_STR_DIGITS then digits 0 false s else None.

Definition int (s : string) : option Z :=
  match rstrip (lstrip s) with
  | String "-" rest => Z.opp <$> unsigned_int rest
  | String "+" rest => unsigned_int rest
  | t => unsigned_int t
  end.

(** A row of the schedules table as the store returns it. The keys read
    with [schedule_data[...]] are fields; the keys read with [.get] may be
    absent or null. The integers of a row were read from JSON text, so
    [str] of them never fails. *)
Record schedule_data : Type := mkSchedule {
  sd_id : Z;
  sd_name : option string;
  sd_duration_min : Z;
  sd_start_time_of_day : string;
  sd_is_active : option Z;
  sd_repeat_days : option string
}.

(** The two closures registered as job callbacks. *)
Inductive job_func : Type :=
  | start_scheduled_pump (job_name : string) (duration : Z)
  | stop_scheduled_pump (job_name : string).

(** A cron job of the background scheduler. *)
Record job : Type := mkJob {
  func : job_func;
  day_of_week : string;
  hour : Z;
  minute : Z;
  name : string
}.

(** Whether the scheduler's cron trigger accepts a [day_of_week] expression;
    the scheduler library is not part of the repository. *)
Variable cron_accepts : string -> bool.

(** [scheduler.add_job(..., trigger='cron', id=id, replace_existing=True)];
    [None] is the [ValueError] of a rejected trigger expression. The hour and
    minute handed over are always fields of a valid [datetime]. *)
Definition add_job (id : string) (j : job) (jobs : gmap string job)
    : option (gmap string job) :=
  if cron_accepts (day_of_week j) then Some (<[id := j]> jobs) else None.

(** [scheduler.remove_job(id)]; [None] is its [JobLookupError]. *)
Definition remove_job (id : string) (jobs : gmap string job)
    : option (gmap string job) :=
  match jobs !! id with
  | Some _ => Some (delete id jobs)
  | None => None
  end.

Definition _remove_job_from_scheduler (schedule_id : string)
    (jobs : gmap string job) : gmap string job :=
  let job_id_base := "db_" ++ schedule_id in
  fold_left
    (fun jobs job_suffix =>
       match remove_job (job_suffix ++ "_" ++ job_id_base) jobs with
       | Some jobs' => jobs'
       | None => jobs            (* except Exception: pass *)
       end)
    ["on"; "off"] jobs.

(** [list(map(int, s.split(':')))]. *)
Fixpoint map_int (parts : list string) : option (list Z) :=
  match parts with
  | [] => Some []
  | p :: ps =>
      match int p with
      | Some n => cons n <$> map_int ps
      | None => None
      end
  end.

(** [now.replace(hour=, minute=, second=, microsecond=0)] for the three
    leading items of [time_parts]: the day of [now] at that time. *)
Definition replace_time (now : Z) (time_parts : list Z) : Z + exn :=
  match time_parts with
  | h :: m :: s :: _ =>
      if (0 <=? h) && (h <=? 23) && (0 <=? m) && (m <=? 59) && (0 <=? s) && (s <=? 59)
      then inl (now / day * day + ((h * 60 + m) * 60 + s) * second)
      else inr ValueError
  | _ => inr IndexError
  end.

(** The body of the [try] block of [_add_or_update_job_in_scheduler]: the
    job store it leaves and the exception reported by the [except] branch. *)
Definition _add_or_update_job_in_scheduler (now : Z) (sd : schedule_data)
    (jobs : gmap string job) : gmap string job * option exn :=
  let schedule_id := pretty (sd_id sd) in
  let job_id_base := "db_" ++ schedule_id in
  let job_name := if truthy (sd_name sd) then default "" (sd_name sd)
                  else "Schedule " ++ schedule_id in
  let duration := sd_duration_min sd in
  match map_int (split ":" (sd_start_time_of_day sd)) with
  | None => (jobs, Some ValueError)
  | Some time_parts =>
      match replace_time now time_parts with
      | inr e => (jobs, Some e)
      | inl run_time_obj =>
          let jobs := _remove_job_from_scheduler schedule_id jobs in
          if bool_decide (sd_is_active sd = Some 1) then
            let repeat_days_str := sd_repeat_days sd in
            if truthy repeat_days_str && negb (contains "-" (default "" repeat_days_str)) then
              let days := lower (default "" repeat_days_str) in
              match add_job ("on_" ++ job_id_base)
                      (mkJob (start_scheduled_pump job_name duration) days
                             (datetime_hour run_time_obj) (datetime_minute run_time_obj)
                             job_name)
                      jobs with
              | None => (jobs, Some ValueError)
              | Some jobs =>
                  match plus_minutes run_time_obj duration with
                  | None => (jobs, Some OverflowError)
                  | Some off_time =>
                      match add_job ("off_" ++ job_id_base)
                              (mkJob (stop_scheduled_pump job_name) days
                                     (datetime_hour off_time) (datetime_minute off_time)
                                     (job_name ++ " (Auto OFF)"))
                              jobs with
                      | None => (jobs, Some ValueError)
                      | Some jobs => (jobs, None)
                      end
                  end
              end
            else (jobs, None)
          else (jobs, None)
      end
  end.

(** What a job does when its trigger fires, and the exception that leaves
    the callback, if any (the scheduler logs it). *)
Definition run_job (f : job_func) (w : world) : world * option exn :=
  match f with
  | start_scheduled_pump job_name duration =>
      match plus_minutes (clock w) duration with
      | None => (w, Some OverflowError)
      | Some end_time =>
          let w := with_db (fun s => set_schedule_end_time (Some end_time)
                                       (set_current_schedule_name (Some job_name) s)) w in
          (turn_pump_on ("Scheduled: " ++ job_name) w, None)
      end
  | stop_scheduled_pump job_name =>
      let w := turn_pump_off ("Scheduled: " ++ job_name ++ " (complete)") w in
      (with_db (fun s => set_schedule_end_time None (set_current_schedule_name None s)) w,
       None)
  end.


(** ** Runs of the system and observations on them *)

(** One atomic operation of the backend: a pump command from any caller, a
    telemetry sample, a manual endpoint, a scheduled job, or the passage of
    time (with the expiry of timers that are due). *)
Inductive step : world -> world -> Prop :=
  | step_on source w : step w (turn_pump_on source w)
  | step_off source w : step w (turn_pump_off source w)
  | step_message msg w : step w (on_message msg w)
  | step_post_on w : step w (fst (post_pump_on w))
  | step_post_off w : step w (fst (post_pump_off w))
  | step_job f w : step w (fst (run_job f w))
  | step_time t w : step w (advance t w).

Inductive reachable : world -> Prop :=
  | reachable_init : reachable initial_world
  | reachable_step w w' : reachable w -> step w w' -> reachable w'.

(** A timer is live while it waits for its deadline. *)
Definition live (t : Timer) : Prop := status t = Waiting.

Definition at_most_one_live (w : world) : Prop :=
  forall i j ti tj,
    timers w !! i = Some ti -> timers w !! j = Some tj ->
    live ti -> live tj -> i = j.

(** Between operations no callback is running, and a live timer is the one
    the global [auto_off_timer] refers to. *)
Definition timers_ok (w : world) : Prop :=
  forall i t, timers w !! i = Some t -> is_alive t = true ->
              live t /\ auto_off_timer w = Some i.

Definition no_live_timer (w : world) : Prop :=
  forall i t, timers w !! i = Some t -> is_alive t = false.

Definition is_publish (e : event) : bool :=
  match e with Publish _ => true | _ => false end.

Definition is_audit (e : event) : bool :=
  match e with Task (log_audit _ _ _ _) => true | _ => false end.

Definition is_pump_alert (e : event) : bool :=
  match e with
  | Task (create_alert alert_type _ _ _) =>
      String.eqb alert_type "PUMP_ON" || String.eqb alert_type "PUMP_OFF"
  | _ => false
  end.

Definition is_zone_alert (e : event) : bool :=
  match e with
  | Task (create_alert alert_type _ _ _) =>
      String.eqb alert_type "CRITICAL_LOW_MOISTURE"
      || String.eqb alert_type "NORMAL_MOISTURE"
      || String.eqb alert_type "CRITICAL_HIGH_MOISTURE"
  | _ => false
  end.

Definition count (p : event -> bool) (tr : list event) : nat :=
  length (List.filter p tr).

Definition audit_on (source : string) : event :=
  Task (log_audit "PUMP_CONTROL" ("Pump turned ON - " ++ source) source "INFO").
Definition audit_off (source : string) : event :=
  Task (log_audit "PUMP_CONTROL" ("Pump turned OFF - " ++ source) source "INFO").

(** ** Further operations of the backend *)

(** Writes of the settings endpoints. *)
Definition set_automated_mode_enabled (v : bool) (s : state) : state :=
  mkState
    (pump_is_on s) (last_known_flow_lpm s) (last_known_moisture s) v
    (critical_low_threshold s) (critical_high_threshold s) (total_flow s)
    (current_cycle_volume_l s) (manual_override_active s)
    (manual_override_state s) (allow_manual_override_at_any_moisture s)
    (current_schedule_name s) (schedule_end_time s)
    (last_critical_low_alert s) (last_critical_high_alert s)
    (last_normal_alert s).
Definition set_critical_low_threshold (v : Q) (s : state) : state :=
  mkState
    (pump_is_on s) (last_known_flow_lpm s) (last_known_moisture s)
    (automated_mode_enabled s) v (critical_high_threshold s) (total_flow s)
    (current_cycle_volume_l s) (manual_override_active s)
    (manual_override_state s) (allow_manual_override_at_any_moisture s)
    (current_schedule_name s) (schedule_end_time s)
    (last_critical_low_alert s) (last_critical_high_alert s)
    (last_normal_alert s).
Definition set_critical_high_threshold (v : Q) (s : state) : state :=
  mkState
    (pump_is_on s) (last_known_flow_lpm s) (last_known_moisture s)
    (automated_mode_enabled s) (critical_low_threshold s) v (total_flow s)
    (current_cycle_volume_l s) (manual_override_active s)
    (manual_override_state s) (allow_manual_override_at_any_moisture s)
    (current_schedule_name s) (schedule_end_time s)
    (last_critical_low_alert s) (last_critical_high_alert s)
    (last_normal_alert s).

(** The settings block of the startup in [lifespan], when [get_settings]
    returned a row: [critical_low] and [critical_high] are the floats the two
    [float(...)] calls yield and the flags are the results of the two
    [bool(...)] calls. The values are written as they are; neither range nor
    order is checked. (A row on which [float] raises ends the startup with
    that exception and the application does not run; a row that holds a NaN
    or an infinity as a threshold is outside the model, whose thresholds are
    finite.) Telemetry is already being received when this runs. *)
Definition load_saved_settings (critical_low critical_high : Q)
    (automated_mode_enabled' allow_override : bool) (w : world) : world :=
  with_db (fun s => set_allow_manual_override_at_any_moisture allow_override
                      (set_automated_mode_enabled automated_mode_enabled'
                         (set_critical_high_threshold critical_high
                            (set_critical_low_threshold critical_low s)))) w.

(** How an endpoint ends: normally, with an [HTTPException], with the 422
    answer of the request validation, or with an exception that leaves it. *)
Inductive http_result : Type :=
  | Success
  | HTTPException (status_code : Z)
  | RequestValidationError
  | Unhandled (e : exn).

Definition finish (r : world * option exn) : world * http_result :=
  match r with
  | (w, None) => (w, Success)
  | (w, Some e) => (w, Unhandled e)
  end.

(** [POST /manual_override/clear]. *)
Definition clear_manual_override (w : world) : world * http_result :=
  let w := with_db (fun s => set_manual_override_state None
                               (set_manual_override_active false s)) w in
  let w := emit (Awaited (create_alert "MANUAL_OVERRIDE_CLEARED" "INFO" None None)) w in
  finish (await_broadcast w).

(** The [Field(..., ge=0, le=100)] constraint of
    [SimplifiedThresholdSettings]. *)
Definition in_percent_range (x : Q) : bool := Qleb (0 # 1) x && Qleb x (100 # 1).

(** [POST /settings/automated/thresholds]; [saved] is the answer of
    [oracle.save_settings] (calls to the settings store are represented by
    their result) and [str_float] is Python's text for a float inside an
    f-string, whose formatting is not modelled. *)
Definition set_automated_thresholds (str_float : Q -> string)
    (critical_low critical_high : Q) (saved : bool)
    (w : world) : world * http_result :=
  if negb (in_percent_range critical_low && in_percent_range critical_high)
  then (w, RequestValidationError)
  else if negb (Qltb critical_low critical_high)
  then (w, HTTPException 400)
  else
    let w := with_db (fun s => set_critical_high_threshold critical_high
                                 (set_critical_low_threshold critical_low s)) w in
    if negb saved then (w, HTTPException 502)
    else
      match await_broadcast w with
      | (w, Some e) => (w, Unhandled e)
      | (w, None) =>
          (emit (Awaited (log_audit "SETTINGS_UPDATED"
                   ("Thresholds updated: Low=" ++ str_float critical_low
                    ++ "%, High=" ++ str_float critical_high ++ "%")
                   "API" "INFO")) w,
           Success)
      end.

(** [POST /settings/automated/enable]. *)
Definition enable_automated_mode (w : world) : world * http_result :=
  if automated_mode_enabled (db w) then (w, Success)
  else
    let w := with_db (fun s => set_manual_override_state None
                                 (set_manual_override_active false
                                    (set_automated_mode_enabled true s))) w in
    let w := emit (Awaited (create_alert "AUTOMATED_MODE_ENABLED" "INFO" None None)) w in
    finish (await_broadcast w).

(** [POST /settings/automated/disable]. *)
Definition disable_automated_mode (w : world) : world * http_result :=
  if negb (automated_mode_enabled (db w)) then (w, Success)
  else
    let w := with_db (set_automated_mode_enabled false) w in
    let w := emit (Awaited (create_alert "AUTOMATED_MODE_DISABLED" "WARNING" None None)) w in
    finish (await_broadcast w).

(** [POST /settings/manual_override/toggle]. *)
Definition toggle_manual_override_safety (w : world) : world * http_result :=
  let current := allow_manual_override_at_any_moisture (db w) in
  let new_value := negb current in
  let w := with_db (set_allow_manual_override_at_any_moisture new_value) w in
  finish (await_broadcast w).

(** The pump part of the shutdown in [lifespan]: the pump is switched off
    and the auto-off timer, if alive, is cancelled (the global keeps
    referring to it). *)
Definition shutdown (w : world) : world :=
  let w := turn_pump_off "Server Shutdown" w in
  cancel_if_alive w.

(** *** HTTP requests to the store *)

Definition HTTP_MAX_RETRIES : nat := 3.

(** What one request yields: a response with its status code, or an
    [httpx.RequestError]. *)
Inductive attempt_outcome : Type :=
  | Response (status_code : Z)
  | RequestError.

(** The outcome of [OracleClient._make_request]: the response it returns
    (by its status code) or [None], the [asyncio.sleep] delays in order, the
    number of requests sent, and whether the final error was printed. *)
Record request_run : Type := mkRun {
  returned : option Z;
  sleeps : list Q;
  requests : nat;
  printed_error : bool
}.

Definition after_sleep (delay : Q) (r : request_run) : request_run :=
  mkRun (returned r) (delay :: sleeps r) (S (requests r)) (printed_error r).

(** The [for attempt in range(...)] loop over the attempts still to make;
    [server attempt] is what the request of that attempt yields. *)
Fixpoint _make_request_loop (server : nat -> attempt_outcome) (attempts : list nat)
    : request_run :=
  match attempts with
  | [] => mkRun None [] 0 false
  | attempt :: rest =>
      let delay := ((1 # 2) * inject_Z (Z.of_nat attempt + 1))%Q in
      match server attempt with
      | Response status_code =>
          if (200 <=? status_code) && (status_code <? 300)
          then mkRun (Some status_code) [] 1 false
          else if (500 <=? status_code) && (attempt <? HTTP_MAX_RETRIES - 1)%nat
          then after_sleep delay (_make_request_loop server rest)
          else mkRun None [] 1 false
      | RequestError =>
          if (attempt <? HTTP_MAX_RETRIES - 1)%nat
          then after_sleep delay (_make_request_loop server rest)
          else mkRun None [] 1 true
      end
  end.

Definition _make_request (server : nat -> attempt_outcome) : request_run :=
  _make_request_loop server (seq 0 HTTP_MAX_RETRIES).

(** [not response or response.status_code not in [200, 201]], the test the
    schedule endpoints apply to what the store client returned. *)
Definition store_refused (response : option Z) : bool :=
  match response with
  | Some status_code => negb ((status_code =? 200) || (status_code =? 201))
  | None => true
  end.

(** *** Schedule endpoints

    The path parameter has passed [validate_schedule_id]; the configured
    device id is taken to be valid, so the store client reaches
    [_make_request]. *)

(** [POST /schedule/pause/{schedule_id}]. *)
Definition pause_schedule (server : nat -> attempt_outcome) (schedule_id : Z)
    (jobs : gmap string job) : gmap string job * http_result :=
  let response := returned (_make_request server) in
  if store_refused response then (jobs, HTTPException 404)
  else (_remove_job_from_scheduler (pretty schedule_id) jobs, Success).

(** [DELETE /schedule/delete/{schedule_id}]; the alert it creates afterwards
    is returned beside the job store. *)
Definition delete_schedule (server : nat -> attempt_outcome) (schedule_id : Z)
    (jobs : gmap string job) : gmap string job * list event * http_result :=
  let response := returned (_make_request server) in
  if store_refused response then (jobs, [], HTTPException 404)
  else (_remove_job_from_scheduler (pretty schedule_id) jobs,
        [Awaited (create_alert "SCHEDULE_DELETED" "INFO" None None)], Success).

(** [next((s for s in items if s['id'] == schedule_id), None)]. *)
Definition find_schedule (schedule_id : Z) (items : list schedule_data)
    : option schedule_data :=
  List.find (fun s => sd_id s =? schedule_id) items.

(** [POST /schedule/resume/{schedule_id}]; [items] is the list the store
    returns for all schedules (empty when that request fails). *)
Definition resume_schedule (now : Z) (server : nat -> attempt_outcome)
    (items : list schedule_data) (schedule_id : Z) (jobs : gmap string job)
    : gmap string job * http_result :=
  let response := returned (_make_request server) in
  if store_refused response then (jobs, HTTPException 404)
  else
    match find_schedule schedule_id items with
    | Some schedule_data =>
        (fst (_add_or_update_job_in_scheduler now schedule_data jobs), Success)
    | None => (jobs, Success)
    end.

(** The loop [for schedule in active_schedules] of the startup;
    [now_at i] is the wall clock when the row at position [i] is compiled. *)
Fixpoint load_schedules (now_at : nat -> Z) (i : nat) (active_schedules : list schedule_data)
    (jobs : gmap string job) : gmap string job :=
  match active_schedules with
  | [] => jobs
  | schedule :: rest =>
      load_schedules now_at (S i) rest
        (fst (_add_or_update_job_in_scheduler (now_at i) schedule jobs))
  end.

(** The schedule loading of the startup in [lifespan]: the rows with
    [is_active == 1] are compiled in order. *)
Definition load_active_schedules (now_at : nat -> Z) (items : list schedule_data)
    (jobs : gmap string job) : gmap string job :=
  load_schedules now_at 0
    (List.filter (fun s => bool_decide (sd_is_active s = Some 1)) items) jobs.

(** *** The WebSocket connection manager

    Connections are identified by numbers; [send_fails] tells for which of
    them [send_text] raises during one broadcast. *)

Definition manager_connect (websocket : nat) (active_connections : list nat) : list nat :=
  (active_connections ++ [websocket])%list.

(** [list.remove(x)]: the first occurrence goes. *)
Fixpoint list_remove (x : nat) (l : list nat) : list nat :=
  match l with
  | [] => []
  | y :: rest => if (y =? x)%nat then rest else y :: list_remove x rest
  end.

Definition manager_disconnect (websocket : nat) (active_connections : list nat)
    : list nat :=
  if existsb (Nat.eqb websocket) active_connections
  then list_remove websocket active_connections
  else active_connections.

(** [ConnectionManager.broadcast]: the connections left and the
    connections a send was attempted on, in order. *)
Definition manager_broadcast (send_fails : nat -> bool) (active_connections : list nat)
    : list nat * list nat :=
  match active_connections with
  | [] => ([], [])
  | _ =>
      let connections := active_connections in
      let disconnected := List.filter send_fails connections in
      (fold_left (fun active conn => manager_disconnect conn active)
                 disconnected active_connections,
       connections)
  end.

(** *** Observations used by the further properties *)

(** Per zone: the tracker key, cooldown, alert type and severity the
    monitoring block uses. *)
Definition zone_key (z : zone) : alert_key :=
  match z with
  | CRITICAL_LOW => k_last_critical_low_alert
  | NORMAL => k_last_normal_alert
  | CRITICAL_HIGH => k_last_critical_high_alert
  end.

Definition zone_cooldown (z : zone) : Z :=
  match z with
  | CRITICAL_LOW | CRITICAL_HIGH => ALERT_COOLDOWN_CRITICAL
  | NORMAL => ALERT_COOLDOWN_INFO
  end.

Definition zone_alert (z : zone) (mode : string) (moisture : number) : event :=
  match z with
  | CRITICAL_LOW =>
      Task (create_alert "CRITICAL_LOW_MOISTURE" "CRITICAL" (Some mode) (Some moisture))
  | NORMAL =>
      Task (create_alert "NORMAL_MOISTURE" "INFO" (Some mode) (Some moisture))
  | CRITICAL_HIGH =>
      Task (create_alert "CRITICAL_HIGH_MOISTURE" "CRITICAL" (Some mode) (Some moisture))
  end.

(** The events of at most one pump command. *)
Definition pump_command_events (evs : list event) : Prop :=
  evs = [] \/
  (exists source, evs = [audit_on source; Publish "ON"; Task broadcast_current_state]) \/
  (exists source, evs = [audit_off source; Publish "OFF"; Task broadcast_current_state]).

(** The order of the extended reals on numbers; NaN is related to
    nothing. *)
Definition num_lt (a b : number) : Prop :=
  match a, b with
  | Finite x, Finite y => (x < y)%Q
  | Finite _, Infinity negative => negative = false
  | Infinity negative, Finite _ => negative = true
  | Infinity negative, Infinity negative' => negative = true /\ negative' = false
  | NaN, _ | _, NaN => False
  end.

Definition num_le (a b : number) : Prop :=
  match a, b with
  | Finite x, Finite y => (x <= y)%Q
  | Finite _, Infinity negative => negative = false
  | Infinity negative, Finite _ => negative = true
  | Infinity negative, Infinity negative' => negative = true \/ negative' = false
  | NaN, _ | _, NaN => False
  end.


(** The instants a [datetime] can hold. *)
Definition representable (dt : Z) : Prop := 0 <= dt <= DATETIME_MAX.

(** The interlock test of the handler on a sample. *)
Definition emergency (payload : gmap string pyval) (m : number) (s : state) : bool :=
  num_ltb (critical_high_threshold s) m
  && negb (allow_manual_override_at_any_moisture s)
  && get_eq_str (payload !! "pump_status") "ON".

(** The thresholds are percentages in the right order. *)
Definition thresholds_ok (s : state) : Prop :=
  (0 # 1 <= critical_low_threshold s)%Q /\
  (critical_low_threshold s < critical_high_threshold s)%Q /\
  (critical_high_threshold s <= 100 # 1)%Q.

(** The trace grows by events among which publishes and audit tasks are
    equally many. *)
Definition audited (w w' : world) : Prop :=
  exists evs, trace w' = (trace w ++ evs)%list /\
              count is_publish evs = count is_audit evs.

(** Answers of the store to one request: a 2xx response, and the answers
    after which [_make_request] tries again. *)
Definition is_success (o : attempt_outcome) : Prop :=
  exists status_code, o = Response status_code /\ 200 <= status_code < 300.

Definition is_retryable (o : attempt_outcome) : Prop :=
  o = RequestError \/ exists status_code, o = Response status_code /\ 500 <= status_code.

(** Runs that also use the settings endpoints, the override reset, the
    shutdown and the settings load of the startup. *)
Inductive api_step : world -> world -> Prop :=
  | api_backend w w' : step w w' -> api_step w w'
  | api_thresholds str_float lo hi saved w :
      api_step w (fst (set_automated_thresholds str_float lo hi saved w))
  | api_enable w : api_step w (fst (enable_automated_mode w))
  | api_disable w : api_step w (fst (disable_automated_mode w))
  | api_toggle w : api_step w (fst (toggle_manual_override_safety w))
  | api_clear w : api_step w (fst (clear_manual_override w))
  | api_shutdown w : api_step w (shutdown w)
  | api_startup lo hi automated allow w :
      api_step w (load_saved_settings lo hi automated allow w).

Inductive api_reachable : world -> Prop :=
  | api_reachable_init : api_reachable initial_world
  | api_reachable_step w w' : api_reachable w -> api_step w w' -> api_reachable w'.

(** ** Concrete data for the further properties *)

(** Automated mode has been switched off; no override is in force. *)
Definition idle_world : world :=
  with_db (set_automated_mode_enabled false) initial_world.

(** A store that answers every request with 200. *)
Definition store_ok (attempt : nat) : attempt_outcome := Response 200.

(** A store that answers 503 once and 200 afterwards. *)
Definition store_recovers (attempt : nat) : attempt_outcome :=
  match attempt with O => Response 503 | _ => Response 200 end.

Definition paused_schedule : schedule_data :=
  mkSchedule 4 (Some "Evening") 10 "18:30:00" (Some 0) (Some "tue").

(** ** Concrete data for the examples *)

(** A telemetry payload carrying a moisture value and a pump status. *)
Definition sample (moisture : pyval) (pump_status : string) : gmap string pyval :=
  <["moisture" := moisture]> (<["pump_status" := PStr pump_status]> ∅).

(** The safety toggle has switched [allow_manual_override_at_any_moisture]
    off. *)
Definition interlocked_world : world :=
  with_db (set_allow_manual_override_at_any_moisture false) initial_world.

(** An operator has requested the pump on. *)
Definition manual_on_world : world :=
  with_db (fun s => set_manual_override_state (Some "ON")
                      (set_manual_override_active true s)) initial_world.

(** A schedule named "Morning" is running and the pump is on. *)
Definition scheduled_world : world :=
  with_db (fun s => set_pump_is_on true
                      (set_schedule_end_time (Some (900 * second))
                         (set_current_schedule_name (Some "Morning") s)))
          initial_world.

(** An alert was recorded under the critical-low key at time [t]; it is now
    [now]. *)
Definition alerted_world (t now : Z) : world :=
  set_clock now (with_db (set_last_critical_low_alert (Some t)) initial_world).

Definition morning_schedule : schedule_data :=
  mkSchedule 7 (Some "Morning") 15 "06:00:00" (Some 1) (Some "mon,wed,fri").

Definition late_schedule : schedule_data :=
  mkSchedule 8 None 30 "23:45:10" (Some 1) (Some "Sat").

Definition dated_schedule : schedule_data :=
  mkSchedule 9 (Some "Once") 15 "06:00:00" (Some 1) (Some "2025-03-01").

(** The morning schedule with its start time written without seconds. *)
Definition short_time_schedule : schedule_data :=
  mkSchedule 7 (Some "Morning") 15 "6:00" (Some 1) (Some "mon,wed,fri").

(** The morning schedule with a duration of five thousand million
    minutes. *)
Definition endless_schedule : schedule_data :=
  mkSchedule 7 (Some "Morning") 5000000000 "06:00:00" (Some 1) (Some "mon,wed,fri").

(** 1 January 2025, 09:00 local time. *)
Definition new_year_2025 : Z := 739251 * day + 9 * 3600 * second.

(** An integer no float can hold. *)
Definition googol_4 : Q := inject_Z (10 ^ 400).

(** A stand-in for the scheduler's parser in the examples: comma-separated
    lower-case weekday names. *)
Definition weekday_list (days : string) : bool :=
  forallb (fun d => existsb (String.eqb d) ["mon"; "tue"; "wed"; "thu"; "fri"; "sat"; "sun"])
          (split "," days).

(** * Properties *)

(** ** Comparisons *)

Lemma Qltb_lt (a b : Q) : Qltb a b = true <-> (a < b)%Q.
Proof.
  unfold Qltb. rewrite negb_true_iff. split.
  - intros H. apply Qnot_le_lt. intros Hle.
    apply Qle_bool_iff in Hle. congruence.
  - intros H. destruct (Qle_bool b a) eqn:E; [|reflexivity].
    apply Qle_bool_iff in E. exfalso. exact (Qlt_not_le _ _ H E).
Qed.

Lemma Qleb_le (a b : Q) : Qleb a b = true <-> (a <= b)%Q.
Proof. unfold Qleb. apply Qle_bool_iff. Qed.

Lemma Qltb_ge (a b : Q) : Qltb a b = false <-> (b <= a)%Q.
Proof.
  unfold Qltb. rewrite negb_false_iff. apply Qle_bool_iff.
Qed.

Lemma Qleb_gt (a b : Q) : Qleb a b = false <-> (b < a)%Q.
Proof.
  split.
  - intros H. apply Qnot_le_lt. intros Hle. apply Qleb_le in Hle. congruence.
  - intros H. destruct (Qleb a b) eqn:E; [|reflexivity].
    apply Qleb_le in E. exfalso. exact (Qlt_not_le _ _ H E).
Qed.

(** ** Moisture zones *)

Lemma num_ltb_lt (a b : number) : num_ltb a b = true <-> num_lt a b.
Proof.
  destruct a as [x| |[|]], b as [y| |[|]]; simpl;
    try apply Qltb_lt;
    split; intros H; try discriminate H; try contradiction;
    try reflexivity; try (destruct H; discriminate); auto.
Qed.

Lemma num_leb_le (a b : number) : num_leb a b = true <-> num_le a b.
Proof.
  destruct a as [x| |[|]], b as [y| |[|]]; simpl;
    try apply Qleb_le;
    split; intros H; try discriminate H; try contradiction;
    try reflexivity; try (destruct H; discriminate); auto.
Qed.

Lemma num_lt_not_le (a b : number) : num_lt a b -> ~ num_le b a.
Proof.
  destruct a as [x| |[|]], b as [y| |[|]]; simpl; intros H H';
    try contradiction; try discriminate; try (destruct H; discriminate);
    try (destruct H' as [H'|H']; discriminate).
  exact (Qlt_not_le _ _ H H').
Qed.

Lemma num_total (a : number) (q : Q) : a <> NaN -> num_lt a q \/ num_le q a.
Proof.
  destruct a as [x| |[|]]; simpl; intros Hn; [|congruence|auto|auto].
  destruct (Qlt_le_dec x q); auto.
Qed.

Lemma num_total' (a : number) (q : Q) : a <> NaN -> num_le a q \/ num_lt q a.
Proof.
  destruct a as [x| |[|]]; simpl; intros Hn; [|congruence|auto|auto].
  destruct (Qlt_le_dec q x); auto.
Qed.

Lemma classify_low (m : number) (lo hi : Q) :
  classify m lo hi = Some CRITICAL_LOW <-> num_lt m lo.
Proof.
  unfold classify. destruct (num_ltb m lo) eqn:E1.
  - apply num_ltb_lt in E1. split; auto.
  - split.
    + destruct (num_leb lo m && num_leb m hi); [discriminate|].
      destruct (num_ltb hi m); discriminate.
    + intros H. apply num_ltb_lt in H. congruence.
Qed.

Lemma classify_normal (m : number) (lo hi : Q) :
  classify m lo hi = Some NORMAL <-> num_le lo m /\ num_le m hi.
Proof.
  unfold classify. destruct (num_ltb m lo) eqn:E1.
  - apply num_ltb_lt in E1. split; [discriminate|].
    intros [H _]. exfalso. exact (num_lt_not_le _ _ E1 H).
  - destruct (num_leb lo m && num_leb m hi) eqn:E2.
    + apply andb_true_iff in E2 as [H1 H2].
      apply num_leb_le in H1, H2. split; auto.
    + split; [destruct (num_ltb hi m); discriminate|].
      intros [H1 H2]. apply num_leb_le in H1, H2.
      rewrite H1, H2 in E2. discriminate.
Qed.

Lemma classify_high (m : number) (lo hi : Q) :
  (lo < hi)%Q -> classify m lo hi = Some CRITICAL_HIGH <-> num_lt hi m.
Proof.
  intros Hlh. unfold classify. destruct (num_ltb m lo) eqn:E1.
  - apply num_ltb_lt in E1. split; [discriminate|].
    intros H. exfalso. destruct m as [x| |[|]]; simpl in *;
      try contradiction; try discriminate.
    apply (Qlt_irrefl x). eapply Qlt_trans; [exact E1|].
    eapply Qlt_trans; [exact Hlh | exact H].
  - destruct (num_leb lo m && num_leb m hi) eqn:E2.
    + apply andb_true_iff in E2 as [_ H2]. apply num_leb_le in H2.
      split; [discriminate|].
      intros H. exfalso. exact (num_lt_not_le _ _ H H2).
    + destruct (num_ltb hi m) eqn:E3.
      * apply num_ltb_lt in E3. split; auto.
      * split; [discriminate|]. intros H. apply num_ltb_lt in H. congruence.
Qed.

Lemma classify_total (m : number) (lo hi : Q) :
  m <> NaN -> classify m lo hi <> None.
Proof.
  intros Hn. unfold classify. destruct (num_ltb m lo) eqn:E1; [discriminate|].
  destruct (num_leb lo m && num_leb m hi) eqn:E2; [discriminate|].
  destruct (num_ltb hi m) eqn:E3; [discriminate|].
  exfalso.
  destruct (num_total m lo Hn) as [H|H1];
    [apply num_ltb_lt in H; congruence|].
  destruct (num_total' m hi Hn) as [H2|H];
    [|apply num_ltb_lt in H; congruence].
  apply num_leb_le in H1, H2. rewrite H1, H2 in E2. discriminate.
Qed.

Lemma classify_nan (lo hi : Q) : classify NaN lo hi = None.
Proof. reflexivity. Qed.

(** C7 (as amended). For thresholds with [critical_low < critical_high]
    and every moisture that is a number other than NaN (an int, a finite
    float or an infinity), the classification performed by the handler yields
    exactly one zone: CRITICAL_LOW exactly when [m < critical_low], NORMAL
    exactly when [critical_low <= m <= critical_high] (both boundaries
    included) and CRITICAL_HIGH exactly when [m > critical_high]. A NaN
    moisture falls in no zone. *)
Theorem zone_partition (m : number) (critical_low critical_high : Q) :
  (critical_low < critical_high)%Q ->
  (m <> NaN ->
   exists z, classify m critical_low critical_high = Some z /\
             forall z', classify m critical_low critical_high = Some z' -> z' = z) /\
  (classify m critical_low critical_high = Some CRITICAL_LOW <-> num_lt m critical_low) /\
  (classify m critical_low critical_high = Some NORMAL <->
     num_le critical_low m /\ num_le m critical_high) /\
  (classify m critical_low critical_high = Some CRITICAL_HIGH <->
     num_lt critical_high m) /\
  classify critical_low critical_low critical_high = Some NORMAL /\
  classify critical_high critical_low critical_high = Some NORMAL /\
  classify NaN critical_low critical_high = None.
Proof.
  intros Hlh. split; [|split; [|split; [|split; [|split; [|split]]]]].
  - intros Hn. destruct (classify m critical_low critical_high) as [z|] eqn:E.
    + exists z. split; [reflexivity|]. intros z' Hz'. congruence.
    + exfalso. exact (classify_total _ _ _ Hn E).
  - apply classify_low.
  - apply classify_normal.
  - apply classify_high, Hlh.
  - apply classify_normal. split; [apply Qle_refl | apply Qlt_le_weak, Hlh].
  - apply classify_normal. split; [apply Qlt_le_weak, Hlh | apply Qle_refl].
  - reflexivity.
Qed.

(** ** Alert cooldown *)

Lemma total_seconds_ge (cooldown d : Z) :
  Qleb (inject_Z cooldown) (total_seconds d) = true <-> cooldown * second <= d.
Proof.
  rewrite Qleb_le. unfold Qle, total_seconds, inject_Z, second. simpl. lia.
Qed.

(** C6. [should_send_alert] answers true when no firing is recorded under
    the key; with a firing recorded at time [t] and cooldown [C] seconds it
    answers false at every time before [t + C] (so at [t + C - 1s]) and true
    at every time from [t + C] on. *)
Theorem should_send_alert_cooldown (key : alert_key) (C : Z) (w : world) :
  (get_alert key (db w) = None -> should_send_alert key C w = true) /\
  (forall t, get_alert key (db w) = Some t ->
     (clock w < t + C * second -> should_send_alert key C w = false) /\
     (clock w = t + C * second - second -> should_send_alert key C w = false) /\
     (t + C * second <= clock w -> should_send_alert key C w = true)).
Proof.
  unfold should_send_alert. split.
  - intros ->. reflexivity.
  - intros t ->.
    assert (Hlt : clock w < t + C * second ->
                  Qleb (inject_Z C) (total_seconds (clock w - t)) = false).
    { intros H. destruct (Qleb _ _) eqn:E; [|reflexivity].
      apply total_seconds_ge in E. lia. }
    split; [|split].
    + exact Hlt.
    + intros H. apply Hlt. unfold second in *. lia.
    + intros H. apply total_seconds_ge. lia.
Qed.


(** ** Pump commands *)

Lemma turn_pump_on_already (source : string) (w : world) :
  pump_is_on (db w) = true -> turn_pump_on source w = print AlreadyOn w.
Proof. intros H. unfold turn_pump_on. rewrite H. reflexivity. Qed.

Lemma turn_pump_off_already (source : string) (w : world) :
  pump_is_on (db w) = false -> turn_pump_off source w = print AlreadyOff w.
Proof. intros H. unfold turn_pump_off. rewrite H. reflexivity. Qed.

Lemma cancel_if_alive_frame (w : world) :
  db (cancel_if_alive w) = db w /\ trace (cancel_if_alive w) = trace w /\
  console (cancel_if_alive w) = console w /\ clock (cancel_if_alive w) = clock w /\
  auto_off_timer (cancel_if_alive w) = auto_off_timer w /\
  length (timers (cancel_if_alive w)) = length (timers w).
Proof.
  unfold cancel_if_alive. destruct (auto_off_timer w) as [i|] eqn:Ei; [|tauto].
  destruct (timers w !! i) as [t|]; [|tauto].
  destruct (is_alive t); [|tauto]. simpl. rewrite length_insert. tauto.
Qed.

Lemma cancel_and_clear_frame (w : world) :
  db (cancel_and_clear_if_alive w) = db w /\
  trace (cancel_and_clear_if_alive w) = trace w /\
  console (cancel_and_clear_if_alive w) = console w /\
  clock (cancel_and_clear_if_alive w) = clock w /\
  timers (cancel_and_clear_if_alive w) = timers (cancel_if_alive w).
Proof.
  unfold cancel_and_clear_if_alive, cancel_if_alive.
  destruct (auto_off_timer w) as [i|]; [|tauto].
  destruct (timers w !! i) as [t|]; [|tauto].
  destruct (is_alive t); tauto.
Qed.

Lemma turn_pump_on_db (source : string) (w : world) :
  db (turn_pump_on source w) = set_pump_is_on true (db w).
Proof.
  unfold turn_pump_on. destruct (pump_is_on (db w)) eqn:E.
  - simpl. destruct (db w); simpl in *; subst; reflexivity.
  - simpl. apply cancel_if_alive_frame.
Qed.

Lemma turn_pump_on_trace (source : string) (w : world) :
  pump_is_on (db w) = false ->
  trace (turn_pump_on source w) =
  (trace w ++ [audit_on source; Publish "ON"; Task broadcast_current_state])%list.
Proof.
  intros H. unfold turn_pump_on. rewrite H. simpl.
  destruct (cancel_if_alive_frame
              (with_db (set_pump_is_on true)
                 (publish "ON" (schedule_async_task
                    (log_audit "PUMP_CONTROL" ("Pump turned ON - " ++ source) source "INFO") w))))
    as (_ & -> & _).
  simpl. rewrite <- !app_assoc. reflexivity.
Qed.

Lemma turn_pump_off_db (source : string) (w : world) :
  pump_is_on (db w) = true ->
  db (turn_pump_off source w) =
  set_last_known_flow_lpm (PNum (0 # 1)) (set_pump_is_on false (db w)).
Proof.
  intros H. unfold turn_pump_off. rewrite H. simpl.
  apply cancel_and_clear_frame.
Qed.

Lemma turn_pump_off_trace (source : string) (w : world) :
  pump_is_on (db w) = true ->
  trace (turn_pump_off source w) =
  (trace w ++ [audit_off source; Publish "OFF"; Task broadcast_current_state])%list.
Proof.
  intros H. unfold turn_pump_off. rewrite H. simpl.
  destruct (cancel_and_clear_frame
              (with_db (fun s => set_last_known_flow_lpm (PNum (0 # 1)) (set_pump_is_on false s))
                 (publish "OFF" (schedule_async_task
                    (log_audit "PUMP_CONTROL" ("Pump turned OFF - " ++ source) source "INFO") w))))
    as (_ & -> & _).
  simpl. rewrite <- !app_assoc. reflexivity.
Qed.

Lemma turn_pump_off_pump (source : string) (w : world) :
  pump_is_on (db (turn_pump_off source w)) = false.
Proof.
  destruct (pump_is_on (db w)) eqn:E.
  - rewrite turn_pump_off_db by exact E. reflexivity.
  - rewrite turn_pump_off_already by exact E. exact E.
Qed.

Lemma count_app (p : event -> bool) (l1 l2 : list event) :
  count p (l1 ++ l2)%list = (count p l1 + count p l2)%nat.
Proof. unfold count. rewrite List.filter_app, length_app. reflexivity. Qed.

(** C4. [turn_pump_on] is idempotent: on a pump already on it only prints the
    duplicate notice (no publish, no audit record, timer untouched), so two
    calls in a row publish once and audit once; [turn_pump_off] likewise on a
    pump already off. *)
Theorem pump_commands_idempotent (s1 s2 : string) (w : world) :
  (pump_is_on (db w) = true -> turn_pump_on s1 w = print AlreadyOn w) /\
  turn_pump_on s2 (turn_pump_on s1 w) = print AlreadyOn (turn_pump_on s1 w) /\
  (pump_is_on (db w) = false ->
     let w' := turn_pump_on s2 (turn_pump_on s1 w) in
     trace w' = (trace w ++ [audit_on s1; Publish "ON"; Task broadcast_current_state])%list /\
     count is_publish (trace w') = S (count is_publish (trace w)) /\
     count is_audit (trace w') = S (count is_audit (trace w))) /\
  (pump_is_on (db w) = false -> turn_pump_off s1 w = print AlreadyOff w) /\
  turn_pump_off s2 (turn_pump_off s1 w) = print AlreadyOff (turn_pump_off s1 w) /\
  (pump_is_on (db w) = true ->
     let w' := turn_pump_off s2 (turn_pump_off s1 w) in
     trace w' = (trace w ++ [audit_off s1; Publish "OFF"; Task broadcast_current_state])%list /\
     count is_publish (trace w') = S (count is_publish (trace w)) /\
     count is_audit (trace w') = S (count is_audit (trace w))).
Proof.
  assert (Hon2 : turn_pump_on s2 (turn_pump_on s1 w) = print AlreadyOn (turn_pump_on s1 w)).
  { apply turn_pump_on_already. rewrite turn_pump_on_db. reflexivity. }
  assert (Hoff2 : turn_pump_off s2 (turn_pump_off s1 w) = print AlreadyOff (turn_pump_off s1 w)).
  { apply turn_pump_off_already, turn_pump_off_pump. }
  split; [apply turn_pump_on_already|].
  split; [exact Hon2|].
  split.
  { intros H. cbv zeta. rewrite Hon2. simpl.
    rewrite turn_pump_on_trace by exact H.
    split; [reflexivity|]. rewrite !count_app. unfold count. simpl. split; lia. }
  split; [apply turn_pump_off_already|].
  split; [exact Hoff2|].
  intros H. cbv zeta. rewrite Hoff2. simpl.
  rewrite turn_pump_off_trace by exact H.
  split; [reflexivity|]. rewrite !count_app. unfold count. simpl. split; lia.
Qed.


(** ** Auto-off timers *)

Lemma live_alive (t : Timer) : live t -> is_alive t = true.
Proof. unfold live, is_alive. intros ->. reflexivity. Qed.

Lemma due_live (now : Z) (t : Timer) : due now t = true -> live t.
Proof. unfold due, live. destruct (status t); congruence. Qed.

Lemma timers_ok_ext (w w' : world) :
  timers w' = timers w -> auto_off_timer w' = auto_off_timer w ->
  timers_ok w -> timers_ok w'.
Proof. unfold timers_ok. intros -> ->. auto. Qed.

Lemma no_live_ok (w : world) : no_live_timer w -> timers_ok w.
Proof.
  intros H i t Hi Ha. rewrite (H i t Hi) in Ha. discriminate.
Qed.

Lemma timers_ok_one (w : world) : timers_ok w -> at_most_one_live w.
Proof.
  intros H i j ti tj Hi Hj Li Lj.
  destruct (H i ti Hi (live_alive _ Li)) as [_ Ri].
  destruct (H j tj Hj (live_alive _ Lj)) as [_ Rj].
  congruence.
Qed.

Lemma cancel_not_alive (t : Timer) : live t -> is_alive (cancel t) = false.
Proof. unfold live, cancel, is_alive. intros ->. reflexivity. Qed.

Lemma cancel_if_alive_dead (w : world) :
  timers_ok w -> no_live_timer (cancel_if_alive w).
Proof.
  intros Hok i t. unfold cancel_if_alive.
  assert (Hsame : timers w !! i = Some t ->
                  auto_off_timer w <> Some i -> is_alive t = false).
  { intros Hi Hne. destruct (is_alive t) eqn:E; [|reflexivity].
    destruct (Hok i t Hi E) as [_ Hr]. contradiction. }
  destruct (auto_off_timer w) as [k|] eqn:Ek; [|intros Hi; apply Hsame; congruence].
  destruct (timers w !! k) as [tk|] eqn:Etk.
  - destruct (is_alive tk) eqn:Ea.
    + simpl. destruct (decide (k = i)) as [->|Hne].
      * rewrite list_lookup_insert_eq by (eapply lookup_lt_Some; eauto).
        intros [= <-]. apply cancel_not_alive. apply (Hok i tk Etk Ea).
      * rewrite list_lookup_insert_ne by exact Hne.
        intros Hi. apply Hsame; congruence.
    + intros Hi. destruct (decide (k = i)) as [->|Hne]; [congruence|].
      apply Hsame; congruence.
  - intros Hi. destruct (decide (k = i)) as [->|Hne]; [congruence|].
    apply Hsame; congruence.
Qed.

Lemma cancel_if_alive_ext (w w' : world) :
  timers w' = timers w -> auto_off_timer w' = auto_off_timer w ->
  timers (cancel_if_alive w') = timers (cancel_if_alive w).
Proof.
  intros Ht Hr. unfold cancel_if_alive. rewrite Ht, Hr.
  destruct (auto_off_timer w) as [k|]; [|exact Ht].
  destruct (timers w !! k) as [tk|]; [|exact Ht].
  destruct (is_alive tk); simpl; congruence.
Qed.

(** An effective [turn_pump_on] leaves every earlier timer dead and appends
    the new one, which becomes [auto_off_timer]. *)
Lemma turn_pump_on_timers (source : string) (w : world) :
  pump_is_on (db w) = false ->
  timers (turn_pump_on source w) =
    (timers (cancel_if_alive w) ++
     [mkTimer (clock w + PUMP_AUTO_OFF_MINUTES * 60 * second) Waiting])%list /\
  auto_off_timer (turn_pump_on source w) = Some (length (timers w)) /\
  clock (turn_pump_on source w) = clock w /\
  console (turn_pump_on source w) = console w.
Proof.
  intros H. unfold turn_pump_on. rewrite H. simpl.
  set (w0 := with_db _ _).
  destruct (cancel_if_alive_frame w0) as (_ & _ & Hc & Hk & _ & Hl).
  rewrite Hl, Hk, Hc. subst w0. simpl.
  rewrite (cancel_if_alive_ext w) by reflexivity. auto.
Qed.

Lemma timers_ok_turn_pump_on (source : string) (w : world) :
  timers_ok w -> timers_ok (turn_pump_on source w).
Proof.
  intros Hok. destruct (pump_is_on (db w)) eqn:E.
  - rewrite turn_pump_on_already by exact E. exact Hok.
  - destruct (turn_pump_on_timers source w E) as (Ht & Hr & _).
    intros i t. rewrite Ht, Hr.
    destruct (cancel_if_alive_frame w) as (_ & _ & _ & _ & _ & Hl).
    intros Hi Ha. apply lookup_app_Some in Hi as [Hi|[Hge Hi]].
    + rewrite (cancel_if_alive_dead w Hok i t Hi) in Ha. discriminate.
    + rewrite Hl in *.
      destruct (i - length (timers w))%nat as [|n] eqn:En; simpl in Hi; [|discriminate].
      injection Hi as <-. split; [reflexivity|]. f_equal. lia.
Qed.

Lemma turn_pump_off_timers (source : string) (w : world) :
  pump_is_on (db w) = true ->
  timers (turn_pump_off source w) = timers (cancel_if_alive w) /\
  clock (turn_pump_off source w) = clock w /\
  console (turn_pump_off source w) = console w.
Proof.
  intros H. unfold turn_pump_off. rewrite H. simpl.
  set (w0 := with_db _ _).
  destruct (cancel_and_clear_frame w0) as (_ & _ & Hc & Hk & Ht).
  rewrite Ht, Hc, Hk. subst w0. simpl.
  rewrite (cancel_if_alive_ext w) by reflexivity. auto.
Qed.

Lemma turn_pump_off_no_live (source : string) (w : world) :
  timers_ok w -> pump_is_on (db w) = true -> no_live_timer (turn_pump_off source w).
Proof.
  intros Hok H i t. destruct (turn_pump_off_timers source w H) as (-> & _).
  apply cancel_if_alive_dead, Hok.
Qed.

Lemma timers_ok_turn_pump_off (source : string) (w : world) :
  timers_ok w -> timers_ok (turn_pump_off source w).
Proof.
  intros Hok. destruct (pump_is_on (db w)) eqn:E.
  - apply no_live_ok, turn_pump_off_no_live; assumption.
  - rewrite turn_pump_off_already by exact E. exact Hok.
Qed.


(** The expiry of the live timer: its callback is [turn_pump_off], and the
    timer ends up finished. *)
Lemma fire_spec (i : nat) (t : Timer) (w : world) :
  timers_ok w -> timers w !! i = Some t -> live t ->
  timers (fire i w) = <[i := mkTimer (deadline t) Finished]> (timers w) /\
  db (fire i w) = db (turn_pump_off "Auto-shutoff" w) /\
  trace (fire i w) = trace (turn_pump_off "Auto-shutoff" w) /\
  clock (fire i w) = clock w.
Proof.
  intros Hok Hi Hl.
  destruct (Hok i t Hi (live_alive _ Hl)) as [_ Hr].
  assert (Hlt : (i < length (timers w))%nat) by (eapply lookup_lt_Some; eauto).
  unfold fire, set_timer_status. rewrite Hi.
  unfold turn_pump_off. simpl.
  destruct (pump_is_on (db w)) eqn:E; simpl.
  - unfold cancel_and_clear_if_alive. simpl. rewrite Hr.
    rewrite list_lookup_insert_eq by exact Hlt. simpl.
    rewrite list_lookup_insert_eq by (rewrite length_insert; exact Hlt). simpl.
    rewrite !list_insert_insert_eq. rewrite Hi, (live_alive _ Hl). simpl. auto.
  - rewrite list_lookup_insert_eq by exact Hlt. simpl.
    rewrite !list_insert_insert_eq. auto.
Qed.

Lemma fire_no_live (i : nat) (t : Timer) (w : world) :
  timers_ok w -> timers w !! i = Some t -> live t -> no_live_timer (fire i w).
Proof.
  intros Hok Hi Hl j tj.
  destruct (fire_spec i t w Hok Hi Hl) as (-> & _).
  destruct (decide (i = j)) as [->|Hne].
  - rewrite list_lookup_insert_eq by (eapply lookup_lt_Some; eauto).
    intros [= <-]. reflexivity.
  - rewrite list_lookup_insert_ne by exact Hne. intros Hj.
    destruct (is_alive tj) eqn:Ea; [|reflexivity].
    destruct (Hok j tj Hj Ea) as [_ Rj].
    destruct (Hok i t Hi (live_alive _ Hl)) as [_ Ri]. congruence.
Qed.

Lemma not_alive_not_due (now : Z) (t : Timer) : is_alive t = false -> due now t = false.
Proof. unfold is_alive, due. destruct (status t); congruence. Qed.

Lemma fire_if_due_idle (w : world) (i : nat) :
  (forall t, timers w !! i = Some t -> due (clock w) t = false) ->
  fire_if_due w i = w.
Proof.
  intros H. unfold fire_if_due. destruct (timers w !! i) as [t|]; [|reflexivity].
  rewrite (H t eq_refl). reflexivity.
Qed.

Lemma fold_fire_idle (l : list nat) (w : world) :
  (forall i t, timers w !! i = Some t -> due (clock w) t = false) ->
  fold_left fire_if_due l w = w.
Proof.
  intros H. induction l as [|i l IH]; simpl; [reflexivity|].
  rewrite fire_if_due_idle by (intros t; apply H). exact IH.
Qed.

Lemma fold_fire_one (k : nat) (w w' : world) (l : list nat) :
  NoDup l -> k ∈ l ->
  (forall i, i <> k -> fire_if_due w i = w) ->
  fire_if_due w k = w' ->
  (forall i t, timers w' !! i = Some t -> due (clock w') t = false) ->
  fold_left fire_if_due l w = w'.
Proof.
  intros Hnd Hin Hother Hk Hafter. induction l as [|i l IH]; simpl.
  - inversion Hin.
  - apply NoDup_cons in Hnd as [Hni Hnd].
    destruct (decide (i = k)) as [->|Hne].
    + rewrite Hk. apply fold_fire_idle, Hafter.
    + rewrite Hother by exact Hne. apply IH; [exact Hnd|].
      apply elem_of_cons in Hin as [->|Hin]; [contradiction|exact Hin].
Qed.

(** With the timer discipline in force, the passage of time can only expire
    the timer [auto_off_timer] refers to. *)
Lemma fire_due_spec (w : world) :
  timers_ok w ->
  fire_due w =
  match auto_off_timer w with
  | Some k =>
      match timers w !! k with
      | Some t => if due (clock w) t then fire k w else w
      | None => w
      end
  | None => w
  end.
Proof.
  intros Hok. unfold fire_due.
  assert (Hidle : forall i t, timers w !! i = Some t -> due (clock w) t = true ->
                              auto_off_timer w = Some i).
  { intros i t Hi Hd. apply (Hok i t Hi), live_alive, (due_live _ _ Hd). }
  destruct (auto_off_timer w) as [k|] eqn:Ek.
  - destruct (timers w !! k) as [t|] eqn:Et.
    + destruct (due (clock w) t) eqn:Ed.
      * apply (fold_fire_one k).
        -- apply NoDup_seq.
        -- apply elem_of_seq. apply lookup_lt_Some in Et. lia.
        -- intros i Hne. apply fire_if_due_idle. intros ti Hi.
           destruct (due (clock w) ti) eqn:Edi; [|reflexivity].
           specialize (Hidle i ti Hi Edi). congruence.
        -- unfold fire_if_due. rewrite Et, Ed. reflexivity.
        -- intros i ti Hi. apply not_alive_not_due.
           eapply (fire_no_live k t w Hok Et (due_live _ _ Ed)); eauto.
      * apply fold_fire_idle. intros i ti Hi.
        destruct (due (clock w) ti) eqn:Edi; [|reflexivity].
        specialize (Hidle i ti Hi Edi). congruence.
    + apply fold_fire_idle. intros i ti Hi.
      destruct (due (clock w) ti) eqn:Edi; [|reflexivity].
      specialize (Hidle i ti Hi Edi). congruence.
  - apply fold_fire_idle. intros i ti Hi.
    destruct (due (clock w) ti) eqn:Edi; [|reflexivity].
    specialize (Hidle i ti Hi Edi). congruence.
Qed.

Lemma timers_ok_advance (t : Z) (w : world) :
  timers_ok w -> timers_ok (advance t w).
Proof.
  intros Hok. unfold advance.
  assert (Hok' : timers_ok (set_clock t w)) by exact Hok.
  rewrite fire_due_spec by exact Hok'.
  destruct (auto_off_timer (set_clock t w)) as [k|]; [|exact Hok'].
  destruct (timers (set_clock t w) !! k) as [tk|] eqn:Ek; [|exact Hok'].
  destruct (due (clock (set_clock t w)) tk) eqn:Ed; [|exact Hok'].
  apply no_live_ok. eapply fire_no_live; eauto using due_live.
Qed.

Lemma advance_no_live (t : Z) (w : world) :
  no_live_timer w -> advance t w = set_clock t w.
Proof.
  intros H. unfold advance, fire_due. apply fold_fire_idle.
  intros i ti Hi. apply not_alive_not_due, (H i ti Hi).
Qed.


(** ** Frame properties of the handler's blocks *)

Lemma turn_pump_off_db_cases (source : string) (w : world) :
  db (turn_pump_off source w) =
  if pump_is_on (db w)
  then set_last_known_flow_lpm (PNum (0 # 1)) (set_pump_is_on false (db w))
  else db w.
Proof.
  destruct (pump_is_on (db w)) eqn:E.
  - apply turn_pump_off_db, E.
  - rewrite turn_pump_off_already by exact E. reflexivity.
Qed.

Lemma turn_pump_on_events (source : string) (w : world) :
  exists evs, trace (turn_pump_on source w) = (trace w ++ evs)%list /\
              count is_pump_alert evs = 0%nat.
Proof.
  destruct (pump_is_on (db w)) eqn:E.
  - exists []. rewrite turn_pump_on_already by exact E. simpl.
    rewrite app_nil_r. auto.
  - eexists. rewrite turn_pump_on_trace by exact E. split; reflexivity.
Qed.

Lemma turn_pump_off_events (source : string) (w : world) :
  exists evs, trace (turn_pump_off source w) = (trace w ++ evs)%list /\
              count is_pump_alert evs = 0%nat.
Proof.
  destruct (pump_is_on (db w)) eqn:E.
  - eexists. rewrite turn_pump_off_trace by exact E. split; reflexivity.
  - exists []. rewrite turn_pump_off_already by exact E. simpl.
    rewrite app_nil_r. auto.
Qed.

Lemma monitor_moisture_frame (m : number) (lo hi : Q) (mode : string) (now : Z) (w : world) :
  let w' := monitor_moisture m lo hi mode now w in
  (exists a b c,
     db w' = set_last_critical_high_alert c
               (set_last_critical_low_alert b (set_last_normal_alert a (db w)))) /\
  (exists alerts, trace w' = (trace w ++ alerts)%list /\
                  Forall (fun e => is_zone_alert e = true) alerts /\
                  (length alerts <= 1)%nat) /\
  timers w' = timers w /\ auto_off_timer w' = auto_off_timer w /\
  clock w' = clock w /\ console w' = console w.
Proof.
  assert (Hnil : exists alerts, trace w = (trace w ++ alerts)%list /\
                   Forall (fun e => is_zone_alert e = true) alerts /\
                   (length alerts <= 1)%nat).
  { exists []. rewrite app_nil_r. split; [reflexivity|]. split; [constructor|simpl; lia]. }
  assert (Hone : forall e, is_zone_alert e = true ->
                   exists alerts, (trace w ++ [e])%list = (trace w ++ alerts)%list /\
                   Forall (fun e => is_zone_alert e = true) alerts /\
                   (length alerts <= 1)%nat).
  { intros e He. exists [e]. split; [reflexivity|]. split; [repeat constructor; exact He|simpl; lia]. }
  unfold monitor_moisture.
  destruct (classify m lo hi) as [[| |]|].
  - destruct (should_send_alert _ _ w); simpl.
    + split; [exists None, (Some now), None; reflexivity|].
      split; [apply Hone; reflexivity|auto].
    + split; [exists None, (last_critical_low_alert (db w)), None; reflexivity|].
      split; [exact Hnil|auto].
  - destruct (should_send_alert _ _ w); simpl.
    + split; [exists (Some now), None, None; reflexivity|].
      split; [apply Hone; reflexivity|auto].
    + split; [exists (last_normal_alert (db w)), None, None; reflexivity|].
      split; [exact Hnil|auto].
  - destruct (should_send_alert _ _ w); simpl.
    + split; [exists None, None, (Some now); reflexivity|].
      split; [apply Hone; reflexivity|auto].
    + split; [exists None, None, (last_critical_high_alert (db w)); reflexivity|].
      split; [exact Hnil|auto].
  - simpl. split.
    + exists (last_normal_alert (db w)), (last_critical_low_alert (db w)),
        (last_critical_high_alert (db w)).
      destruct (db w); reflexivity.
    + split; [exact Hnil|auto].
Qed.

Lemma zone_alerts_not_pump (alerts : list event) :
  Forall (fun e => is_zone_alert e = true) alerts ->
  count is_pump_alert alerts = 0%nat /\ count is_publish alerts = 0%nat.
Proof.
  induction 1 as [|e l He _ [IH1 IH2]]; [split; reflexivity|].
  unfold count in *. simpl.
  destruct e as [c|[| ty sev mo mi |]|c]; simpl in *; try discriminate.
  assert (Hp : String.eqb ty "PUMP_ON" || String.eqb ty "PUMP_OFF" = false).
  { apply orb_true_iff in He as [He|He]; [apply orb_true_iff in He as [He|He]|];
      apply String.eqb_eq in He; subst ty; reflexivity. }
  rewrite Hp. auto.
Qed.

Lemma control_db (m : number) (lo hi : Q) (active : bool) (st : option string) (new : bool)
    (w : world) :
  let w' := control m lo hi active st new w in
  db w' = db w \/ db w' = set_pump_is_on true (db w) \/
  db w' = set_last_known_flow_lpm (PNum (0 # 1)) (set_pump_is_on false (db w)).
Proof.
  assert (Hoff : forall src,
            db (turn_pump_off src w) = db w \/
            db (turn_pump_off src w) = set_pump_is_on true (db w) \/
            db (turn_pump_off src w) =
              set_last_known_flow_lpm (PNum (0 # 1)) (set_pump_is_on false (db w))).
  { intros src. rewrite turn_pump_off_db_cases. destruct (pump_is_on (db w)); auto. }
  assert (Hon : forall src,
            db (turn_pump_on src w) = db w \/
            db (turn_pump_on src w) = set_pump_is_on true (db w) \/
            db (turn_pump_on src w) =
              set_last_known_flow_lpm (PNum (0 # 1)) (set_pump_is_on false (db w))).
  { intros src. rewrite turn_pump_on_db. auto. }
  unfold control.
  repeat match goal with
         | |- context [if ?b then _ else _] => destruct b
         end; auto.
Qed.

Lemma control_events (m : number) (lo hi : Q) (active : bool) (st : option string) (new : bool)
    (w : world) :
  exists evs, trace (control m lo hi active st new w) = (trace w ++ evs)%list /\
              count is_pump_alert evs = 0%nat.
Proof.
  assert (Hid : exists evs, trace w = (trace w ++ evs)%list /\
                            count is_pump_alert evs = 0%nat).
  { exists []. rewrite app_nil_r. auto. }
  unfold control.
  repeat match goal with
         | |- context [if ?b then _ else _] => destruct b
         end; auto using turn_pump_on_events, turn_pump_off_events.
Qed.

Lemma timers_ok_control (m : number) (lo hi : Q) (active : bool) (st : option string) (new : bool)
    (w : world) :
  timers_ok w -> timers_ok (control m lo hi active st new w).
Proof.
  intros Hok. unfold control.
  repeat match goal with
         | |- context [if ?b then _ else _] => destruct b
         end; auto using timers_ok_turn_pump_on, timers_ok_turn_pump_off.
Qed.

Lemma state_change_alerts_spec (old new : bool) (mode : string) (m : number) (w : world) :
  let w' := state_change_alerts old new mode m w in
  trace w' =
    (trace w ++
     if negb (Bool.eqb old new)
     then [Task (create_alert (if new then "PUMP_ON" else "PUMP_OFF") "INFO"
                              (Some mode) (Some m))]
     else [])%list /\
  db w' =
    (if negb (Bool.eqb old new) && negb new && truthy (current_schedule_name (db w))
     then set_schedule_end_time None (set_current_schedule_name None (db w))
     else db w) /\
  timers w' = timers w /\ auto_off_timer w' = auto_off_timer w /\
  clock w' = clock w /\ console w' = console w.
Proof.
  unfold state_change_alerts.
  destruct (negb (Bool.eqb old new)); simpl.
  - destruct new; simpl; [repeat split; reflexivity|].
    destruct (truthy (current_schedule_name (db w))); simpl; repeat split; reflexivity.
  - rewrite app_nil_r. repeat split; reflexivity.
Qed.


(** ** The timer discipline along every run *)

Lemma timers_ok_on_message (msg : message) (w : world) :
  timers_ok w -> timers_ok (on_message msg w).
Proof.
  intros Hok. unfold on_message, on_message_try.
  destruct msg as [| |payload]; [exact Hok|exact Hok|].
  cbv zeta.
  destruct (format_1f _) as [m|e]; [|exact Hok].
  set (w0 := with_db (merge_sample payload) w).
  set (wm := monitor_moisture _ _ _ _ _ w0).
  assert (Hm : timers_ok wm).
  { destruct (monitor_moisture_frame m (critical_low_threshold (db w0))
                (critical_high_threshold (db w0)) (get_current_mode (db w0))
                (clock w0) w0) as (_ & _ & Ht & Hr & _).
    apply (timers_ok_ext w0); [exact Ht|exact Hr|exact Hok]. }
  destruct (_ && _ && _).
  - apply (timers_ok_turn_pump_off "Emergency - Soil Too Wet") in Hm. exact Hm.
  - set (wc := control _ _ _ _ _ _ wm).
    assert (Hc : timers_ok wc) by (apply timers_ok_control, Hm).
    set (ws := state_change_alerts _ _ _ _ wc).
    destruct (state_change_alerts_spec (pump_is_on (db w))
                (get_eq_str (payload !! "pump_status") "ON")
                (get_current_mode (db w0)) m wc) as (_ & _ & Ht & Hr & _).
    apply (timers_ok_ext wc); [exact Ht|exact Hr|exact Hc].
Qed.

Lemma timers_ok_post_pump_on (w : world) :
  timers_ok w -> timers_ok (fst (post_pump_on w)).
Proof.
  intros Hok. unfold post_pump_on.
  destruct (format_1f _); [|exact Hok].
  unfold await_broadcast.
  match goal with
  | |- context [turn_pump_on ?src ?w1] =>
      assert (H1 : timers_ok (turn_pump_on src w1))
        by (apply timers_ok_turn_pump_on; exact Hok)
  end.
  destruct (_ && _ && _ && _); exact H1.
Qed.

Lemma timers_ok_post_pump_off (w : world) :
  timers_ok w -> timers_ok (fst (post_pump_off w)).
Proof.
  intros Hok. unfold post_pump_off, await_broadcast.
  match goal with
  | |- context [turn_pump_off ?src ?w1] =>
      assert (H1 : timers_ok (turn_pump_off src w1))
        by (apply timers_ok_turn_pump_off; exact Hok)
  end.
  destruct (_ && _ && _ && _); exact H1.
Qed.

Lemma timers_ok_run_job (f : job_func) (w : world) :
  timers_ok w -> timers_ok (fst (run_job f w)).
Proof.
  intros Hok. destruct f as [job_name duration|job_name]; simpl.
  - destruct (plus_minutes _ _); simpl; [|exact Hok].
    apply timers_ok_turn_pump_on. exact Hok.
  - apply (timers_ok_turn_pump_off ("Scheduled: " ++ job_name ++ " (complete)")) in Hok.
    exact Hok.
Qed.

Lemma timers_ok_step (w w' : world) : step w w' -> timers_ok w -> timers_ok w'.
Proof.
  intros Hs Hok. destruct Hs.
  - apply timers_ok_turn_pump_on, Hok.
  - apply timers_ok_turn_pump_off, Hok.
  - apply timers_ok_on_message, Hok.
  - apply timers_ok_post_pump_on, Hok.
  - apply timers_ok_post_pump_off, Hok.
  - apply timers_ok_run_job, Hok.
  - apply timers_ok_advance, Hok.
Qed.

Lemma timers_ok_reachable (w : world) : reachable w -> timers_ok w.
Proof.
  induction 1 as [|w w' _ IH Hs].
  - intros i t Hi. discriminate.
  - exact (timers_ok_step w w' Hs IH).
Qed.


(** ** Arming and expiry *)

Lemma no_expiry (w : world) (n : nat) (d t : Z) :
  timers_ok w -> auto_off_timer w = Some n ->
  timers w !! n = Some (mkTimer d Waiting) -> t < d ->
  advance t w = set_clock t w.
Proof.
  intros Hok Hr Hn Hlt. unfold advance.
  rewrite fire_due_spec by exact Hok. simpl. rewrite Hr, Hn.
  unfold due. simpl. destruct (d <=? t) eqn:E; [lia|reflexivity].
Qed.

Lemma expiry (w : world) (n : nat) (d t : Z) :
  timers_ok w -> auto_off_timer w = Some n ->
  timers w !! n = Some (mkTimer d Waiting) ->
  pump_is_on (db w) = true -> d <= t ->
  pump_is_on (db (advance t w)) = false /\
  trace (advance t w) =
    (trace w ++ [audit_off "Auto-shutoff"; Publish "OFF"; Task broadcast_current_state])%list /\
  no_live_timer (advance t w).
Proof.
  intros Hok Hr Hn Hp Hle. unfold advance.
  assert (Hok' : timers_ok (set_clock t w)) by exact Hok.
  rewrite fire_due_spec by exact Hok'. simpl. rewrite Hr, Hn.
  unfold due. simpl. destruct (d <=? t) eqn:E; [|lia].
  destruct (fire_spec n (mkTimer d Waiting) (set_clock t w) Hok' Hn eq_refl)
    as (_ & Hdb & Htr & _).
  split; [rewrite Hdb; apply turn_pump_off_pump|].
  split; [rewrite Htr; apply (turn_pump_off_trace "Auto-shutoff" (set_clock t w)); exact Hp|].
  exact (fire_no_live n (mkTimer d Waiting) (set_clock t w) Hok' Hn eq_refl).
Qed.

Lemma armed (source : string) (w : world) :
  pump_is_on (db w) = false ->
  let w1 := turn_pump_on source w in
  auto_off_timer w1 = Some (length (timers w)) /\
  timers w1 !! length (timers w) =
    Some (mkTimer (clock w + PUMP_AUTO_OFF_MINUTES * 60 * second) Waiting) /\
  length (timers w1) = S (length (timers w)) /\
  pump_is_on (db w1) = true.
Proof.
  intros Hp. cbv zeta.
  destruct (turn_pump_on_timers source w Hp) as (Ht & Hr & _).
  destruct (cancel_if_alive_frame w) as (_ & _ & _ & _ & _ & Hl).
  split; [exact Hr|]. rewrite Ht. split; [|split].
  - rewrite <- Hl. apply list_lookup_middle. reflexivity.
  - rewrite length_app, Hl. simpl. lia.
  - rewrite turn_pump_on_db. reflexivity.
Qed.

(** C3 (as amended). On every reachable state at most one auto-off timer is
    live. An effective [turn_pump_on] (pump not marked on) leaves exactly the
    timer it has just started live, with deadline now + the configured
    duration. If nothing else happens, nothing expires before that deadline
    and the pump is forced off exactly once when it is reached. A second
    [turn_pump_on] issued while the pump is still marked on is ignored and
    the first deadline stays in force; only if the pump was marked off in
    between does the second call cancel the first timer, and then only the
    second deadline remains. *)
Theorem auto_off_timer_discipline (src1 src2 : string) (w : world) :
  reachable w ->
  at_most_one_live w /\
  (pump_is_on (db w) = false ->
   let w1 := turn_pump_on src1 w in
   let n := length (timers w) in
   let d := clock w + PUMP_AUTO_OFF_MINUTES * 60 * second in
   (timers w1 !! n = Some (mkTimer d Waiting) /\
    forall i t, timers w1 !! i = Some t -> live t -> i = n) /\
   (forall t, t < d -> advance t w1 = set_clock t w1) /\
   (forall t, d <= t ->
      let w2 := advance t w1 in
      pump_is_on (db w2) = false /\
      trace w2 =
        (trace w1 ++ [audit_off "Auto-shutoff"; Publish "OFF";
                      Task broadcast_current_state])%list /\
      forall t', advance t' w2 = set_clock t' w2) /\
   (forall t1, t1 < d ->
      let w2 := turn_pump_on src2 (advance t1 w1) in
      w2 = print AlreadyOn (set_clock t1 w1) /\
      (forall t, t < d -> advance t w2 = set_clock t w2) /\
      (forall t, d <= t ->
         pump_is_on (db (advance t w2)) = false /\
         trace (advance t w2) =
           (trace w1 ++ [audit_off "Auto-shutoff"; Publish "OFF";
                         Task broadcast_current_state])%list)) /\
   (forall t1, t1 < d ->
      let w2 := turn_pump_on src2 (with_db (set_pump_is_on false) (advance t1 w1)) in
      let d2 := t1 + PUMP_AUTO_OFF_MINUTES * 60 * second in
      timers w2 !! n = Some (mkTimer d Cancelled) /\
      timers w2 !! S n = Some (mkTimer d2 Waiting) /\
      (forall i t, timers w2 !! i = Some t -> live t -> i = S n) /\
      (forall t, t < d2 -> advance t w2 = set_clock t w2) /\
      (forall t, d2 <= t -> pump_is_on (db (advance t w2)) = false))).
Proof.
  intros Hreach.
  assert (Hok : timers_ok w) by (apply timers_ok_reachable, Hreach).
  split; [apply timers_ok_one, Hok|].
  intros Hp. cbv zeta.
  set (w1 := turn_pump_on src1 w).
  set (n := length (timers w)).
  set (d := clock w + PUMP_AUTO_OFF_MINUTES * 60 * second).
  destruct (armed src1 w Hp) as (Hr1 & Hn1 & Hlen1 & Hp1).
  fold w1 n d in Hr1, Hn1, Hlen1, Hp1.
  assert (Hok1 : timers_ok w1) by (apply timers_ok_turn_pump_on, Hok).
  assert (Hearly : forall t, t < d -> advance t w1 = set_clock t w1).
  { intros t Ht. exact (no_expiry w1 n d t Hok1 Hr1 Hn1 Ht). }
  split; [|split; [|split; [|split]]].
  - split; [exact Hn1|]. intros i t Hi Hl.
    destruct (Hok1 i t Hi (live_alive _ Hl)) as [_ Hri]. congruence.
  - exact Hearly.
  - intros t Ht.
    destruct (expiry w1 n d t Hok1 Hr1 Hn1 Hp1 Ht) as (Hoff & Htr & Hdead).
    split; [exact Hoff|]. split; [exact Htr|].
    intros t'. apply advance_no_live, Hdead.
  - intros t1 Ht1. rewrite (Hearly t1 Ht1).
    assert (Hign : turn_pump_on src2 (set_clock t1 w1) = print AlreadyOn (set_clock t1 w1)).
    { apply turn_pump_on_already. exact Hp1. }
    rewrite Hign. split; [reflexivity|].
    assert (Hok2 : timers_ok (print AlreadyOn (set_clock t1 w1))) by exact Hok1.
    split.
    + intros t Ht.
      exact (no_expiry (print AlreadyOn (set_clock t1 w1)) n d t Hok2 Hr1 Hn1 Ht).
    + intros t Ht.
      destruct (expiry (print AlreadyOn (set_clock t1 w1)) n d t Hok2 Hr1 Hn1 Hp1 Ht)
        as (Hoff & Htr & _).
      split; [exact Hoff|exact Htr].
  - intros t1 Ht1. rewrite (Hearly t1 Ht1).
    set (w1' := with_db (set_pump_is_on false) (set_clock t1 w1)).
    assert (Hok1' : timers_ok w1') by exact Hok1.
    assert (Hp1' : pump_is_on (db w1') = false) by reflexivity.
    destruct (armed src2 w1' Hp1') as (Hr2 & Hn2 & _ & Hp2).
    assert (Hok2 : timers_ok (turn_pump_on src2 w1'))
      by (apply timers_ok_turn_pump_on, Hok1').
    change (length (timers w1')) with (length (timers w1)) in Hr2, Hn2.
    rewrite Hlen1 in Hr2, Hn2. change (clock w1') with t1 in Hn2.
    split; [|split; [exact Hn2|split; [|split]]].
    + destruct (turn_pump_on_timers src2 w1' Hp1') as (Ht & _). rewrite Ht.
      apply lookup_app_l_Some.
      unfold cancel_if_alive.
      change (auto_off_timer w1') with (auto_off_timer w1).
      change (timers w1') with (timers w1).
      rewrite Hr1, Hn1. simpl.
      apply list_lookup_insert_eq. eapply lookup_lt_Some, Hn1.
    + intros i t Hi Hl.
      destruct (Hok2 i t Hi (live_alive _ Hl)) as [_ Hri]. congruence.
    + intros t Ht.
      exact (no_expiry (turn_pump_on src2 w1') (S n) _ t Hok2 Hr2 Hn2 Ht).
    + intros t Ht.
      apply (expiry (turn_pump_on src2 w1') (S n) _ t Hok2 Hr2 Hn2 Hp2 Ht).
Qed.


(** ** Manual endpoints *)

(** C10. Both manual endpoints put the state into manual override before
    anything else: after [post_pump_on] the override is active with state
    "ON" and the schedule bookkeeping is cleared, after [post_pump_off]
    likewise with state "OFF"; this holds in every state, in particular when
    the pump already is in the requested state and the pump command is
    ignored as a duplicate (nothing is published then). *)
Theorem manual_endpoints_force_override (w : world) :
  (let w' := fst (post_pump_on w) in
   manual_override_active (db w') = true /\
   manual_override_state (db w') = Some "ON" /\
   current_schedule_name (db w') = None /\
   schedule_end_time (db w') = None /\
   (pump_is_on (db w) = true ->
    count is_publish (trace w') = count is_publish (trace w) /\
    count is_audit (trace w') = count is_audit (trace w))) /\
  (let w' := fst (post_pump_off w) in
   manual_override_active (db w') = true /\
   manual_override_state (db w') = Some "OFF" /\
   current_schedule_name (db w') = None /\
   schedule_end_time (db w') = None /\
   (pump_is_on (db w) = false ->
    count is_publish (trace w') = count is_publish (trace w) /\
    count is_audit (trace w') = count is_audit (trace w))).
Proof.
  assert (Hab : forall w0, db (fst (await_broadcast w0)) = db w0 /\
            exists evs, trace (fst (await_broadcast w0)) = (trace w0 ++ evs)%list /\
                        count is_publish evs = 0%nat /\ count is_audit evs = 0%nat).
  { intros w0. unfold await_broadcast. destruct (_ && _ && _ && _); simpl.
    - split; [reflexivity|]. eexists. split; [reflexivity|]. split; reflexivity.
    - split; [reflexivity|]. exists []. rewrite app_nil_r.
      split; [reflexivity|]. split; reflexivity. }
  split; cbv zeta.
  - unfold post_pump_on. destruct (format_1f _) as [m|e].
    + match goal with
      | |- context [await_broadcast ?w0] =>
          destruct (Hab w0) as (-> & evs & -> & Hp & Ha)
      end.
      rewrite turn_pump_on_db. simpl. do 4 (split; [reflexivity|]).
      intros Hon. rewrite turn_pump_on_already by exact Hon. simpl.
      rewrite !count_app, Hp, Ha. unfold count. simpl. split; lia.
    + simpl. do 4 (split; [reflexivity|]). intros _. split; reflexivity.
  - unfold post_pump_off.
    match goal with
    | |- context [await_broadcast ?w0] =>
        destruct (Hab w0) as (-> & evs & -> & Hp & Ha)
    end.
    rewrite turn_pump_off_db_cases. simpl.
    destruct (pump_is_on (db w)) eqn:Hon; simpl.
    + do 4 (split; [reflexivity|]). discriminate.
    + do 4 (split; [reflexivity|]). intros _.
      rewrite turn_pump_off_already by exact Hon. simpl.
      rewrite !count_app, Hp, Ha. unfold count. simpl. split; lia.
Qed.

(** ** The handler on a well-formed sample *)

Lemma as_number_format (v : pyval) (q : Q) :
  as_number v = Some q <-> format_1f v = inl (Finite q).
Proof.
  unfold as_number. destruct (format_1f v) as [[x| |negative]|e];
    split; intros H; try discriminate H; congruence.
Qed.



Lemma on_message_formatted (payload : gmap string pyval) (w : world) (m : number) :
  format_1f (last_known_moisture (merge_sample payload (db w))) = inl m ->
  on_message (Payload payload) w =
  let new := get_eq_str (payload !! "pump_status") "ON" in
  let lo := critical_low_threshold (db w) in
  let hi := critical_high_threshold (db w) in
  let mode := get_current_mode (db w) in
  let wm := monitor_moisture m lo hi mode (clock w) (with_db (merge_sample payload) w) in
  if num_ltb hi m && negb (allow_manual_override_at_any_moisture (db w)) && new
  then
    schedule_async_task broadcast_current_state
      (with_db (fun s => set_manual_override_state None (set_manual_override_active false s))
         (turn_pump_off "Emergency - Soil Too Wet" wm))
  else
    schedule_async_task broadcast_current_state
      (state_change_alerts (pump_is_on (db w)) new mode m
         (control m lo hi (manual_override_active (db w)) (manual_override_state (db w))
                  new wm)).
Proof.
  intros H. unfold on_message, on_message_try. cbv zeta.
  change (db (with_db (merge_sample payload) w)) with (merge_sample payload (db w)).
  rewrite H.
  change (get_current_mode (merge_sample payload (db w))) with (get_current_mode (db w)).
  change (critical_high_threshold (merge_sample payload (db w)))
    with (critical_high_threshold (db w)).
  change (critical_low_threshold (merge_sample payload (db w)))
    with (critical_low_threshold (db w)).
  change (allow_manual_override_at_any_moisture (merge_sample payload (db w)))
    with (allow_manual_override_at_any_moisture (db w)).
  change (manual_override_active (merge_sample payload (db w)))
    with (manual_override_active (db w)).
  change (manual_override_state (merge_sample payload (db w)))
    with (manual_override_state (db w)).
  destruct (_ && _ && _); reflexivity.
Qed.

(** The handler on a sample whose moisture cannot be formatted. *)
Lemma on_message_unformatted (payload : gmap string pyval) (w : world) (e : exn) :
  format_1f (last_known_moisture (merge_sample payload (db w))) = inr e ->
  on_message_try (Payload payload) w = (with_db (merge_sample payload) w, Some e).
Proof.
  intros H. unfold on_message_try. cbv zeta.
  change (db (with_db (merge_sample payload) w)) with (merge_sample payload (db w)).
  rewrite H. reflexivity.
Qed.

Lemma on_message_payload (payload : gmap string pyval) (w : world) (m : Q) :
  as_number (last_known_moisture (merge_sample payload (db w))) = Some m ->
  on_message (Payload payload) w =
  let new := get_eq_str (payload !! "pump_status") "ON" in
  let lo := critical_low_threshold (db w) in
  let hi := critical_high_threshold (db w) in
  let mode := get_current_mode (db w) in
  let wm := monitor_moisture m lo hi mode (clock w) (with_db (merge_sample payload) w) in
  if Qltb hi m && negb (allow_manual_override_at_any_moisture (db w)) && new
  then
    schedule_async_task broadcast_current_state
      (with_db (fun s => set_manual_override_state None (set_manual_override_active false s))
         (turn_pump_off "Emergency - Soil Too Wet" wm))
  else
    schedule_async_task broadcast_current_state
      (state_change_alerts (pump_is_on (db w)) new mode m
         (control m lo hi (manual_override_active (db w)) (manual_override_state (db w))
                  new wm)).
Proof.
  intros H. apply as_number_format in H.
  exact (on_message_formatted payload w m H).
Qed.

Lemma monitor_moisture_pump (m : number) (lo hi : Q) (mode : string) (now : Z) (w : world) :
  let s' := db (monitor_moisture m lo hi mode now w) in
  pump_is_on s' = pump_is_on (db w) /\
  automated_mode_enabled s' = automated_mode_enabled (db w) /\
  manual_override_active s' = manual_override_active (db w) /\
  manual_override_state s' = manual_override_state (db w) /\
  current_schedule_name s' = current_schedule_name (db w) /\
  schedule_end_time s' = schedule_end_time (db w) /\
  critical_low_threshold s' = critical_low_threshold (db w) /\
  critical_high_threshold s' = critical_high_threshold (db w) /\
  allow_manual_override_at_any_moisture s' = allow_manual_override_at_any_moisture (db w).
Proof.
  destruct (monitor_moisture_frame m lo hi mode now w) as ((a & b & c & ->) & _).
  repeat split; reflexivity.
Qed.

(** C1 (as amended). On a sample whose moisture the handler can format (a
    float, or an int within the range of a float), which is above
    [critical_high] and whose reported pump status is ON: with the safety
    flag [allow_manual_override_at_any_moisture] false, the handler forces
    the pump off, clears the manual override and does nothing else for the
    sample (after the zone alert, the only events are the emergency OFF and
    the broadcasts); with the flag true and a manual override to "ON" active,
    the pump stays on and no pump command is issued. *)
Theorem emergency_interlock_precedence (payload : gmap string pyval) (w : world)
    (m : number) :
  payload !! "pump_status" = Some (PStr "ON") ->
  format_1f (last_known_moisture (merge_sample payload (db w))) = inl m ->
  num_lt (critical_high_threshold (db w)) m ->
  let w' := on_message (Payload payload) w in
  (allow_manual_override_at_any_moisture (db w) = false ->
   pump_is_on (db w') = false /\
   manual_override_active (db w') = false /\
   manual_override_state (db w') = None /\
   exists alerts,
     Forall (fun e => is_zone_alert e = true) alerts /\
     trace w' =
       (trace w ++ alerts ++
        [audit_off "Emergency - Soil Too Wet"; Publish "OFF";
         Task broadcast_current_state; Task broadcast_current_state])%list) /\
  (allow_manual_override_at_any_moisture (db w) = true ->
   manual_override_active (db w) = true ->
   manual_override_state (db w) = Some "ON" ->
   pump_is_on (db w') = true /\
   count is_publish (trace w') = count is_publish (trace w)).
Proof.
  intros Hst Hm Hhigh. cbv zeta.
  rewrite (on_message_formatted payload w m Hm). cbv zeta.
  rewrite Hst. change (get_eq_str (Some (PStr "ON")) "ON") with true.
  apply num_ltb_lt in Hhigh. rewrite Hhigh.
  set (wm := monitor_moisture _ _ _ _ _ _).
  assert (Hpm : pump_is_on (db wm) = true).
  { subst wm. etransitivity; [apply monitor_moisture_pump|].
    simpl. rewrite Hst. reflexivity. }
  destruct (monitor_moisture_frame m (critical_low_threshold (db w))
              (critical_high_threshold (db w)) (get_current_mode (db w)) (clock w)
              (with_db (merge_sample payload) w))
    as (_ & (alerts & Htr & Hz & _) & _).
  fold wm in Htr. simpl in Htr.
  split.
  - intros ->. simpl.
    rewrite turn_pump_off_db by exact Hpm.
    do 3 (split; [reflexivity|]).
    exists alerts. split; [exact Hz|].
    rewrite turn_pump_off_trace by exact Hpm. rewrite Htr.
    rewrite <- !app_assoc. reflexivity.
  - intros -> Ha Hs. simpl.
    unfold control. rewrite Ha, Hs. simpl.
    destruct (state_change_alerts_spec (pump_is_on (db w)) true
                (get_current_mode (db w)) m wm) as (Htr' & Hdb' & _).
    split.
    + rewrite Hdb'. destruct (_ && _ && _); [simpl|]; exact Hpm.
    + rewrite Htr', Htr, !count_app.
      destruct (zone_alerts_not_pump alerts Hz) as [_ ->].
      destruct (negb _); unfold count; simpl; lia.
Qed.


(** ** Automated control *)

Lemma control_fields (m : number) (lo hi : Q) (active : bool) (st : option string) (new : bool)
    (w : world) :
  let s' := db (control m lo hi active st new w) in
  automated_mode_enabled s' = automated_mode_enabled (db w) /\
  manual_override_active s' = manual_override_active (db w) /\
  manual_override_state s' = manual_override_state (db w) /\
  current_schedule_name s' = current_schedule_name (db w) /\
  schedule_end_time s' = schedule_end_time (db w) /\
  critical_low_threshold s' = critical_low_threshold (db w) /\
  critical_high_threshold s' = critical_high_threshold (db w) /\
  allow_manual_override_at_any_moisture s' = allow_manual_override_at_any_moisture (db w).
Proof.
  cbv zeta.
  destruct (control_db m lo hi active st new w) as [->|[->| ->]];
    repeat split; reflexivity.
Qed.

Lemma state_change_alerts_fields (old new : bool) (mode : string) (m : number) (w : world) :
  let s' := db (state_change_alerts old new mode m w) in
  pump_is_on s' = pump_is_on (db w) /\
  automated_mode_enabled s' = automated_mode_enabled (db w) /\
  manual_override_active s' = manual_override_active (db w) /\
  manual_override_state s' = manual_override_state (db w) /\
  critical_low_threshold s' = critical_low_threshold (db w) /\
  critical_high_threshold s' = critical_high_threshold (db w) /\
  allow_manual_override_at_any_moisture s' = allow_manual_override_at_any_moisture (db w).
Proof.
  cbv zeta.
  destruct (state_change_alerts_spec old new mode m w) as (_ & -> & _).
  destruct (_ && _ && _); repeat split; reflexivity.
Qed.

(** The decision of the automated branch, as a function of the sample. *)
Lemma automated_step (payload : gmap string pyval) (w : world) (m : Q) :
  as_number (last_known_moisture (merge_sample payload (db w))) = Some m ->
  manual_override_active (db w) = false ->
  automated_mode_enabled (db w) = true ->
  (m <= critical_high_threshold (db w))%Q ->
  let new := get_eq_str (payload !! "pump_status") "ON" in
  let lo := critical_low_threshold (db w) in
  let hi := critical_high_threshold (db w) in
  let s' := db (on_message (Payload payload) w) in
  pump_is_on s' =
    (if Qltb m lo && negb new then true
     else if Qleb lo m && Qleb m hi && new then false
     else new) /\
  manual_override_active s' = false /\
  automated_mode_enabled s' = true /\
  critical_low_threshold s' = lo /\
  critical_high_threshold s' = hi.
Proof.
  intros Hm Hman Haut Hle. cbv zeta.
  rewrite (on_message_payload payload w m Hm). cbv zeta.
  apply Qltb_ge in Hle. rewrite Hle. simpl.
  set (new := get_eq_str (payload !! "pump_status") "ON").
  set (lo := critical_low_threshold (db w)).
  set (hi := critical_high_threshold (db w)).
  set (wm := monitor_moisture _ _ _ _ _ _).
  destruct (monitor_moisture_pump m lo hi (get_current_mode (db w)) (clock w)
              (with_db (merge_sample payload) w))
    as (Hp & Ha & Hma & Hms & _ & _ & Hlo & Hhi & _).
  fold wm in Hp, Ha, Hma, Hms, Hlo, Hhi. simpl in Hp, Ha, Hma, Hms, Hlo, Hhi.
  fold new in Hp.
  set (wc := control _ _ _ _ _ _ wm).
  destruct (state_change_alerts_fields (pump_is_on (db w)) new
              (get_current_mode (db w)) m wc)
    as (-> & -> & -> & _ & -> & -> & _).
  destruct (control_fields m lo hi (manual_override_active (db w))
              (manual_override_state (db w)) new wm)
    as (Ha' & Hma' & _ & _ & _ & Hlo' & Hhi' & _).
  fold wc in Ha', Hma', Hlo', Hhi'.
  split; [|rewrite Ha', Hma', Hlo', Hhi', Ha, Hma, Hlo, Hhi; auto].
  subst wc. unfold control. rewrite Hman. simpl. rewrite Ha, Haut, Hp.
  destruct (Qltb m lo && negb new) eqn:E1.
  - rewrite turn_pump_on_db. reflexivity.
  - destruct (Qleb lo m && Qleb m hi && new) eqn:E2.
    + apply turn_pump_off_pump.
    + unfold hi. rewrite Hle. simpl. exact Hp.
Qed.

(** C2 (as amended). With manual override inactive, automated mode enabled
    and thresholds 40 / 80, three successive samples with moisture 30, 41 and
    50 leave the pump ON, OFF, OFF: the pump is switched off by the first
    sample inside the normal band, the one with moisture 41. *)
Theorem hysteresis_off_at_first_normal_sample
    (w : world) (p1 p2 p3 : gmap string pyval) :
  manual_override_active (db w) = false ->
  automated_mode_enabled (db w) = true ->
  (critical_low_threshold (db w) == 40 # 1)%Q ->
  (critical_high_threshold (db w) == 80 # 1)%Q ->
  p1 !! "moisture" = Some (PNum (30 # 1)) ->
  p2 !! "moisture" = Some (PNum (41 # 1)) ->
  p3 !! "moisture" = Some (PNum (50 # 1)) ->
  let w1 := on_message (Payload p1) w in
  let w2 := on_message (Payload p2) w1 in
  let w3 := on_message (Payload p3) w2 in
  pump_is_on (db w1) = true /\ pump_is_on (db w2) = false /\ pump_is_on (db w3) = false.
Proof.
  intros Hman Haut Hlo Hhi H1 H2 H3. cbv zeta.
  assert (Hm : forall (p : gmap string pyval) s q,
             Qltb (Qabs q) (inject_Z FLOAT_OVERFLOW) = true ->
             p !! "moisture" = Some (PNum q) ->
             as_number (last_known_moisture (merge_sample p s)) = Some q).
  { intros p s q Hf Hq. apply as_number_format.
    change (last_known_moisture (merge_sample p s))
      with (default (last_known_moisture s) (p !! "moisture")).
    rewrite Hq. cbn [default from_option id]. unfold format_1f.
    rewrite Hf. reflexivity. }
  destruct (automated_step p1 w (30 # 1) (Hm p1 _ (30 # 1) eq_refl H1) Hman Haut)
    as (Hp1 & Hman1 & Haut1 & Hlo1 & Hhi1); [lra|].
  set (w1 := on_message (Payload p1) w) in *.
  destruct (automated_step p2 w1 (41 # 1) (Hm p2 _ (41 # 1) eq_refl H2) Hman1 Haut1)
    as (Hp2 & Hman2 & Haut2 & Hlo2 & Hhi2); [rewrite Hhi1; lra|].
  set (w2 := on_message (Payload p2) w1) in *.
  destruct (automated_step p3 w2 (50 # 1) (Hm p3 _ (50 # 1) eq_refl H3) Hman2 Haut2)
    as (Hp3 & _); [rewrite Hhi2, Hhi1; lra|].
  rewrite Hlo2, Hhi2, Hlo1, Hhi1 in Hp3. rewrite Hlo1, Hhi1 in Hp2.
  assert (L30 : Qltb (30 # 1) (critical_low_threshold (db w)) = true)
    by (apply Qltb_lt; lra).
  assert (G30 : Qleb (critical_low_threshold (db w)) (30 # 1) = false)
    by (apply Qleb_gt; lra).
  assert (L41 : Qltb (41 # 1) (critical_low_threshold (db w)) = false)
    by (apply Qltb_ge; lra).
  assert (N41 : Qleb (critical_low_threshold (db w)) (41 # 1)
                && Qleb (41 # 1) (critical_high_threshold (db w)) = true)
    by (apply andb_true_iff; split; apply Qleb_le; lra).
  assert (L50 : Qltb (50 # 1) (critical_low_threshold (db w)) = false)
    by (apply Qltb_ge; lra).
  assert (N50 : Qleb (critical_low_threshold (db w)) (50 # 1)
                && Qleb (50 # 1) (critical_high_threshold (db w)) = true)
    by (apply andb_true_iff; split; apply Qleb_le; lra).
  rewrite L30, G30 in Hp1. rewrite L41, N41 in Hp2. rewrite L50, N50 in Hp3.
  simpl in Hp1, Hp2, Hp3.
  split; [|split].
  - rewrite Hp1. destruct (get_eq_str (p1 !! "pump_status") "ON"); reflexivity.
  - rewrite Hp2. destruct (get_eq_str (p2 !! "pump_status") "ON"); reflexivity.
  - rewrite Hp3. destruct (get_eq_str (p3 !! "pump_status") "ON"); reflexivity.
Qed.


(** ** Pump state change alerts *)

(** X23. On a sample whose moisture the handler can format and that is
    not ended by the emergency interlock, the handler compares the pump
    status stored before the sample with the status the sample reports (not
    with the status left by the commands issued while processing it): if they
    differ, exactly one INFO alert is emitted, PUMP_ON or PUMP_OFF according
    to the reported status, carrying the mode read at the start of the sample
    and the sample's moisture, and otherwise none; if the stored status was
    on, the reported one is off and a schedule name is set, the schedule
    bookkeeping is cleared. *)
Theorem state_change_alert_follows_report
    (payload : gmap string pyval) (w : world) (m : number) :
  format_1f (last_known_moisture (merge_sample payload (db w))) = inl m ->
  let old := pump_is_on (db w) in
  let new := get_eq_str (payload !! "pump_status") "ON" in
  let w' := on_message (Payload payload) w in
  (num_lt (critical_high_threshold (db w)) m ->
   allow_manual_override_at_any_moisture (db w) = true \/ new = false) ->
  (exists before,
     count is_pump_alert before = 0%nat /\
     trace w' =
       (trace w ++ before ++
        (if negb (Bool.eqb old new)
         then [Task (create_alert (if new then "PUMP_ON" else "PUMP_OFF") "INFO"
                                  (Some (get_current_mode (db w))) (Some m))]
         else []) ++
        [Task broadcast_current_state])%list) /\
  count is_pump_alert (trace w') =
    (count is_pump_alert (trace w) + if negb (Bool.eqb old new) then 1 else 0)%nat /\
  (old = true -> new = false -> truthy (current_schedule_name (db w)) = true ->
   current_schedule_name (db w') = None /\ schedule_end_time (db w') = None).
Proof.
  intros Hm. cbv zeta. intros Hne.
  assert (Hne' : num_ltb (critical_high_threshold (db w)) m
                 && negb (allow_manual_override_at_any_moisture (db w))
                 && get_eq_str (payload !! "pump_status") "ON" = false).
  { destruct (num_ltb _ m) eqn:E; [|reflexivity].
    apply num_ltb_lt in E. destruct (Hne E) as [-> | ->]; [reflexivity|].
    apply andb_false_r. }
  clear Hne. rename Hne' into Hne.
  rewrite (on_message_formatted payload w m Hm). cbv zeta. rewrite Hne.
  set (new := get_eq_str (payload !! "pump_status") "ON").
  set (lo := critical_low_threshold (db w)).
  set (hi := critical_high_threshold (db w)).
  set (mode := get_current_mode (db w)).
  set (wm := monitor_moisture _ _ _ _ _ _).
  set (wc := control _ _ _ _ _ _ wm).
  destruct (monitor_moisture_frame m lo hi mode (clock w)
              (with_db (merge_sample payload) w))
    as (_ & (alerts & Htr & Hz & _) & _).
  fold wm in Htr. simpl in Htr.
  destruct (monitor_moisture_pump m lo hi mode (clock w)
              (with_db (merge_sample payload) w))
    as (_ & _ & _ & _ & Hname & _).
  fold wm in Hname. simpl in Hname.
  destruct (control_events m lo hi (manual_override_active (db w))
              (manual_override_state (db w)) new wm) as (evs & Htc & Hevs).
  fold wc in Htc.
  destruct (control_fields m lo hi (manual_override_active (db w))
              (manual_override_state (db w)) new wm) as (_ & _ & _ & Hname' & _).
  fold wc in Hname'.
  destruct (state_change_alerts_spec (pump_is_on (db w)) new mode m wc)
    as (Hts & Hdb & _).
  destruct (zone_alerts_not_pump alerts Hz) as [Hza _].
  assert (Hbefore : count is_pump_alert (alerts ++ evs)%list = 0%nat)
    by (rewrite count_app, Hza, Hevs; reflexivity).
  split; [|split].
  - exists (alerts ++ evs)%list. split; [exact Hbefore|].
    simpl. rewrite Hts, Htc, Htr. rewrite <- !app_assoc. reflexivity.
  - simpl. rewrite Hts, Htc, Htr. rewrite !count_app, Hza, Hevs.
    destruct (negb (Bool.eqb (pump_is_on (db w)) new)); [|unfold count; simpl; lia].
    destruct new; unfold count; simpl; lia.
  - intros Hold Hnew Hsched. simpl. rewrite Hdb.
    rewrite Hname', Hname, Hold, Hnew, Hsched. simpl. split; reflexivity.
Qed.

(** ** Exceptions in the handler *)



(** ** Schedule compilation *)

Example split_time : split ":" "06:00:00" = ["06"; "00"; "00"].
Proof. reflexivity. Qed.

Example int_examples :
  int "06" = Some 6 /\ int " -15 " = Some (-15) /\ int "" = None /\ int "6a" = None /\
  int "1_0" = Some 10 /\ int "_1" = None /\ int "1_" = None /\ int "1__0" = None /\
  int "+ 5" = None.
Proof. repeat split; reflexivity. Qed.

Example lower_days : lower "Mon,WED,fri" = "mon,wed,fri".
Proof. reflexivity. Qed.

Lemma contains_In (c : ascii) (s : string) :
  contains c s = true <-> In c (list_ascii_of_string s).
Proof.
  induction s as [|c' rest IH]; simpl.
  - split; [discriminate|intros []].
  - rewrite orb_true_iff, IH, Ascii.eqb_eq. reflexivity.
Qed.

Lemma truthy_spec (o : option string) :
  truthy o = false <-> o = None \/ o = Some "".
Proof.
  destruct o as [[|c rest]|]; simpl; split; intros H; auto;
    try discriminate; destruct H as [H|H]; discriminate.
Qed.

Lemma remove_job_delete (id : string) (jobs : gmap string job) :
  match remove_job id jobs with
  | Some jobs' => jobs'
  | None => jobs
  end = delete id jobs.
Proof.
  unfold remove_job. destruct (jobs !! id) eqn:E; [reflexivity|].
  symmetry. apply delete_id, E.
Qed.

Lemma remove_job_from_scheduler_spec (schedule_id : string) (jobs : gmap string job) :
  _remove_job_from_scheduler schedule_id jobs =
  delete ("off_db_" ++ schedule_id) (delete ("on_db_" ++ schedule_id) jobs).
Proof.
  unfold _remove_job_from_scheduler. simpl.
  rewrite (remove_job_delete _ jobs). apply remove_job_delete.
Qed.

(** *** Arithmetic of datetimes *)

Lemma datetime_fields (K T s : Z) :
  0 <= s < 60 ->
  let dt := (K * 86400 + T * 60 + s) * second in
  datetime_hour dt = T mod 1440 / 60 /\ datetime_minute dt = T mod 60.
Proof.
  intros Hs. cbv zeta. unfold datetime_hour, datetime_minute, day.
  assert (Hsec : second <> 0) by (unfold second; lia).
  rewrite !Z.mul_mod_distr_r by lia.
  rewrite !Z.div_mul_cancel_r by lia.
  split; Z.to_euclidean_division_equations; lia.
Qed.

Lemma time_of_day_fields (now h m s n : Z) :
  0 <= s <= 59 ->
  let dt := now / day * day + ((h * 60 + m + n) * 60 + s) * second in
  0 <= datetime_hour dt <= 23 /\ 0 <= datetime_minute dt <= 59 /\
  datetime_hour dt * 60 + datetime_minute dt = (h * 60 + m + n) mod 1440.
Proof.
  intros Hs. cbv zeta.
  replace (now / day * day + ((h * 60 + m + n) * 60 + s) * second)
    with ((now / day * 86400 + (h * 60 + m + n) * 60 + s) * second)
    by (unfold day; ring).
  destruct (datetime_fields (now / day) (h * 60 + m + n) s ltac:(lia)) as [-> ->].
  Z.to_euclidean_division_equations. lia.
Qed.

Lemma replace_time_fields (now h m s : Z) :
  0 <= h <= 23 -> 0 <= m <= 59 -> 0 <= s <= 59 ->
  let dt := now / day * day + ((h * 60 + m) * 60 + s) * second in
  datetime_hour dt = h /\ datetime_minute dt = m.
Proof.
  intros Hh Hm Hs. cbv zeta.
  destruct (time_of_day_fields now h m s 0 Hs) as (H1 & H2 & H3).
  replace (h * 60 + m + 0) with (h * 60 + m) in * by lia.
  rewrite Z.mod_small in H3 by lia. lia.
Qed.

(** The day of a datetime at a time of day lies within a day of it. *)
Lemma replace_time_near (now h m s : Z) :
  representable now -> 0 <= h <= 23 -> 0 <= m <= 59 -> 0 <= s <= 59 ->
  let dt := now / day * day + ((h * 60 + m) * 60 + s) * second in
  - day < dt < DATETIME_MAX + day.
Proof.
  unfold representable, DATETIME_MAX, day, second. intros Hn Hh Hm Hs. cbv zeta.
  Z.to_euclidean_division_equations. lia.
Qed.

Lemma plus_minutes_ok (dt n : Z) :
  - day < dt < DATETIME_MAX + day ->
  representable (dt + n * 60 * second) ->
  plus_minutes dt n = Some (dt + n * 60 * second).
Proof.
  unfold representable, plus_minutes, timedelta_minutes, datetime_add.
  intros Hdt Hr.
  assert (Hd : (- TIMEDELTA_MAX_DAYS <=? n / 1440) && (n / 1440 <=? TIMEDELTA_MAX_DAYS) = true).
  { apply andb_true_iff. rewrite !Z.leb_le.
    unfold DATETIME_MAX, TIMEDELTA_MAX_DAYS, day, second in *.
    Z.to_euclidean_division_equations. lia. }
  rewrite Hd.
  assert (Hb : (0 <=? dt + n * 60 * second) && (dt + n * 60 * second <=? DATETIME_MAX) = true)
    by (apply andb_true_iff; rewrite !Z.leb_le; exact Hr).
  rewrite Hb. reflexivity.
Qed.

Lemma plus_minutes_overflow (dt n : Z) :
  ~ representable (dt + n * 60 * second) -> plus_minutes dt n = None.
Proof.
  unfold representable, plus_minutes, timedelta_minutes, datetime_add.
  intros Hr. destruct (_ && _); [|reflexivity].
  destruct ((0 <=? dt + n * 60 * second) && (dt + n * 60 * second <=? DATETIME_MAX)) eqn:E;
    [|reflexivity].
  exfalso. apply Hr. apply andb_true_iff in E. rewrite !Z.leb_le in E. exact E.
Qed.

Lemma plus_minutes_some (dt n off : Z) :
  plus_minutes dt n = Some off -> off = dt + n * 60 * second /\ representable off.
Proof.
  unfold representable, plus_minutes, timedelta_minutes, datetime_add.
  destruct (_ && _); [|discriminate].
  destruct ((0 <=? dt + n * 60 * second) && (dt + n * 60 * second <=? DATETIME_MAX)) eqn:E;
    [|discriminate].
  intros H. injection H as <-. split; [reflexivity|].
  apply andb_true_iff in E. rewrite !Z.leb_le in E. exact E.
Qed.

(** *** The compiler on a record whose start time parses *)

Lemma compile_parsed (now : Z) (sd : schedule_data) (jobs : gmap string job)
    (h m s : Z) (rest : list Z) :
  map_int (split ":" (sd_start_time_of_day sd)) = Some (h :: m :: s :: rest) ->
  0 <= h <= 23 -> 0 <= m <= 59 -> 0 <= s <= 59 ->
  let schedule_id := pretty (sd_id sd) in
  let job_name := if truthy (sd_name sd) then default "" (sd_name sd)
                  else "Schedule " ++ schedule_id in
  let run_time_obj := now / day * day + ((h * 60 + m) * 60 + s) * second in
  let removed := _remove_job_from_scheduler schedule_id jobs in
  _add_or_update_job_in_scheduler now sd jobs =
  if bool_decide (sd_is_active sd = Some 1) then
    if truthy (sd_repeat_days sd) && negb (contains "-" (default "" (sd_repeat_days sd))) then
      let days := lower (default "" (sd_repeat_days sd)) in
      let on_job := mkJob (start_scheduled_pump job_name (sd_duration_min sd)) days
                          h m job_name in
      if cron_accepts days then
        match plus_minutes run_time_obj (sd_duration_min sd) with
        | None => (<["on_db_" ++ schedule_id := on_job]> removed, Some OverflowError)
        | Some off_time =>
            (<["off_db_" ++ schedule_id :=
                 mkJob (stop_scheduled_pump job_name) days
                       (datetime_hour off_time) (datetime_minute off_time)
                       (job_name ++ " (Auto OFF)")]>
               (<["on_db_" ++ schedule_id := on_job]> removed), None)
        end
      else (removed, Some ValueError)
    else (removed, None)
  else (removed, None).
Proof.
  intros Hparse Hh Hm Hs. cbv zeta.
  assert (Hrange : (0 <=? h) && (h <=? 23) && (0 <=? m) && (m <=? 59)
                   && (0 <=? s) && (s <=? 59) = true).
  { repeat (apply andb_true_iff; split); apply Z.leb_le; lia. }
  unfold _add_or_update_job_in_scheduler. rewrite Hparse.
  unfold replace_time. rewrite Hrange.
  destruct (bool_decide _); [|reflexivity].
  destruct (truthy _ && negb _); [|reflexivity].
  destruct (replace_time_fields now h m s Hh Hm Hs) as [-> ->].
  unfold add_job. cbn [day_of_week].
  destruct (cron_accepts _); [|reflexivity].
  destruct (plus_minutes _ _); reflexivity.
Qed.

(** C5 (as amended). Removing a record's triggers deletes both ids and
    never fails, whether they are present or not. A record whose start time
    does not parse as hour:minute:second is rejected before anything is
    removed: the job store is left as it was. For a record whose start time
    parses, compiling first removes the triggers registered under the
    record's id. Then, if the record is active and [repeat_days] is a
    day-of-week set (non-empty, without the date separator "-", accepted by
    the scheduler as a [day_of_week] expression) and the start time plus the
    duration is a datetime, exactly two triggers are registered on that day
    set: the ON trigger at the start time and the OFF trigger [duration_min]
    minutes later, with the hour and minute rolled over modulo one day; when
    that sum leaves the range of datetimes, only the ON trigger has been
    registered. If the record is inactive or [repeat_days] is a literal date
    (or empty, or rejected by the scheduler), nothing is registered. *)
Theorem schedule_compilation (now : Z) (sd : schedule_data) (jobs : gmap string job) :
  representable now ->
  let schedule_id := pretty (sd_id sd) in
  let on_id := "on_db_" ++ schedule_id in
  let off_id := "off_db_" ++ schedule_id in
  let removed := delete off_id (delete on_id jobs) in
  let start := map_int (split ":" (sd_start_time_of_day sd)) in
  _remove_job_from_scheduler schedule_id jobs = removed /\
  removed !! on_id = None /\ removed !! off_id = None /\
  (start = None \/
   (exists parts, start = Some parts /\ (length parts < 3)%nat) \/
   (exists h m s rest, start = Some (h :: m :: s :: rest) /\
                       ~ (0 <= h <= 23 /\ 0 <= m <= 59 /\ 0 <= s <= 59)) ->
   exists e, _add_or_update_job_in_scheduler now sd jobs = (jobs, Some e)) /\
  (forall h m s rest,
     start = Some (h :: m :: s :: rest) ->
     0 <= h <= 23 -> 0 <= m <= 59 -> 0 <= s <= 59 ->
     let off_time :=
       now / day * day + ((h * 60 + m + sd_duration_min sd) * 60 + s) * second in
     (forall days,
        sd_is_active sd = Some 1 -> sd_repeat_days sd = Some days ->
        days <> "" -> ~ In "-"%char (list_ascii_of_string days) ->
        cron_accepts (lower days) = true ->
        (representable off_time ->
         exists on_job off_job,
           _add_or_update_job_in_scheduler now sd jobs =
             (<[off_id := off_job]> (<[on_id := on_job]> removed), None) /\
           size (<[off_id := off_job]> (<[on_id := on_job]> removed))
             = S (S (size removed)) /\
           (exists job_name,
              func on_job = start_scheduled_pump job_name (sd_duration_min sd) /\
              func off_job = stop_scheduled_pump job_name) /\
           day_of_week on_job = lower days /\ day_of_week off_job = lower days /\
           hour on_job = h /\ minute on_job = m /\
           0 <= hour off_job <= 23 /\ 0 <= minute off_job <= 59 /\
           hour off_job * 60 + minute off_job
             = (h * 60 + m + sd_duration_min sd) mod 1440) /\
        (~ representable off_time ->
         exists on_job,
           _add_or_update_job_in_scheduler now sd jobs =
             (<[on_id := on_job]> removed, Some OverflowError) /\
           hour on_job = h /\ minute on_job = m)) /\
     (sd_is_active sd <> Some 1 \/ sd_repeat_days sd = None \/
      sd_repeat_days sd = Some "" \/
      (exists days, sd_repeat_days sd = Some days /\
                    In "-"%char (list_ascii_of_string days)) ->
      _add_or_update_job_in_scheduler now sd jobs = (removed, None)) /\
     (forall days,
        sd_is_active sd = Some 1 -> sd_repeat_days sd = Some days ->
        days <> "" -> ~ In "-"%char (list_ascii_of_string days) ->
        cron_accepts (lower days) = false ->
        _add_or_update_job_in_scheduler now sd jobs = (removed, Some ValueError))).
Proof.
  intros Hnow. cbv zeta.
  set (schedule_id := pretty (sd_id sd)).
  set (on_id := "on_db_" ++ schedule_id).
  set (off_id := "off_db_" ++ schedule_id).
  set (removed := delete off_id (delete on_id jobs)).
  assert (Hne : on_id <> off_id).
  { subst on_id off_id. intros Heq. cbv [String.append] in Heq. discriminate Heq. }
  assert (Hrem : _remove_job_from_scheduler schedule_id jobs = removed)
    by apply remove_job_from_scheduler_spec.
  assert (Hon : removed !! on_id = None).
  { subst removed. rewrite lookup_delete_ne by congruence. apply lookup_delete_eq. }
  assert (Hoff : removed !! off_id = None) by apply lookup_delete_eq.
  do 3 (split; [assumption|]).
  split.
  { intros [Hnone|[(parts & Hparts & Hlen)|(h & m & s & rest & Hparts & Hbad)]];
      unfold _add_or_update_job_in_scheduler.
    - rewrite Hnone. eexists. reflexivity.
    - rewrite Hparts. destruct parts as [|a [|b [|c parts]]]; simpl in Hlen; try lia;
        eexists; reflexivity.
    - rewrite Hparts. unfold replace_time.
      destruct ((0 <=? h) && (h <=? 23) && (0 <=? m) && (m <=? 59)
                && (0 <=? s) && (s <=? 59)) eqn:E; [|eexists; reflexivity].
      exfalso. apply Hbad.
      repeat (apply andb_true_iff in E as [E ?]). rewrite Z.leb_le in *. lia. }
  intros h m s rest Hparse Hh Hm Hs.
  pose proof (compile_parsed now sd jobs h m s rest Hparse Hh Hm Hs) as Hc.
  cbv zeta in Hc. fold schedule_id in Hc. rewrite Hrem in Hc.
  fold on_id off_id in Hc.
  assert (Hsum : now / day * day + ((h * 60 + m) * 60 + s) * second
                 + sd_duration_min sd * 60 * second =
                 now / day * day + ((h * 60 + m + sd_duration_min sd) * 60 + s) * second)
    by ring.
  assert (Hprep : forall days, sd_is_active sd = Some 1 -> sd_repeat_days sd = Some days ->
            days <> "" -> ~ In "-"%char (list_ascii_of_string days) ->
            bool_decide (sd_is_active sd = Some 1) = true /\
            truthy (sd_repeat_days sd)
              && negb (contains "-" (default "" (sd_repeat_days sd))) = true /\
            lower (default "" (sd_repeat_days sd)) = lower days).
  { intros days Hact Hdays Hnonempty Hdash.
    split; [apply bool_decide_eq_true_2, Hact|]. rewrite Hdays. split; [|reflexivity].
    apply andb_true_iff. split.
    - destruct (truthy (Some days)) eqn:E; [reflexivity|].
      apply truthy_spec in E as [E|E]; [discriminate|]. congruence.
    - apply negb_true_iff. simpl default.
      destruct (contains "-" days) eqn:E; [|reflexivity].
      apply contains_In in E. contradiction. }
  split; [|split].
  - intros days Hact Hdays Hnonempty Hdash Hcron.
    destruct (Hprep days Hact Hdays Hnonempty Hdash) as (Ha & Ht & Hl).
    rewrite Ha, Ht in Hc. cbv zeta in Hc. rewrite Hl, Hcron in Hc.
    split.
    + intros Hrep.
      rewrite plus_minutes_ok in Hc
        by (try apply replace_time_near; try assumption; rewrite Hsum; exact Hrep).
      rewrite Hsum in Hc.
      eexists _, _. split; [exact Hc|].
      split.
      { rewrite map_size_insert_None
          by (rewrite lookup_insert_ne by exact Hne; exact Hoff).
        rewrite map_size_insert_None by exact Hon. reflexivity. }
      split; [eexists; split; reflexivity|].
      cbn [day_of_week hour minute].
      do 4 (split; [reflexivity|]).
      exact (time_of_day_fields now h m s (sd_duration_min sd) Hs).
    + intros Hrep.
      rewrite plus_minutes_overflow in Hc by (rewrite Hsum; exact Hrep).
      eexists. split; [exact Hc|]. split; reflexivity.
  - intros Hcase. rewrite Hc.
    destruct (bool_decide (sd_is_active sd = Some 1)) eqn:Ea; [|reflexivity].
    apply bool_decide_eq_true in Ea.
    destruct Hcase as [Hcase|[Hcase|[Hcase|(days & Hdays & Hin)]]].
    + contradiction.
    + rewrite Hcase. reflexivity.
    + rewrite Hcase. reflexivity.
    + rewrite Hdays. simpl default.
      apply contains_In in Hin. rewrite Hin, andb_false_r. reflexivity.
  - intros days Hact Hdays Hnonempty Hdash Hcron.
    destruct (Hprep days Hact Hdays Hnonempty Hdash) as (Ha & Ht & Hl).
    rewrite Ha, Ht in Hc. cbv zeta in Hc. rewrite Hl, Hcron in Hc. exact Hc.
Qed.


(** * Further properties *)

(** ** Events of the pump commands *)

Lemma turn_pump_on_trace_cases (source : string) (w : world) :
  trace (turn_pump_on source w) =
  (trace w ++ if pump_is_on (db w) then []
              else [audit_on source; Publish "ON"; Task broadcast_current_state])%list.
Proof.
  destruct (pump_is_on (db w)) eqn:E.
  - rewrite turn_pump_on_already by exact E. simpl. rewrite app_nil_r. reflexivity.
  - apply turn_pump_on_trace, E.
Qed.

Lemma turn_pump_off_trace_cases (source : string) (w : world) :
  trace (turn_pump_off source w) =
  (trace w ++ if pump_is_on (db w)
              then [audit_off source; Publish "OFF"; Task broadcast_current_state]
              else [])%list.
Proof.
  destruct (pump_is_on (db w)) eqn:E.
  - apply turn_pump_off_trace, E.
  - rewrite turn_pump_off_already by exact E. simpl. rewrite app_nil_r. reflexivity.
Qed.

Lemma pump_command_counts (evs : list event) :
  pump_command_events evs ->
  count is_publish evs = count is_audit evs /\
  (count is_publish evs <= 1)%nat /\
  count is_zone_alert evs = 0%nat /\
  count is_pump_alert evs = 0%nat.
Proof.
  intros [->|[[src ->]|[src ->]]]; unfold count; simpl; repeat split; lia.
Qed.

Lemma turn_pump_on_command (source : string) (w : world) :
  exists evs, trace (turn_pump_on source w) = (trace w ++ evs)%list /\
              pump_command_events evs.
Proof.
  eexists. split; [apply turn_pump_on_trace_cases|].
  destruct (pump_is_on (db w)); [left; reflexivity|right; left; eauto].
Qed.

Lemma turn_pump_off_command (source : string) (w : world) :
  exists evs, trace (turn_pump_off source w) = (trace w ++ evs)%list /\
              pump_command_events evs.
Proof.
  eexists. split; [apply turn_pump_off_trace_cases|].
  destruct (pump_is_on (db w)); [right; right; eauto|left; reflexivity].
Qed.

Lemma control_command (m : number) (lo hi : Q) (active : bool) (st : option string) (new : bool)
    (w : world) :
  exists evs, trace (control m lo hi active st new w) = (trace w ++ evs)%list /\
              pump_command_events evs.
Proof.
  assert (Hid : exists evs, trace w = (trace w ++ evs)%list /\ pump_command_events evs).
  { exists []. rewrite app_nil_r. split; [reflexivity|left; reflexivity]. }
  unfold control.
  repeat match goal with
         | |- context [if ?b then _ else _] => destruct b
         end; auto using turn_pump_on_command, turn_pump_off_command.
Qed.

Lemma get_alert_pump (k : alert_key) (s : state) (b : bool) (v : pyval) :
  get_alert k (set_pump_is_on b s) = get_alert k s /\
  get_alert k (set_last_known_flow_lpm v s) = get_alert k s.
Proof. destruct k; split; reflexivity. Qed.

Lemma control_alerts (k : alert_key) (m : number) (lo hi : Q) (active : bool) (st : option string)
    (new : bool) (w : world) :
  get_alert k (db (control m lo hi active st new w)) = get_alert k (db w).
Proof.
  destruct (control_db m lo hi active st new w) as [->|[->| ->]];
    destruct k; reflexivity.
Qed.

(** ** Zone alerts and their trackers *)

Lemma zone_key_inj (z z' : zone) : zone_key z = zone_key z' -> z = z'.
Proof. destruct z, z'; simpl; congruence. Qed.

Lemma monitor_moisture_spec (m : number) (lo hi : Q) (mode : string) (now : Z) (w : world) (z : zone) :
  classify m lo hi = Some z ->
  let send := should_send_alert (zone_key z) (zone_cooldown z) w in
  let w' := monitor_moisture m lo hi mode now w in
  trace w' = (trace w ++ if send then [zone_alert z mode m] else [])%list /\
  get_alert (zone_key z) (db w') =
    (if send then Some now else get_alert (zone_key z) (db w)) /\
  (forall k, k <> zone_key z -> get_alert k (db w') = None).
Proof.
  intros Hz. cbv zeta. unfold monitor_moisture. rewrite Hz.
  destruct z; simpl zone_key; simpl zone_cooldown;
    destruct (should_send_alert _ _ w); simpl;
    (split; [rewrite ?app_nil_r; reflexivity|]);
    (split; [reflexivity|]);
    intros k Hk; destruct k; try reflexivity; contradiction.
Qed.

Lemma after_monitor (payload : gmap string pyval) (w : world) (m : number) :
  format_1f (last_known_moisture (merge_sample payload (db w))) = inl m ->
  let wm := monitor_moisture m (critical_low_threshold (db w))
              (critical_high_threshold (db w)) (get_current_mode (db w)) (clock w)
              (with_db (merge_sample payload) w) in
  let w' := on_message (Payload payload) w in
  (exists rest, trace w' = (trace wm ++ rest)%list /\
                count is_zone_alert rest = 0%nat) /\
  (forall k, get_alert k (db w') = get_alert k (db wm)).
Proof.
  intros Hm. cbv zeta.
  rewrite (on_message_formatted payload w m Hm). cbv zeta.
  set (wm := monitor_moisture _ _ _ _ _ _).
  destruct (_ && _ && _).
  - split.
    + simpl. rewrite turn_pump_off_trace_cases. rewrite <- app_assoc.
      eexists. split; [reflexivity|].
      destruct (pump_is_on (db wm)); reflexivity.
    + intros k. simpl. rewrite turn_pump_off_db_cases.
      destruct (pump_is_on (db wm)); destruct k; reflexivity.
  - set (wc := control _ _ _ _ _ _ wm).
    destruct (control_command m (critical_low_threshold (db w))
                (critical_high_threshold (db w)) (manual_override_active (db w))
                (manual_override_state (db w))
                (get_eq_str (payload !! "pump_status") "ON") wm) as (evs & Htc & Hevs).
    fold wc in Htc.
    destruct (state_change_alerts_spec (pump_is_on (db w))
                (get_eq_str (payload !! "pump_status") "ON")
                (get_current_mode (db w)) m wc) as (Hts & Hdb & _).
    split.
    + simpl. rewrite Hts, Htc. rewrite <- !app_assoc.
      eexists. split; [reflexivity|].
      rewrite !count_app.
      destruct (pump_command_counts evs Hevs) as (_ & _ & -> & _).
      destruct (negb _); [destruct (get_eq_str _ _)|]; reflexivity.
    + intros k. simpl. rewrite Hdb.
      transitivity (get_alert k (db wc)).
      * destruct (_ && _ && _); destruct k; reflexivity.
      * apply control_alerts.
Qed.

Lemma zone_alert_tracking_full (payload : gmap string pyval) (w : world) (m : number)
    (z : zone) :
  format_1f (last_known_moisture (merge_sample payload (db w))) = inl m ->
  classify m (critical_low_threshold (db w)) (critical_high_threshold (db w)) = Some z ->
  let send := should_send_alert (zone_key z) (zone_cooldown z) w in
  let w' := on_message (Payload payload) w in
  count is_zone_alert (trace w') =
    (count is_zone_alert (trace w) + if send then 1 else 0)%nat /\
  (send = true -> In (zone_alert z (get_current_mode (db w)) m) (trace w')) /\
  get_alert (zone_key z) (db w') =
    (if send then Some (clock w) else get_alert (zone_key z) (db w)) /\
  (forall k, k <> zone_key z -> get_alert k (db w') = None).
Proof.
  intros Hm Hz. cbv zeta.
  destruct (after_monitor payload w m Hm) as ((rest & Htr & Hrest) & Hal).
  destruct (monitor_moisture_spec m (critical_low_threshold (db w))
              (critical_high_threshold (db w)) (get_current_mode (db w)) (clock w)
              (with_db (merge_sample payload) w) z Hz) as (Htm & Hkey & Hother).
  change (should_send_alert (zone_key z) (zone_cooldown z)
            (with_db (merge_sample payload) w))
    with (should_send_alert (zone_key z) (zone_cooldown z) w) in Htm, Hkey.
  change (get_alert (zone_key z) (db (with_db (merge_sample payload) w)))
    with (get_alert (zone_key z) (db w)) in Hkey.
  simpl in Htm.
  split; [|split; [|split]].
  - rewrite Htr, Htm, !count_app, Hrest.
    destruct (should_send_alert _ _ w); [destruct z|]; unfold count; simpl; lia.
  - intros Hs. rewrite Htr, Htm, Hs. apply in_or_app. left.
    apply in_or_app. right. left. reflexivity.
  - rewrite Hal. exact Hkey.
  - intros k Hk. rewrite Hal. apply Hother, Hk.
Qed.

(** X1. Processing a sample whose moisture the handler can format (a
    float, or an int within the range of a float) and which falls in zone
    [z] emits the zone's alert exactly when the zone's tracker allows it
    (never fired, or cooldown elapsed); the tracker then holds the time of
    the sample, otherwise it is kept; the trackers of the two other zones are
    cleared. *)
Theorem zone_alert_tracking (payload : gmap string pyval) (w : world) (m : number)
    (z : zone) :
  format_1f (last_known_moisture (merge_sample payload (db w))) = inl m ->
  classify m (critical_low_threshold (db w)) (critical_high_threshold (db w)) = Some z ->
  let send := should_send_alert (zone_key z) (zone_cooldown z) w in
  let w' := on_message (Payload payload) w in
  count is_zone_alert (trace w') =
    (count is_zone_alert (trace w) + if send then 1 else 0)%nat /\
  (send = true -> In (zone_alert z (get_current_mode (db w)) m) (trace w')) /\
  get_alert (zone_key z) (db w') =
    (if send then Some (clock w) else get_alert (zone_key z) (db w)) /\
  (forall k, k <> zone_key z -> get_alert k (db w') = None).
Proof. exact (zone_alert_tracking_full payload w m z). Qed.



(** ** What telemetry never changes *)

Lemma on_message_settings (msg : message) (w : world) :
  let s' := db (on_message msg w) in
  critical_low_threshold s' = critical_low_threshold (db w) /\
  critical_high_threshold s' = critical_high_threshold (db w) /\
  automated_mode_enabled s' = automated_mode_enabled (db w) /\
  allow_manual_override_at_any_moisture s' = allow_manual_override_at_any_moisture (db w) /\
  (manual_override_active s' = manual_override_active (db w) \/
   manual_override_active s' = false) /\
  (current_schedule_name s' = current_schedule_name (db w) \/
   current_schedule_name s' = None).
Proof.
  cbv zeta. destruct msg as [| |payload].
  - repeat split; auto.
  - repeat split; auto.
  - destruct (format_1f (last_known_moisture (merge_sample payload (db w))))
      as [m|e] eqn:Hm.
    + rewrite (on_message_formatted payload w m Hm). cbv zeta.
      set (wm := monitor_moisture _ _ _ _ _ _).
      destruct (monitor_moisture_pump m (critical_low_threshold (db w))
                  (critical_high_threshold (db w)) (get_current_mode (db w)) (clock w)
                  (with_db (merge_sample payload) w))
        as (_ & Ha & Hma & _ & Hn & _ & Hlo & Hhi & Hal).
      fold wm in Ha, Hma, Hn, Hlo, Hhi, Hal. simpl in Ha, Hma, Hn, Hlo, Hhi, Hal.
      destruct (_ && _ && _).
      * simpl. rewrite turn_pump_off_db_cases.
        destruct (pump_is_on (db wm)); simpl; rewrite Hlo, Hhi, Ha, Hal, Hn;
          repeat split; auto.
      * set (wc := control _ _ _ _ _ _ wm).
        destruct (control_fields m (critical_low_threshold (db w))
                    (critical_high_threshold (db w)) (manual_override_active (db w))
                    (manual_override_state (db w))
                    (get_eq_str (payload !! "pump_status") "ON") wm)
          as (Ha' & Hma' & _ & Hn' & _ & Hlo' & Hhi' & Hal').
        fold wc in Ha', Hma', Hn', Hlo', Hhi', Hal'.
        destruct (state_change_alerts_spec (pump_is_on (db w))
                    (get_eq_str (payload !! "pump_status") "ON")
                    (get_current_mode (db w)) m wc) as (_ & Hdb & _).
        simpl. rewrite Hdb.
        destruct (_ && _ && _); simpl;
          rewrite Hlo', Hhi', Ha', Hal', Hma', Hlo, Hhi, Ha, Hal, Hma, ?Hn', ?Hn;
          repeat split; auto.
    + unfold on_message. rewrite (on_message_unformatted payload w e Hm).
      simpl. repeat split; auto.
Qed.

(** X2. Processing a message, whatever it contains, never changes the
    thresholds, the automated-mode flag or the safety flag, never activates a
    manual override and never sets a schedule name (it can only clear
    them). *)
Theorem on_message_keeps_settings (msg : message) (w : world) :
  let s' := db (on_message msg w) in
  critical_low_threshold s' = critical_low_threshold (db w) /\
  critical_high_threshold s' = critical_high_threshold (db w) /\
  automated_mode_enabled s' = automated_mode_enabled (db w) /\
  allow_manual_override_at_any_moisture s' = allow_manual_override_at_any_moisture (db w) /\
  (manual_override_active s' = manual_override_active (db w) \/
   manual_override_active s' = false) /\
  (current_schedule_name s' = current_schedule_name (db w) \/
   current_schedule_name s' = None).
Proof. exact (on_message_settings msg w). Qed.

Lemma should_send_after (key : alert_key) (C t last : Z) (w : world) :
  get_alert key (db w) = Some last ->
  should_send_alert key C (set_clock t w) = (last + C * second <=? t).
Proof.
  intros H. unfold should_send_alert. simpl. rewrite H.
  destruct (last + C * second <=? t) eqn:E.
  - apply total_seconds_ge. lia.
  - destruct (Qleb _ _) eqn:E'; [|reflexivity].
    apply total_seconds_ge in E'. lia.
Qed.

(** X3. Two samples in a row whose moistures the handler can format and
    which fall in the same zone: when the first one emitted the zone's alert,
    the second one, processed at time [t2], emits it again exactly when the
    zone's cooldown (3600 s for the critical zones, 600 s for the normal
    zone) has elapsed since the first sample. *)
Theorem zone_alert_cooldown_between_samples
    (p1 p2 : gmap string pyval) (w : world) (m1 m2 : number) (z : zone) (t2 : Z) :
  format_1f (last_known_moisture (merge_sample p1 (db w))) = inl m1 ->
  classify m1 (critical_low_threshold (db w)) (critical_high_threshold (db w)) = Some z ->
  should_send_alert (zone_key z) (zone_cooldown z) w = true ->
  let w1 := set_clock t2 (on_message (Payload p1) w) in
  format_1f (last_known_moisture (merge_sample p2 (db w1))) = inl m2 ->
  classify m2 (critical_low_threshold (db w)) (critical_high_threshold (db w)) = Some z ->
  count is_zone_alert (trace (on_message (Payload p2) w1)) =
    (count is_zone_alert (trace w1)
     + if (clock w + zone_cooldown z * second <=? t2)%Z then 1 else 0)%nat.
Proof.
  intros Hm1 Hz1 Hsend. cbv zeta. intros Hm2 Hz2.
  destruct (zone_alert_tracking_full p1 w m1 z Hm1 Hz1) as (_ & _ & Hkey & _).
  rewrite Hsend in Hkey.
  destruct (on_message_settings (Payload p1) w) as (Hlo & Hhi & _).
  set (w1 := set_clock t2 (on_message (Payload p1) w)) in *.
  assert (Hz2' : classify m2 (critical_low_threshold (db w1))
                   (critical_high_threshold (db w1)) = Some z).
  { subst w1. simpl. rewrite Hlo, Hhi. exact Hz2. }
  destruct (zone_alert_tracking_full p2 w1 m2 z Hm2 Hz2') as (Hc & _).
  rewrite Hc. subst w1.
  rewrite (should_send_after _ _ _ _ _ Hkey). reflexivity.
Qed.

(** X4. A change of zone resets the cooldown: a sample in zone [z2] that
    follows a sample in a different zone [z1] always emits the alert of
    [z2], however little time has passed (both moistures being values the
    handler can format). *)
Theorem zone_change_resets_cooldown
    (p1 p2 : gmap string pyval) (w : world) (m1 m2 : number) (z1 z2 : zone) (t2 : Z) :
  format_1f (last_known_moisture (merge_sample p1 (db w))) = inl m1 ->
  classify m1 (critical_low_threshold (db w)) (critical_high_threshold (db w)) = Some z1 ->
  let w1 := set_clock t2 (on_message (Payload p1) w) in
  format_1f (last_known_moisture (merge_sample p2 (db w1))) = inl m2 ->
  classify m2 (critical_low_threshold (db w)) (critical_high_threshold (db w)) = Some z2 ->
  z1 <> z2 ->
  count is_zone_alert (trace (on_message (Payload p2) w1)) =
    S (count is_zone_alert (trace w1)) /\
  In (zone_alert z2 (get_current_mode (db w1)) m2) (trace (on_message (Payload p2) w1)).
Proof.
  intros Hm1 Hz1. cbv zeta. intros Hm2 Hz2 Hne.
  destruct (zone_alert_tracking_full p1 w m1 z1 Hm1 Hz1) as (_ & _ & _ & Hother).
  destruct (on_message_settings (Payload p1) w) as (Hlo & Hhi & _).
  set (w1 := set_clock t2 (on_message (Payload p1) w)) in *.
  assert (Hz2' : classify m2 (critical_low_threshold (db w1))
                   (critical_high_threshold (db w1)) = Some z2).
  { subst w1. simpl. rewrite Hlo, Hhi. exact Hz2. }
  assert (Hsend : should_send_alert (zone_key z2) (zone_cooldown z2) w1 = true).
  { unfold should_send_alert. subst w1. simpl.
    rewrite (Hother (zone_key z2)); [reflexivity|].
    intros H. apply zone_key_inj in H. congruence. }
  destruct (zone_alert_tracking_full p2 w1 m2 z2 Hm2 Hz2') as (Hc & Hin & _).
  rewrite Hsend in Hc. split; [rewrite Hc; lia|apply Hin, Hsend].
Qed.


(** ** Manual override enforcement and idle mode *)

Lemma not_emergency_payload (payload : gmap string pyval) (w : world) (m : number) :
  format_1f (last_known_moisture (merge_sample payload (db w))) = inl m ->
  emergency payload m (db w) = false ->
  on_message (Payload payload) w =
  schedule_async_task broadcast_current_state
    (state_change_alerts (pump_is_on (db w)) (get_eq_str (payload !! "pump_status") "ON")
       (get_current_mode (db w)) m
       (control m (critical_low_threshold (db w)) (critical_high_threshold (db w))
          (manual_override_active (db w)) (manual_override_state (db w))
          (get_eq_str (payload !! "pump_status") "ON")
          (monitor_moisture m (critical_low_threshold (db w))
             (critical_high_threshold (db w)) (get_current_mode (db w)) (clock w)
             (with_db (merge_sample payload) w)))).
Proof.
  intros Hm He. rewrite (on_message_formatted payload w m Hm). cbv zeta.
  unfold emergency in He. rewrite He. reflexivity.
Qed.

(** X5. While a manual override with a requested state is active, every
    sample whose moisture the handler can format (a float, NaN and the
    infinities included, or an int within the range of a float) and that is
    not stopped by the emergency interlock leaves the pump in the requested
    state: on exactly when the requested state is "ON". A pump command is
    published exactly when the reported status disagrees with the request. *)
Theorem manual_override_enforced (payload : gmap string pyval) (w : world) (m : number)
    (requested : string) :
  format_1f (last_known_moisture (merge_sample payload (db w))) = inl m ->
  manual_override_active (db w) = true ->
  manual_override_state (db w) = Some requested ->
  requested <> "" ->
  emergency payload m (db w) = false ->
  let reported := get_eq_str (payload !! "pump_status") "ON" in
  let w' := on_message (Payload payload) w in
  pump_is_on (db w') = String.eqb requested "ON" /\
  count is_publish (trace w') =
    (count is_publish (trace w)
     + if Bool.eqb (String.eqb requested "ON") reported then 0 else 1)%nat /\
  manual_override_active (db w') = true /\
  manual_override_state (db w') = Some requested.
Proof.
  intros Hm Ha Hs Hne He. cbv zeta.
  rewrite (not_emergency_payload payload w m Hm He).
  set (reported := get_eq_str (payload !! "pump_status") "ON").
  set (lo := critical_low_threshold (db w)).
  set (hi := critical_high_threshold (db w)).
  set (mode := get_current_mode (db w)).
  set (wm := monitor_moisture _ _ _ _ _ _).
  destruct (monitor_moisture_pump m lo hi mode (clock w)
              (with_db (merge_sample payload) w))
    as (Hp & _ & Hma & Hms & _).
  fold wm in Hp, Hma, Hms. simpl in Hp, Hma, Hms. fold reported in Hp.
  destruct (monitor_moisture_frame m lo hi mode (clock w)
              (with_db (merge_sample payload) w))
    as (_ & (alerts & Htr & Hz & _) & _).
  fold wm in Htr. simpl in Htr.
  destruct (zone_alerts_not_pump alerts Hz) as [_ Hzp].
  set (wc := control _ _ _ _ _ _ wm).
  destruct (state_change_alerts_fields (pump_is_on (db w)) reported mode m wc)
    as (Hp' & _ & Hma' & Hms' & _).
  destruct (state_change_alerts_spec (pump_is_on (db w)) reported mode m wc)
    as (Hts & _).
  destruct (control_fields m lo hi (manual_override_active (db w))
              (manual_override_state (db w)) reported wm)
    as (_ & Hmac & Hmsc & _).
  fold wc in Hmac, Hmsc.
  assert (Htruthy : truthy (Some requested) = true).
  { simpl. destruct requested; [contradiction|reflexivity]. }
  assert (Hwc : pump_is_on (db wc) = String.eqb requested "ON" /\
                count is_publish (trace wc) =
                  (count is_publish (trace wm)
                   + if Bool.eqb (String.eqb requested "ON") reported
                     then 0 else 1)%nat).
  { subst wc. unfold control. rewrite Ha, Hs, Htruthy. simpl.
    destruct (String.eqb requested "ON"), reported; simpl.
    - split; [exact Hp|lia].
    - rewrite turn_pump_on_db, turn_pump_on_trace by exact Hp.
      split; [reflexivity|]. rewrite count_app. reflexivity.
    - rewrite turn_pump_off_db, turn_pump_off_trace by exact Hp.
      split; [reflexivity|]. rewrite count_app. reflexivity.
    - split; [exact Hp|lia]. }
  destruct Hwc as (Hpc & Hcc).
  simpl. rewrite Hp', Hma', Hms', Hmac, Hmsc, Hma, Hms, Hpc.
  split; [reflexivity|]. split; [|split; assumption].
  rewrite Hts, !count_app, Hcc, Htr, count_app, Hzp.
  destruct (negb _); [destruct reported|]; unfold count; simpl; lia.
Qed.

(** X6. With no manual override in force and automated mode disabled, a
    sample that is not stopped by the emergency interlock issues no pump
    command and touches no timer: the stored pump status is the reported
    one. *)
Theorem idle_mode_only_observes (payload : gmap string pyval) (w : world) (m : Q) :
  as_number (last_known_moisture (merge_sample payload (db w))) = Some m ->
  manual_override_active (db w) && truthy (manual_override_state (db w)) = false ->
  automated_mode_enabled (db w) = false ->
  emergency payload m (db w) = false ->
  let w' := on_message (Payload payload) w in
  pump_is_on (db w') = get_eq_str (payload !! "pump_status") "ON" /\
  count is_publish (trace w') = count is_publish (trace w) /\
  count is_audit (trace w') = count is_audit (trace w) /\
  timers w' = timers w /\ auto_off_timer w' = auto_off_timer w.
Proof.
  intros Hm Hman Haut He. cbv zeta. apply as_number_format in Hm.
  rewrite (not_emergency_payload payload w m Hm He).
  set (reported := get_eq_str (payload !! "pump_status") "ON").
  set (lo := critical_low_threshold (db w)).
  set (hi := critical_high_threshold (db w)).
  set (mode := get_current_mode (db w)).
  set (wm := monitor_moisture _ _ _ _ _ _).
  destruct (monitor_moisture_pump m lo hi mode (clock w)
              (with_db (merge_sample payload) w))
    as (Hp & Ha & _).
  fold wm in Hp, Ha. simpl in Hp, Ha. fold reported in Hp.
  destruct (monitor_moisture_frame m lo hi mode (clock w)
              (with_db (merge_sample payload) w))
    as (_ & (alerts & Htr & Hz & _) & Ht & Hr & _).
  fold wm in Htr, Ht, Hr. simpl in Htr, Ht, Hr.
  assert (Hc : control m lo hi (manual_override_active (db w))
                 (manual_override_state (db w)) reported wm = wm).
  { unfold control. rewrite Hman, Ha, Haut. reflexivity. }
  rewrite Hc.
  destruct (state_change_alerts_fields (pump_is_on (db w)) reported mode m wm)
    as (Hp' & _).
  destruct (state_change_alerts_spec (pump_is_on (db w)) reported mode m wm)
    as (Hts & _ & Ht' & Hr' & _).
  simpl. rewrite Hp', Hp, Ht', Hr', Ht, Hr, Hts, Htr, !count_app.
  assert (Hza : count is_audit alerts = 0%nat).
  { clear -Hz. induction Hz as [|e l He _ IH]; [reflexivity|].
    unfold count in *. simpl.
    destruct e as [c|[| ty sev mo mi |]|c]; simpl in *; try discriminate. exact IH. }
  destruct (zone_alerts_not_pump alerts Hz) as [_ Hzp].
  rewrite Hzp, Hza.
  repeat split; destruct (negb _); try destruct reported; unfold count; simpl; lia.
Qed.


(** ** Events and state along the passage of time *)

Lemma advance_cases (t : Z) (w : world) :
  timers_ok w ->
  (advance t w = set_clock t w) \/
  (exists k tk, timers w !! k = Some tk /\ live tk /\ deadline tk <= t /\
                advance t w = fire k (set_clock t w)).
Proof.
  intros Hok. unfold advance.
  assert (Hok' : timers_ok (set_clock t w)) by exact Hok.
  rewrite fire_due_spec by exact Hok'. simpl.
  destruct (auto_off_timer w) as [k|]; [|left; reflexivity].
  destruct (timers w !! k) as [tk|] eqn:Ek; [|left; reflexivity].
  destruct (due t tk) eqn:Ed; [|left; reflexivity].
  right. exists k, tk. split; [exact Ek|]. split; [exact (due_live _ _ Ed)|].
  split; [|reflexivity].
  unfold due in Ed. destruct (status tk); try discriminate. lia.
Qed.

Lemma advance_events (t : Z) (w : world) :
  timers_ok w ->
  exists evs, trace (advance t w) = (trace w ++ evs)%list /\ pump_command_events evs.
Proof.
  intros Hok. destruct (advance_cases t w Hok) as [->|(k & tk & Hk & Hl & _ & ->)].
  - exists []. simpl. rewrite app_nil_r. split; [reflexivity|left; reflexivity].
  - destruct (fire_spec k tk (set_clock t w) Hok Hk Hl) as (_ & _ & -> & _).
    apply (turn_pump_off_command "Auto-shutoff" (set_clock t w)).
Qed.

Lemma advance_db (t : Z) (w : world) :
  timers_ok w ->
  db (advance t w) = db w \/
  db (advance t w) = set_last_known_flow_lpm (PNum (0 # 1)) (set_pump_is_on false (db w)).
Proof.
  intros Hok. destruct (advance_cases t w Hok) as [->|(k & tk & Hk & Hl & _ & ->)].
  - left. reflexivity.
  - destruct (fire_spec k tk (set_clock t w) Hok Hk Hl) as (_ & -> & _).
    rewrite turn_pump_off_db_cases. simpl.
    destruct (pump_is_on (db w)); auto.
Qed.

(** ** Commands issued per operation *)

Lemma count_cons (p : event -> bool) (e : event) (l : list event) :
  count p (e :: l) = ((if p e then 1 else 0) + count p l)%nat.
Proof. unfold count. simpl. destruct (p e); reflexivity. Qed.

Lemma count_nil (p : event -> bool) : count p [] = 0%nat.
Proof. reflexivity. Qed.

Lemma zone_alerts_not_audit (alerts : list event) :
  Forall (fun e => is_zone_alert e = true) alerts -> count is_audit alerts = 0%nat.
Proof.
  induction 1 as [|e l He _ IH]; [reflexivity|].
  unfold count in *. simpl.
  destruct e as [c|[| ty sev mo mi |]|c]; simpl in *; try discriminate. exact IH.
Qed.

Lemma on_message_events (msg : message) (w : world) :
  exists evs, trace (on_message msg w) = (trace w ++ evs)%list /\
              count is_publish evs = count is_audit evs /\
              (count is_publish evs <= 1)%nat.
Proof.
  assert (Hnil : exists evs, trace w = (trace w ++ evs)%list /\
                   count is_publish evs = count is_audit evs /\
                   (count is_publish evs <= 1)%nat).
  { exists []. rewrite app_nil_r. repeat split. unfold count. simpl. lia. }
  destruct msg as [| |payload]; [exact Hnil|exact Hnil|].
  destruct (format_1f (last_known_moisture (merge_sample payload (db w))))
    as [m|e] eqn:Hm.
  - rewrite (on_message_formatted payload w m Hm). cbv zeta.
    set (wm := monitor_moisture _ _ _ _ _ _).
    destruct (monitor_moisture_frame m (critical_low_threshold (db w))
                (critical_high_threshold (db w)) (get_current_mode (db w)) (clock w)
                (with_db (merge_sample payload) w))
      as (_ & (alerts & Htr & Hz & _) & _).
    fold wm in Htr. simpl in Htr.
    destruct (zone_alerts_not_pump alerts Hz) as [_ Hzp].
    pose proof (zone_alerts_not_audit alerts Hz) as Hza.
    destruct (_ && _ && _).
    + destruct (turn_pump_off_command "Emergency - Soil Too Wet" wm)
        as (evs & Hoff & Hevs).
      destruct (pump_command_counts evs Hevs) as (He1 & He2 & _).
      exists (alerts ++ evs ++ [Task broadcast_current_state])%list.
      simpl. rewrite Hoff, Htr, <- !app_assoc. split; [reflexivity|].
      rewrite !count_app, !count_cons, !count_nil, Hzp, Hza. simpl. lia.
    + set (wc := control _ _ _ _ _ _ wm).
      destruct (control_command m (critical_low_threshold (db w))
                  (critical_high_threshold (db w)) (manual_override_active (db w))
                  (manual_override_state (db w))
                  (get_eq_str (payload !! "pump_status") "ON") wm)
        as (evs & Htc & Hevs).
      fold wc in Htc.
      destruct (pump_command_counts evs Hevs) as (He1 & He2 & _).
      destruct (state_change_alerts_spec (pump_is_on (db w))
                  (get_eq_str (payload !! "pump_status") "ON")
                  (get_current_mode (db w)) m wc) as (Hts & _).
      eexists. simpl. rewrite Hts, Htc, Htr, <- !app_assoc.
      split; [reflexivity|].
      rewrite !count_app, Hzp, Hza.
      destruct (negb _); [destruct (get_eq_str _ _)|];
        rewrite ?count_cons, ?count_nil; simpl; lia.
  - unfold on_message. rewrite (on_message_unformatted payload w e Hm). exact Hnil.
Qed.

(** X7. Arbitration is one command at most: processing one message
    publishes at most one pump command, and each published command comes
    with its audit record. *)
Theorem one_command_per_sample (msg : message) (w : world) :
  (count is_publish (trace (on_message msg w)) <= S (count is_publish (trace w)))%nat /\
  (count is_publish (trace (on_message msg w)) - count is_publish (trace w) =
   count is_audit (trace (on_message msg w)) - count is_audit (trace w))%nat /\
  (count is_publish (trace w) <= count is_publish (trace (on_message msg w)))%nat.
Proof.
  destruct (on_message_events msg w) as (evs & -> & He & Hle).
  rewrite !count_app. lia.
Qed.


(** ** Invariants of every run *)

Lemma await_broadcast_frame (w : world) :
  db (fst (await_broadcast w)) = db w /\
  timers (fst (await_broadcast w)) = timers w /\
  auto_off_timer (fst (await_broadcast w)) = auto_off_timer w /\
  exists evs, trace (fst (await_broadcast w)) = (trace w ++ evs)%list /\
              count is_publish evs = 0%nat /\ count is_audit evs = 0%nat.
Proof.
  unfold await_broadcast. destruct (_ && _ && _ && _); simpl.
  - do 3 (split; [reflexivity|]). eexists. split; [reflexivity|]. split; reflexivity.
  - do 3 (split; [reflexivity|]). exists []. rewrite app_nil_r.
    split; [reflexivity|]. split; reflexivity.
Qed.

Lemma finish_fst (r : world * option exn) : fst (finish r) = fst r.
Proof. destruct r as [w [e|]]; reflexivity. Qed.

Lemma audited_refl (w : world) : audited w w.
Proof. exists []. rewrite app_nil_r. split; reflexivity. Qed.

Lemma audited_trans (w1 w2 w3 : world) : audited w1 w2 -> audited w2 w3 -> audited w1 w3.
Proof.
  intros (e1 & H1 & C1) (e2 & H2 & C2). exists (e1 ++ e2)%list.
  rewrite H2, H1, <- app_assoc. split; [reflexivity|]. rewrite !count_app. lia.
Qed.

Lemma audited_same_trace (w w' : world) : trace w' = trace w -> audited w w'.
Proof. intros H. exists []. rewrite app_nil_r. split; [exact H|reflexivity]. Qed.

Lemma audited_command (w w' : world) :
  (exists evs, trace w' = (trace w ++ evs)%list /\ pump_command_events evs) ->
  audited w w'.
Proof.
  intros (evs & H & Hc). exists evs. split; [exact H|].
  apply (pump_command_counts evs Hc).
Qed.

Lemma audited_await_broadcast (w : world) : audited w (fst (await_broadcast w)).
Proof.
  destruct (await_broadcast_frame w) as (_ & _ & _ & evs & H & Hp & Ha).
  exists evs. split; [exact H|]. congruence.
Qed.

Lemma audited_emit_awaited (c : coro) (w : world) : audited w (emit (Awaited c) w).
Proof. exists [Awaited c]. split; reflexivity. Qed.

Lemma audited_step (w w' : world) : timers_ok w -> step w w' -> audited w w'.
Proof.
  intros Hok Hs. destruct Hs.
  - apply audited_command, turn_pump_on_command.
  - apply audited_command, turn_pump_off_command.
  - destruct (on_message_events msg w) as (evs & H & Hc & _). exists evs. auto.
  - unfold post_pump_on. destruct (format_1f _); [|apply audited_same_trace; reflexivity].
    eapply audited_trans; [|apply audited_await_broadcast].
    eapply audited_trans; [|apply audited_command, turn_pump_on_command].
    eapply audited_trans; [|apply audited_emit_awaited].
    apply audited_same_trace. reflexivity.
  - unfold post_pump_off.
    eapply audited_trans; [|apply audited_await_broadcast].
    eapply audited_trans; [|apply audited_command, turn_pump_off_command].
    eapply audited_trans; [|apply audited_emit_awaited].
    apply audited_same_trace. reflexivity.
  - destruct f as [job_name duration|job_name]; simpl.
    + destruct (plus_minutes _ _); simpl; [|apply audited_refl].
      eapply audited_trans; [|apply audited_command, turn_pump_on_command].
      apply audited_same_trace. reflexivity.
    + eapply audited_trans; [apply audited_command, turn_pump_off_command|].
      apply audited_same_trace. reflexivity.
  - apply audited_command, advance_events, Hok.
Qed.

Lemma endpoint_tail (w0 w : world) :
  audited w0 w -> audited w0 (fst (finish (await_broadcast w))).
Proof.
  intros H. rewrite finish_fst.
  eapply audited_trans; [exact H|apply audited_await_broadcast].
Qed.

Lemma audited_api_step (w w' : world) : timers_ok w -> api_step w w' -> audited w w'.
Proof.
  intros Hok Hs. destruct Hs.
  - apply audited_step; assumption.
  - unfold set_automated_thresholds.
    destruct (negb (_ && _)); [apply audited_refl|].
    destruct (negb (Qltb _ _)); [apply audited_refl|].
    destruct (negb saved); [apply audited_same_trace; reflexivity|].
    match goal with
    | |- context [await_broadcast ?w0] =>
        pose proof (audited_await_broadcast w0) as Hb;
        destruct (await_broadcast w0) as [w1 [e|]]
    end; simpl in *.
    + exact Hb.
    + eapply audited_trans; [exact Hb|apply audited_emit_awaited].
  - unfold enable_automated_mode.
    destruct (automated_mode_enabled (db w)); [apply audited_refl|].
    apply endpoint_tail.
    eapply audited_trans; [|apply audited_emit_awaited].
    apply audited_same_trace. reflexivity.
  - unfold disable_automated_mode.
    destruct (negb (automated_mode_enabled (db w))); [apply audited_refl|].
    apply endpoint_tail.
    eapply audited_trans; [|apply audited_emit_awaited].
    apply audited_same_trace. reflexivity.
  - unfold toggle_manual_override_safety. apply endpoint_tail.
    apply audited_same_trace. reflexivity.
  - unfold clear_manual_override. apply endpoint_tail.
    eapply audited_trans; [|apply audited_emit_awaited].
    apply audited_same_trace. reflexivity.
  - unfold shutdown.
    eapply audited_trans; [apply audited_command, turn_pump_off_command|].
    apply audited_same_trace. apply cancel_if_alive_frame.
  - apply audited_same_trace. reflexivity.
Qed.

Lemma timers_ok_api_step (w w' : world) : api_step w w' -> timers_ok w -> timers_ok w'.
Proof.
  intros Hs Hok. destruct Hs.
  - eapply timers_ok_step; eauto.
  - unfold set_automated_thresholds.
    destruct (negb (_ && _)); [exact Hok|].
    destruct (negb (Qltb _ _)); [exact Hok|].
    destruct (negb saved); [exact Hok|].
    unfold await_broadcast. destruct (_ && _ && _ && _); exact Hok.
  - unfold enable_automated_mode.
    destruct (automated_mode_enabled (db w)); [exact Hok|].
    unfold await_broadcast. destruct (_ && _ && _ && _); exact Hok.
  - unfold disable_automated_mode.
    destruct (negb (automated_mode_enabled (db w))); [exact Hok|].
    unfold await_broadcast. destruct (_ && _ && _ && _); exact Hok.
  - unfold toggle_manual_override_safety, await_broadcast.
    destruct (_ && _ && _ && _); exact Hok.
  - unfold clear_manual_override, await_broadcast.
    destruct (_ && _ && _ && _); exact Hok.
  - unfold shutdown. apply no_live_ok, cancel_if_alive_dead.
    apply timers_ok_turn_pump_off, Hok.
  - exact Hok.
Qed.

Lemma timers_ok_api_reachable (w : world) : api_reachable w -> timers_ok w.
Proof.
  induction 1 as [|w w' _ IH Hs].
  - intros i t Hi. discriminate.
  - exact (timers_ok_api_step w w' Hs IH).
Qed.

(** X8. Along every run of the backend (pump commands, telemetry, manual
    and settings endpoints, scheduled jobs, timer expiry, shutdown) the
    actuator commands published and the pump-control audit records submitted
    are equally many: no command goes out unaudited, and vice versa. *)
Theorem every_command_is_audited (w : world) :
  api_reachable w -> count is_publish (trace w) = count is_audit (trace w).
Proof.
  induction 1 as [|w w' Hr IH Hs]; [reflexivity|].
  destruct (audited_api_step w w' (timers_ok_api_reachable w Hr) Hs) as (evs & -> & He).
  rewrite !count_app. lia.
Qed.


(** ** Settings endpoints *)

Lemma in_percent_range_spec (x : Q) :
  in_percent_range x = true <-> (0 # 1 <= x /\ x <= 100 # 1)%Q.
Proof.
  unfold in_percent_range. rewrite andb_true_iff, !Qleb_le. tauto.
Qed.

Lemma thresholds_endpoint_cases (str_float : Q -> string) (lo hi : Q)
    (saved : bool) (w : world) :
  let r := set_automated_thresholds str_float lo hi saved w in
  ((snd r = RequestValidationError \/ snd r = HTTPException 400) /\ fst r = w /\
   ~ (0 # 1 <= lo /\ lo < hi /\ hi <= 100 # 1)%Q) \/
  ((0 # 1 <= lo /\ lo < hi /\ hi <= 100 # 1)%Q /\
   db (fst r) = set_critical_high_threshold hi (set_critical_low_threshold lo (db w)) /\
   (saved = false <-> snd r = HTTPException 502)).
Proof.
  cbv zeta. unfold set_automated_thresholds.
  destruct (in_percent_range lo) eqn:El; simpl.
  - apply in_percent_range_spec in El.
    destruct (in_percent_range hi) eqn:Eh; simpl.
    + apply in_percent_range_spec in Eh.
      destruct (Qltb lo hi) eqn:Elt; simpl.
      * apply Qltb_lt in Elt. right.
        split; [split; [apply El|split; [exact Elt|apply Eh]]|].
        destruct saved; simpl.
        -- match goal with
           | |- context [await_broadcast ?w0] =>
               pose proof (await_broadcast_frame w0) as (Hdb & _);
               destruct (await_broadcast w0) as [w1 [e|]]
           end; simpl in *; rewrite Hdb;
             (split; [reflexivity|]); split; discriminate.
        -- split; [reflexivity|]. split; reflexivity.
      * apply Qltb_ge in Elt. left. split; [auto|]. split; [reflexivity|].
        intros (_ & H & _). exact (Qlt_not_le _ _ H Elt).
    + left. split; [auto|]. split; [reflexivity|].
      intros (H1 & H2 & H3).
      assert (in_percent_range hi = true); [|congruence].
      apply in_percent_range_spec. split; [|exact H3].
      apply Qlt_le_weak. eapply Qle_lt_trans; eauto.
  - left. split; [auto|]. split; [reflexivity|].
    intros (H1 & H2 & H3).
    assert (in_percent_range lo = true); [|congruence].
    apply in_percent_range_spec. split; [exact H1|].
    apply Qlt_le_weak. eapply Qlt_le_trans; eauto.
Qed.

(** X9. The thresholds endpoint either rejects the request and leaves the
    world untouched (a value outside 0..100, or low not below high), or
    stores both thresholds, which then satisfy 0 <= low < high <= 100; the
    thresholds stay stored even when persisting them fails (502) and no other
    field of the state changes. *)
Theorem thresholds_endpoint_validates (str_float : Q -> string) (lo hi : Q)
    (saved : bool) (w : world) :
  let r := set_automated_thresholds str_float lo hi saved w in
  ((snd r = RequestValidationError \/ snd r = HTTPException 400) /\ fst r = w /\
   ~ (0 # 1 <= lo /\ lo < hi /\ hi <= 100 # 1)%Q) \/
  ((0 # 1 <= lo /\ lo < hi /\ hi <= 100 # 1)%Q /\
   db (fst r) = set_critical_high_threshold hi (set_critical_low_threshold lo (db w)) /\
   (saved = false <-> snd r = HTTPException 502)).
Proof. exact (thresholds_endpoint_cases str_float lo hi saved w). Qed.

Lemma thresholds_ok_ext (s s' : state) :
  critical_low_threshold s' = critical_low_threshold s ->
  critical_high_threshold s' = critical_high_threshold s ->
  thresholds_ok s -> thresholds_ok s'.
Proof. unfold thresholds_ok. intros -> ->. auto. Qed.

Lemma step_keeps_thresholds (w w' : world) :
  timers_ok w -> step w w' ->
  critical_low_threshold (db w') = critical_low_threshold (db w) /\
  critical_high_threshold (db w') = critical_high_threshold (db w).
Proof.
  intros Hok Hs. destruct Hs.
  - rewrite turn_pump_on_db. split; reflexivity.
  - rewrite turn_pump_off_db_cases. destruct (pump_is_on (db w)); split; reflexivity.
  - destruct (on_message_settings msg w) as (H1 & H2 & _). auto.
  - unfold post_pump_on. destruct (format_1f _); [|split; reflexivity].
    match goal with
    | |- context [await_broadcast ?w0] =>
        destruct (await_broadcast_frame w0) as (-> & _)
    end.
    rewrite turn_pump_on_db. split; reflexivity.
  - unfold post_pump_off.
    match goal with
    | |- context [await_broadcast ?w0] =>
        destruct (await_broadcast_frame w0) as (-> & _)
    end.
    rewrite turn_pump_off_db_cases. simpl.
    destruct (pump_is_on (db w)); split; reflexivity.
  - destruct f as [job_name duration|job_name]; simpl.
    + destruct (plus_minutes _ _); simpl; [|split; reflexivity].
      rewrite turn_pump_on_db. split; reflexivity.
    + rewrite turn_pump_off_db_cases. destruct (pump_is_on (db w)); split; reflexivity.
  - destruct (advance_db t w Hok) as [-> | ->]; split; reflexivity.
Qed.

Lemma endpoint_tail_db (w : world) :
  db (fst (finish (await_broadcast w))) = db w.
Proof. rewrite finish_fst. apply await_broadcast_frame. Qed.

Lemma percent_order_dec (lo hi : Q) :
  {(0 # 1 <= lo /\ lo < hi /\ hi <= 100 # 1)%Q} +
  {~ (0 # 1 <= lo /\ lo < hi /\ hi <= 100 # 1)%Q}.
Proof.
  destruct (Qlt_le_dec lo (0 # 1)) as [H1|H1].
  { right. intros (H & _). exact (Qlt_not_le _ _ H1 H). }
  destruct (Qlt_le_dec lo hi) as [H2|H2].
  2:{ right. intros (_ & H & _). exact (Qlt_not_le _ _ H H2). }
  destruct (Qlt_le_dec (100 # 1) hi) as [H3|H3].
  { right. intros (_ & _ & H). exact (Qlt_not_le _ _ H3 H). }
  left. split; [exact H1|]. split; [exact H2|exact H3].
Qed.

Lemma api_step_thresholds (w w' : world) :
  timers_ok w -> api_step w w' -> thresholds_ok (db w) ->
  thresholds_ok (db w') \/
  exists lo hi automated allow,
    w' = load_saved_settings lo hi automated allow w /\
    ~ (0 # 1 <= lo /\ lo < hi /\ hi <= 100 # 1)%Q.
Proof.
  intros Hok Hs Ht. destruct Hs.
  - left. destruct (step_keeps_thresholds w w' Hok H) as (H1 & H2).
    exact (thresholds_ok_ext _ _ H1 H2 Ht).
  - left. destruct (thresholds_endpoint_cases str_float lo hi saved w)
      as [(_ & -> & _)|(Hr & -> & _)]; [exact Ht|].
    unfold thresholds_ok. simpl. exact Hr.
  - left. unfold enable_automated_mode.
    destruct (automated_mode_enabled (db w)); [exact Ht|].
    rewrite endpoint_tail_db. exact Ht.
  - left. unfold disable_automated_mode.
    destruct (negb (automated_mode_enabled (db w))); [exact Ht|].
    rewrite endpoint_tail_db. exact Ht.
  - left. unfold toggle_manual_override_safety. rewrite endpoint_tail_db. exact Ht.
  - left. unfold clear_manual_override. rewrite endpoint_tail_db. exact Ht.
  - left. unfold shutdown.
    destruct (cancel_if_alive_frame (turn_pump_off "Server Shutdown" w)) as (-> & _).
    rewrite turn_pump_off_db_cases. destruct (pump_is_on (db w)); exact Ht.
  - destruct (percent_order_dec lo hi) as [Hy|Hn].
    + left. exact Hy.
    + right. exists lo, hi, automated, allow. split; [reflexivity|exact Hn].
Qed.

(** X10. The thresholds are written by two operations only: the
    thresholds endpoint, which validates them, and the settings load of the
    startup, which stores what the store returned without any check. Hence a
    step of a run keeps 0 <= critical_low < critical_high <= 100 unless it
    is a startup load of values that violate it, and such a load does break
    it. Where the order holds, every moisture other than NaN falls in exactly
    one zone. *)
Theorem thresholds_stay_ordered (w w' : world) (m : number) :
  api_reachable w -> api_step w w' -> thresholds_ok (db w) ->
  (thresholds_ok (db w') \/
   exists lo hi automated allow,
     w' = load_saved_settings lo hi automated allow w /\
     ~ (0 # 1 <= lo /\ lo < hi /\ hi <= 100 # 1)%Q) /\
  (forall lo hi automated allow,
     thresholds_ok (db (load_saved_settings lo hi automated allow w)) <->
     (0 # 1 <= lo /\ lo < hi /\ hi <= 100 # 1)%Q) /\
  (thresholds_ok (db w') -> m <> NaN ->
   exists z,
     classify m (critical_low_threshold (db w')) (critical_high_threshold (db w'))
       = Some z /\
     (z = CRITICAL_LOW <-> num_lt m (critical_low_threshold (db w'))) /\
     (z = CRITICAL_HIGH <-> num_lt (critical_high_threshold (db w')) m)).
Proof.
  intros Hr Hs Ht.
  split; [exact (api_step_thresholds w w' (timers_ok_api_reachable w Hr) Hs Ht)|].
  split; [intros lo hi automated allow; reflexivity|].
  intros (_ & Hlt & _) Hn.
  destruct (classify m (critical_low_threshold (db w')) (critical_high_threshold (db w')))
    as [z|] eqn:E; [|exfalso; exact (classify_total _ _ _ Hn E)].
  exists z. split; [reflexivity|]. split.
  - rewrite <- classify_low, E. split; congruence.
  - rewrite <- (classify_high _ _ _ Hlt), E. split; congruence.
Qed.


(** ** Automated-mode switch *)

(** X11. Enabling automated mode while it already is enabled changes
    nothing, so an active manual override stays in force; enabling it from
    the disabled state also clears the manual override, so the reported mode
    is no longer MANUAL. Disabling it never touches the override. *)
Theorem automated_mode_switch (w : world) :
  (automated_mode_enabled (db w) = true -> enable_automated_mode w = (w, Success)) /\
  (automated_mode_enabled (db w) = false ->
   let w' := fst (enable_automated_mode w) in
   automated_mode_enabled (db w') = true /\
   manual_override_active (db w') = false /\
   manual_override_state (db w') = None /\
   get_current_mode (db w') <> "MANUAL" /\
   pump_is_on (db w') = pump_is_on (db w)) /\
  (automated_mode_enabled (db w) = false -> disable_automated_mode w = (w, Success)) /\
  (automated_mode_enabled (db w) = true ->
   let w' := fst (disable_automated_mode w) in
   automated_mode_enabled (db w') = false /\
   manual_override_active (db w') = manual_override_active (db w) /\
   manual_override_state (db w') = manual_override_state (db w) /\
   pump_is_on (db w') = pump_is_on (db w)).
Proof.
  split; [|split; [|split]].
  - intros H. unfold enable_automated_mode. rewrite H. reflexivity.
  - intros H. cbv zeta. unfold enable_automated_mode. rewrite H.
    rewrite endpoint_tail_db. simpl.
    do 3 (split; [reflexivity|]). split; [|reflexivity].
    unfold get_current_mode. simpl.
    destruct (truthy _); discriminate.
  - intros H. unfold disable_automated_mode. rewrite H. reflexivity.
  - intros H. cbv zeta. unfold disable_automated_mode. rewrite H. simpl negb.
    cbv iota. rewrite endpoint_tail_db. simpl. repeat split; reflexivity.
Qed.

(** ** Shutdown and stale timers *)

(** X12. After the shutdown sequence the pump is marked off and no
    auto-off timer is live, so nothing fires afterwards; an OFF command is
    published exactly when the pump was marked on. *)
Theorem shutdown_leaves_pump_off (w : world) :
  api_reachable w ->
  let w' := shutdown w in
  pump_is_on (db w') = false /\
  no_live_timer w' /\
  (forall t, advance t w' = set_clock t w') /\
  count is_publish (trace w') =
    (count is_publish (trace w) + if pump_is_on (db w) then 1 else 0)%nat.
Proof.
  intros Hr. cbv zeta.
  pose proof (timers_ok_api_reachable w Hr) as Hok.
  assert (Hdead : no_live_timer (shutdown w)).
  { unfold shutdown. apply cancel_if_alive_dead, timers_ok_turn_pump_off, Hok. }
  unfold shutdown in *.
  destruct (cancel_if_alive_frame (turn_pump_off "Server Shutdown" w))
    as (Hdb & Htr & _).
  split; [rewrite Hdb; apply turn_pump_off_pump|].
  split; [exact Hdead|].
  split; [intros t; apply advance_no_live, Hdead|].
  rewrite Htr, turn_pump_off_trace_cases, count_app.
  destruct (pump_is_on (db w)); rewrite ?count_cons, ?count_nil; simpl; lia.
Qed.

(** X13. When the auto-off deadline arrives while the pump is marked off
    (for instance because a sample reported it off), the expiry publishes
    nothing and changes no state field; the timer is used up, so no auto-off
    is pending afterwards. *)
Theorem expiry_while_marked_off_is_silent (w : world) (n : nat) (tk : Timer) (t : Z) :
  api_reachable w ->
  pump_is_on (db w) = false ->
  timers w !! n = Some tk -> live tk -> deadline tk <= t ->
  let w' := advance t w in
  trace w' = trace w /\ db w' = db w /\
  console w' = (console w ++ [AlreadyOff])%list /\
  no_live_timer w'.
Proof.
  intros Hr Hp Hn Hl Hd. cbv zeta.
  pose proof (timers_ok_api_reachable w Hr) as Hok.
  destruct (Hok n tk Hn (live_alive _ Hl)) as [_ Href].
  assert (Hok' : timers_ok (set_clock t w)) by exact Hok.
  assert (Hadv : advance t w = fire n (set_clock t w)).
  { unfold advance. rewrite fire_due_spec by exact Hok'. simpl.
    rewrite Href, Hn. unfold due. rewrite Hl.
    destruct (deadline tk <=? t) eqn:E; [reflexivity|lia]. }
  rewrite Hadv.
  destruct (fire_spec n tk (set_clock t w) Hok' Hn Hl) as (_ & Hdb & Htr & _).
  rewrite Hdb, Htr.
  rewrite (turn_pump_off_already "Auto-shutoff" (set_clock t w)) by exact Hp.
  split; [reflexivity|]. split; [reflexivity|].
  split; [|exact (fire_no_live n tk (set_clock t w) Hok' Hn Hl)].
  unfold fire, set_timer_status. simpl. rewrite Hn. simpl.
  rewrite (turn_pump_off_already "Auto-shutoff") by exact Hp. simpl.
  rewrite list_lookup_insert_eq by (eapply lookup_lt_Some; eauto). reflexivity.
Qed.


(** ** Composition of schedule operations *)

Lemma on_off_ids_differ (a b : string) : "on_db_" ++ a <> "off_db_" ++ b.
Proof. intros H. cbv [String.append] in H. discriminate H. Qed.

Lemma on_id_inj (a b : string) : "on_db_" ++ a = "on_db_" ++ b -> a = b.
Proof. intros H. cbv [String.append] in H. injection H as H. exact H. Qed.

Lemma off_id_inj (a b : string) : "off_db_" ++ a = "off_db_" ++ b -> a = b.
Proof. intros H. cbv [String.append] in H. injection H as H. exact H. Qed.

Lemma removal_idempotent (schedule_id : string) (jobs : gmap string job) :
  _remove_job_from_scheduler schedule_id
    (_remove_job_from_scheduler schedule_id jobs) =
  _remove_job_from_scheduler schedule_id jobs.
Proof.
  rewrite !remove_job_from_scheduler_spec.
  apply map_eq. intros k.
  destruct (decide (k = "off_db_" ++ schedule_id)) as [->|Hoff].
  - rewrite !lookup_delete_eq. reflexivity.
  - rewrite !(lookup_delete_ne _ ("off_db_" ++ schedule_id)) by congruence.
    destruct (decide (k = "on_db_" ++ schedule_id)) as [->|Hon].
    + rewrite !lookup_delete_eq. reflexivity.
    + rewrite !lookup_delete_ne by congruence. reflexivity.
Qed.

Lemma removal_of_registered (schedule_id : string) (on_job off_job : job)
    (jobs : gmap string job) :
  _remove_job_from_scheduler schedule_id
    (<["off_db_" ++ schedule_id := off_job]>
       (<["on_db_" ++ schedule_id := on_job]> jobs)) =
  _remove_job_from_scheduler schedule_id jobs.
Proof.
  rewrite !remove_job_from_scheduler_spec.
  apply map_eq. intros k.
  destruct (decide (k = "off_db_" ++ schedule_id)) as [->|Hoff].
  - rewrite !lookup_delete_eq. reflexivity.
  - rewrite !(lookup_delete_ne _ ("off_db_" ++ schedule_id)) by congruence.
    destruct (decide (k = "on_db_" ++ schedule_id)) as [->|Hon].
    + rewrite !lookup_delete_eq. reflexivity.
    + rewrite !lookup_delete_ne by congruence.
      rewrite !lookup_insert_ne by congruence. reflexivity.
Qed.

(** The ways a compilation can end. Whether the start time parses does not
    depend on the clock; what is registered after the removal may. *)
Lemma compile_cases (sd : schedule_data) :
  let schedule_id := pretty (sd_id sd) in
  (exists e, forall now jobs,
     _add_or_update_job_in_scheduler now sd jobs = (jobs, Some e)) \/
  (forall now,
     (exists err, forall jobs,
        _add_or_update_job_in_scheduler now sd jobs =
          (_remove_job_from_scheduler schedule_id jobs, err)) \/
     (exists on_job, forall jobs,
        _add_or_update_job_in_scheduler now sd jobs =
          (<["on_db_" ++ schedule_id := on_job]>
             (_remove_job_from_scheduler schedule_id jobs), Some OverflowError)) \/
     (exists on_job off_job, forall jobs,
        _add_or_update_job_in_scheduler now sd jobs =
          (<["off_db_" ++ schedule_id := off_job]>
             (<["on_db_" ++ schedule_id := on_job]>
                (_remove_job_from_scheduler schedule_id jobs)), None))).
Proof.
  cbv zeta. unfold _add_or_update_job_in_scheduler.
  destruct (map_int _) as [time_parts|];
    [|left; eexists; intros now jobs; reflexivity].
  destruct time_parts as [|h [|m [|s rest]]];
    try (left; eexists; intros now jobs; reflexivity).
  unfold replace_time.
  destruct ((0 <=? h) && (h <=? 23) && (0 <=? m) && (m <=? 59)
            && (0 <=? s) && (s <=? 59));
    [|left; eexists; intros now jobs; reflexivity].
  right. intros now.
  destruct (bool_decide _);
    [|left; eexists; intros jobs; reflexivity].
  destruct (truthy _ && negb _);
    [|left; eexists; intros jobs; reflexivity].
  unfold add_job. cbn [day_of_week].
  destruct (cron_accepts _);
    [|left; eexists; intros jobs; reflexivity].
  destruct (plus_minutes _ _).
  - right. right. eexists _, _. intros jobs. reflexivity.
  - right. left. eexists. intros jobs. reflexivity.
Qed.

Lemma removal_of_on (schedule_id : string) (on_job : job) (jobs : gmap string job) :
  _remove_job_from_scheduler schedule_id (<["on_db_" ++ schedule_id := on_job]> jobs) =
  _remove_job_from_scheduler schedule_id jobs.
Proof.
  rewrite !remove_job_from_scheduler_spec.
  apply map_eq. intros k.
  destruct (decide (k = "off_db_" ++ schedule_id)) as [->|Hoff].
  - rewrite !lookup_delete_eq. reflexivity.
  - rewrite !(lookup_delete_ne _ ("off_db_" ++ schedule_id)) by congruence.
    destruct (decide (k = "on_db_" ++ schedule_id)) as [->|Hon].
    + rewrite !lookup_delete_eq. reflexivity.
    + rewrite !lookup_delete_ne by congruence.
      rewrite !lookup_insert_ne by congruence. reflexivity.
Qed.

Lemma compile_twice (now1 now2 : Z) (sd : schedule_data) (jobs : gmap string job) :
  _add_or_update_job_in_scheduler now2 sd
    (fst (_add_or_update_job_in_scheduler now1 sd jobs)) =
  _add_or_update_job_in_scheduler now2 sd jobs.
Proof.
  destruct (compile_cases sd) as [(e & H)|H].
  - rewrite (H now1 jobs). reflexivity.
  - destruct (H now1) as [(err & H1)|[(nj & H1)|(nj & oj & H1)]];
      rewrite (H1 jobs); simpl fst;
      destruct (H now2) as [(err2 & H2)|[(nj2 & H2)|(nj2 & oj2 & H2)]];
      rewrite !H2;
      rewrite ?removal_of_registered, ?removal_of_on, removal_idempotent;
      reflexivity.
Qed.

(** X14. Compiling a schedule record is idempotent: compiling the same
    record again onto the job store the first compilation left gives the
    same store and the same outcome as compiling it once at that later time,
    whatever the record (active or not, valid or not) and whenever the two
    compilations run. *)
Theorem compile_is_idempotent (now1 now2 : Z) (sd : schedule_data)
    (jobs : gmap string job) :
  _add_or_update_job_in_scheduler now2 sd
    (fst (_add_or_update_job_in_scheduler now1 sd jobs)) =
  _add_or_update_job_in_scheduler now2 sd jobs.
Proof. exact (compile_twice now1 now2 sd jobs). Qed.

Lemma compile_other_keys (now : Z) (sd : schedule_data) (jobs : gmap string job)
    (k : string) :
  k <> "on_db_" ++ pretty (sd_id sd) -> k <> "off_db_" ++ pretty (sd_id sd) ->
  fst (_add_or_update_job_in_scheduler now sd jobs) !! k = jobs !! k.
Proof.
  intros Hon Hoff.
  assert (Hrem : _remove_job_from_scheduler (pretty (sd_id sd)) jobs !! k = jobs !! k).
  { rewrite remove_job_from_scheduler_spec.
    rewrite !lookup_delete_ne by congruence. reflexivity. }
  destruct (compile_cases sd) as [(e & H)|H].
  - rewrite H. reflexivity.
  - destruct (H now) as [(err & H1)|[(nj & H1)|(nj & oj & H1)]];
      rewrite (H1 jobs); simpl fst;
      rewrite ?lookup_insert_ne by congruence; exact Hrem.
Qed.

(** X15. Compiling or removing one schedule never touches the triggers of
    another: for every schedule id different from the record's, the ON and
    OFF triggers registered under that id are exactly what they were. *)
Theorem compile_leaves_other_schedules (now : Z) (sd : schedule_data)
    (jobs : gmap string job) (other : Z) :
  other <> sd_id sd ->
  let after := fst (_add_or_update_job_in_scheduler now sd jobs) in
  let removed := _remove_job_from_scheduler (pretty (sd_id sd)) jobs in
  after !! ("on_db_" ++ pretty other) = jobs !! ("on_db_" ++ pretty other) /\
  after !! ("off_db_" ++ pretty other) = jobs !! ("off_db_" ++ pretty other) /\
  removed !! ("on_db_" ++ pretty other) = jobs !! ("on_db_" ++ pretty other) /\
  removed !! ("off_db_" ++ pretty other) = jobs !! ("off_db_" ++ pretty other).
Proof.
  intros Hne. cbv zeta.
  assert (Hp : pretty other <> pretty (sd_id sd)).
  { intros H. apply Hne. exact (pretty_Z_inj _ _ H). }
  assert (H1 : "on_db_" ++ pretty other <> "on_db_" ++ pretty (sd_id sd))
    by (intros H; apply Hp, on_id_inj, H).
  assert (H2 : "off_db_" ++ pretty other <> "off_db_" ++ pretty (sd_id sd))
    by (intros H; apply Hp, off_id_inj, H).
  assert (H3 : "on_db_" ++ pretty other <> "off_db_" ++ pretty (sd_id sd))
    by apply on_off_ids_differ.
  assert (H4 : "off_db_" ++ pretty other <> "on_db_" ++ pretty (sd_id sd))
    by (intros H; symmetry in H; exact (on_off_ids_differ _ _ H)).
  split; [apply compile_other_keys; assumption|].
  split; [apply compile_other_keys; assumption|].
  rewrite remove_job_from_scheduler_spec.
  split; rewrite !lookup_delete_ne by congruence; reflexivity.
Qed.


(** ** Requests to the store *)

Lemma make_request_run (server : nat -> attempt_outcome) :
  let r := _make_request server in
  (1 <= requests r <= 3)%nat /\
  Forall2 Qeq (sleeps r) (firstn (requests r - 1) [(1 # 2)%Q; (1 # 1)%Q]) /\
  (forall j, (j < requests r - 1)%nat -> is_retryable (server j)) /\
  (forall s, returned r = Some s ->
             server (requests r - 1)%nat = Response s /\ 200 <= s < 300) /\
  (returned r = None ->
   ~ is_success (server (requests r - 1)%nat) /\
   ((requests r < 3)%nat -> ~ is_retryable (server (requests r - 1)%nat))) /\
  (printed_error r = true <-> requests r = 3%nat /\ server 2%nat = RequestError).
Proof.
  cbv zeta. unfold _make_request, HTTP_MAX_RETRIES.
  assert (Hretry : forall c, (500 <=? c) = true -> is_retryable (Response c)).
  { intros c H. right. exists c. split; [reflexivity|]. apply Z.leb_le, H. }
  assert (Hnot : forall c, (200 <=? c) && (c <? 300) = false -> ~ is_success (Response c)).
  { intros c H (c' & [= <-] & Hc).
    assert ((200 <=? c) && (c <? 300) = true); [|congruence].
    apply andb_true_iff. split; [apply Z.leb_le|apply Z.ltb_lt]; lia. }
  assert (Hnr : forall c, (500 <=? c) = false -> ~ is_retryable (Response c)).
  { intros c H [H'|(c' & [= <-] & Hc)]; [discriminate|].
    apply Z.leb_gt in H. lia. }
  assert (Herr : ~ is_success RequestError) by (intros (c & H & _); discriminate).
  assert (Hrange : forall c, (200 <=? c) && (c <? 300) = true -> 200 <= c < 300).
  { intros c H. apply andb_true_iff in H as [H1 H2].
    apply Z.leb_le in H1. apply Z.ltb_lt in H2. lia. }
  repeat (simpl; unfold after_sleep; simpl;
          rewrite ?andb_true_r, ?andb_false_r;
          match goal with
          | |- context [match ?o with Response _ => _ | RequestError => _ end] =>
              destruct o eqn:?
          | |- context [if (200 <=? ?c) && (?c <? 300) then _ else _] =>
              destruct ((200 <=? c) && (c <? 300)) eqn:?
          | |- context [if (500 <=? ?c) then _ else _] => destruct (500 <=? c) eqn:?
          end); simpl.
  all: repeat match goal with
              | H : _ = Response _ |- _ => rewrite H
              | H : _ = RequestError |- _ => rewrite H
              end.
  all: (split; [lia|]).
  all: (split; [repeat (first [apply List.Forall2_nil
                           |apply List.Forall2_cons; [vm_compute; reflexivity|]])|]).
  all: (split; [intros j Hj; destruct j as [|[|j]]; simpl in Hj; try lia;
             repeat match goal with
                    | H : _ = Response _ |- _ => rewrite H
                    | H : _ = RequestError |- _ => rewrite H
                    end;
             first [solve [auto]|left; reflexivity]|]).
  all: (split; [intros s Hs;
             first [discriminate Hs|injection Hs as <-; split; [reflexivity|auto]]|]).
  all: (split; [intros Hn; first [discriminate Hn
                                 |split; [solve [auto]|intros Hlt; try lia; solve [auto]]]|]).
  all: (split; [intros H; try discriminate H; split; reflexivity
            |intros [H1 H2]; try discriminate H1; try discriminate H2; reflexivity]).
Qed.

(** X16. A request to the store is sent at most three times. All requests
    before the last were answered by a transport error or a status >= 500,
    and were followed by sleeps of 0.5 s and 1 s; a response is returned only
    when it is a 2xx, an answer below 500 that is not a 2xx (such as 404)
    ends the attempts at once, and the final error is printed only when the
    third attempt fails in transport. *)
Theorem make_request_bounded_retry (server : nat -> attempt_outcome) :
  let r := _make_request server in
  (1 <= requests r <= 3)%nat /\
  Forall2 Qeq (sleeps r) (firstn (requests r - 1) [(1 # 2)%Q; (1 # 1)%Q]) /\
  (forall j, (j < requests r - 1)%nat -> is_retryable (server j)) /\
  (forall s, returned r = Some s ->
             server (requests r - 1)%nat = Response s /\ 200 <= s < 300) /\
  (returned r = None ->
   ~ is_success (server (requests r - 1)%nat) /\
   ((requests r < 3)%nat -> ~ is_retryable (server (requests r - 1)%nat))) /\
  (printed_error r = true <-> requests r = 3%nat /\ server 2%nat = RequestError).
Proof. exact (make_request_run server). Qed.


(** ** Schedule endpoints against the store *)

Lemma first_answer_success (server : nat -> attempt_outcome) (c : Z) :
  server 0%nat = Response c -> 200 <= c < 300 ->
  returned (_make_request server) = Some c.
Proof.
  intros H Hc. unfold _make_request, HTTP_MAX_RETRIES. simpl. rewrite H.
  assert (Hb : (200 <=? c) && (c <? 300) = true).
  { apply andb_true_iff. split; [apply Z.leb_le|apply Z.ltb_lt]; lia. }
  rewrite Hb. reflexivity.
Qed.

Lemma store_down (server : nat -> attempt_outcome) :
  (forall k, (k < 3)%nat -> server k = RequestError) ->
  returned (_make_request server) = None.
Proof.
  intros H. unfold _make_request, HTTP_MAX_RETRIES. simpl.
  rewrite !H by lia. reflexivity.
Qed.

(** X17. The pause and delete endpoints remove a schedule's triggers
    exactly when the store client hands back a response with status 200 or
    201. In every other case they answer 404 and leave the job store as it
    is: when the store was unreachable on all three attempts, and also when
    it answered with another 2xx status such as 204. *)
Theorem removal_endpoints_follow_store (server : nat -> attempt_outcome)
    (schedule_id : Z) (jobs : gmap string job) :
  let removed := _remove_job_from_scheduler (pretty schedule_id) jobs in
  (returned (_make_request server) = Some 200 \/
   returned (_make_request server) = Some 201 ->
   pause_schedule server schedule_id jobs = (removed, Success) /\
   delete_schedule server schedule_id jobs =
     (removed, [Awaited (create_alert "SCHEDULE_DELETED" "INFO" None None)], Success) /\
   removed !! ("on_db_" ++ pretty schedule_id) = None /\
   removed !! ("off_db_" ++ pretty schedule_id) = None) /\
  (returned (_make_request server) <> Some 200 ->
   returned (_make_request server) <> Some 201 ->
   pause_schedule server schedule_id jobs = (jobs, HTTPException 404) /\
   delete_schedule server schedule_id jobs = (jobs, [], HTTPException 404)) /\
  (forall c, server 0%nat = Response c -> 200 <= c < 300 -> c <> 200 -> c <> 201 ->
   pause_schedule server schedule_id jobs = (jobs, HTTPException 404)) /\
  ((forall k, (k < 3)%nat -> server k = RequestError) ->
   pause_schedule server schedule_id jobs = (jobs, HTTPException 404)).
Proof.
  cbv zeta.
  assert (Hrefuse : returned (_make_request server) <> Some 200 ->
                    returned (_make_request server) <> Some 201 ->
                    store_refused (returned (_make_request server)) = true).
  { intros H1 H2. unfold store_refused.
    destruct (returned (_make_request server)) as [c|]; [|reflexivity].
    destruct (c =? 200) eqn:E1; [apply Z.eqb_eq in E1; congruence|].
    destruct (c =? 201) eqn:E2; [apply Z.eqb_eq in E2; congruence|]. reflexivity. }
  split; [|split; [|split]].
  - intros H. unfold pause_schedule, delete_schedule.
    assert (Hok : store_refused (returned (_make_request server)) = false)
      by (destruct H as [-> | ->]; reflexivity).
    rewrite Hok. do 2 (split; [reflexivity|]).
    rewrite remove_job_from_scheduler_spec. split.
    + rewrite lookup_delete_ne by (intros E; exact (on_off_ids_differ _ _ (eq_sym E))).
      apply lookup_delete_eq.
    + apply lookup_delete_eq.
  - intros H1 H2. unfold pause_schedule, delete_schedule.
    rewrite (Hrefuse H1 H2). split; reflexivity.
  - intros c Hc Hr N1 N2. unfold pause_schedule.
    rewrite Hrefuse; [reflexivity| |];
      rewrite (first_answer_success server c Hc Hr); congruence.
  - intros Hdown. unfold pause_schedule.
    rewrite Hrefuse; [reflexivity| |]; rewrite (store_down server Hdown); discriminate.
Qed.

Lemma find_schedule_id (schedule_id : Z) (items : list schedule_data)
    (sd : schedule_data) :
  find_schedule schedule_id items = Some sd -> sd_id sd = schedule_id.
Proof.
  unfold find_schedule. intros H. apply List.find_some in H as [_ H].
  apply Z.eqb_eq, H.
Qed.

(** Two compilations of a record that both end without error register
    the same triggers, whenever they run. *)
Lemma compile_success_store (now1 now2 : Z) (sd : schedule_data)
    (jobs : gmap string job) :
  snd (_add_or_update_job_in_scheduler now1 sd jobs) = None ->
  snd (_add_or_update_job_in_scheduler now2 sd jobs) = None ->
  fst (_add_or_update_job_in_scheduler now2 sd jobs) =
  fst (_add_or_update_job_in_scheduler now1 sd jobs).
Proof.
  destruct (map_int (split ":" (sd_start_time_of_day sd))) as [parts|] eqn:Hparse;
    [|unfold _add_or_update_job_in_scheduler; rewrite Hparse; discriminate].
  destruct parts as [|h [|m [|s rest]]];
    try (unfold _add_or_update_job_in_scheduler; rewrite Hparse; discriminate).
  destruct ((0 <=? h) && (h <=? 23) && (0 <=? m) && (m <=? 59)
            && (0 <=? s) && (s <=? 59)) eqn:E;
    [|unfold _add_or_update_job_in_scheduler, replace_time; rewrite Hparse, E;
      discriminate].
  assert (Hr : 0 <= h <= 23 /\ 0 <= m <= 59 /\ 0 <= s <= 59).
  { repeat (apply andb_true_iff in E as [E ?]). rewrite Z.leb_le in *. lia. }
  destruct Hr as (Hh & Hm & Hs).
  rewrite (compile_parsed now1 sd jobs h m s rest Hparse Hh Hm Hs).
  rewrite (compile_parsed now2 sd jobs h m s rest Hparse Hh Hm Hs).
  cbv zeta.
  destruct (bool_decide _); [|reflexivity].
  destruct (truthy _ && negb _); [|reflexivity].
  destruct (cron_accepts _); [|reflexivity].
  destruct (plus_minutes (now1 / day * day + _) _) as [off1|] eqn:E1; [|discriminate].
  destruct (plus_minutes (now2 / day * day + _) _) as [off2|] eqn:E2; [|discriminate].
  intros _ _. simpl fst.
  apply plus_minutes_some in E1 as [-> _]. apply plus_minutes_some in E2 as [-> _].
  pose proof (time_of_day_fields now1 h m s (sd_duration_min sd) Hs) as F1.
  pose proof (time_of_day_fields now2 h m s (sd_duration_min sd) Hs) as F2.
  cbv zeta in F1, F2.
  replace (now1 / day * day + ((h * 60 + m) * 60 + s) * second
           + sd_duration_min sd * 60 * second)
    with (now1 / day * day + ((h * 60 + m + sd_duration_min sd) * 60 + s) * second)
    by ring.
  replace (now2 / day * day + ((h * 60 + m) * 60 + s) * second
           + sd_duration_min sd * 60 * second)
    with (now2 / day * day + ((h * 60 + m + sd_duration_min sd) * 60 + s) * second)
    by ring.
  set (o1 := now1 / day * day + _) in *. set (o2 := now2 / day * day + _) in *.
  assert (Hhour : datetime_hour o2 = datetime_hour o1) by lia.
  assert (Hmin : datetime_minute o2 = datetime_minute o1) by lia.
  rewrite Hhour, Hmin. reflexivity.
Qed.

Lemma compile_same_day (now1 now2 : Z) (sd : schedule_data) (jobs : gmap string job) :
  now1 / day = now2 / day ->
  _add_or_update_job_in_scheduler now1 sd jobs =
  _add_or_update_job_in_scheduler now2 sd jobs.
Proof.
  intros H. unfold _add_or_update_job_in_scheduler, replace_time. rewrite H. reflexivity.
Qed.

(** X18. Pausing a compiled schedule removes its triggers, and resuming it
    compiles the record again on the job store without them, provided the
    store accepts both status updates and lists the record on resume. When
    the resume happens on the day of the first compilation, or whenever that
    second compilation ends without error too, it brings back exactly the
    job store the first compilation had produced. *)
Theorem pause_then_resume_restores (now1 now2 : Z)
    (server1 server2 : nat -> attempt_outcome)
    (items : list schedule_data) (sd : schedule_data) (jobs : gmap string job) :
  snd (_add_or_update_job_in_scheduler now1 sd jobs) = None ->
  store_refused (returned (_make_request server1)) = false ->
  store_refused (returned (_make_request server2)) = false ->
  find_schedule (sd_id sd) items = Some sd ->
  let compiled := fst (_add_or_update_job_in_scheduler now1 sd jobs) in
  let paused := fst (pause_schedule server1 (sd_id sd) compiled) in
  paused = _remove_job_from_scheduler (pretty (sd_id sd)) jobs /\
  resume_schedule now2 server2 items (sd_id sd) paused =
    (fst (_add_or_update_job_in_scheduler now2 sd jobs), Success) /\
  (snd (_add_or_update_job_in_scheduler now2 sd jobs) = None ->
   resume_schedule now2 server2 items (sd_id sd) paused = (compiled, Success)) /\
  (now2 / day = now1 / day ->
   resume_schedule now2 server2 items (sd_id sd) paused = (compiled, Success)).
Proof.
  intros Hok H1 H2 Hfind. cbv zeta.
  unfold pause_schedule, resume_schedule. rewrite H1, H2, Hfind. simpl fst.
  assert (Hpaused : _remove_job_from_scheduler (pretty (sd_id sd))
                      (fst (_add_or_update_job_in_scheduler now1 sd jobs)) =
                    _remove_job_from_scheduler (pretty (sd_id sd)) jobs).
  { destruct (compile_cases sd) as [(e & H)|H].
    - rewrite H in Hok. discriminate.
    - destruct (H now1) as [(err & Hn)|[(nj & Hn)|(nj & oj & Hn)]];
        rewrite Hn; simpl fst;
        rewrite ?removal_of_registered, ?removal_of_on; apply removal_idempotent. }
  assert (Hresume : fst (_add_or_update_job_in_scheduler now2 sd
                          (_remove_job_from_scheduler (pretty (sd_id sd)) jobs)) =
                    fst (_add_or_update_job_in_scheduler now2 sd jobs)).
  { destruct (compile_cases sd) as [(e & H)|H].
    - rewrite H in Hok. discriminate.
    - destruct (H now2) as [(err & Hn)|[(nj & Hn)|(nj & oj & Hn)]];
        rewrite !Hn; simpl fst; rewrite removal_idempotent; reflexivity. }
  rewrite Hpaused, Hresume.
  split; [reflexivity|]. split; [reflexivity|]. split.
  - intros Hok2. rewrite (compile_success_store now1 now2 sd jobs Hok Hok2). reflexivity.
  - intros Hday. rewrite (compile_same_day now2 now1 sd jobs Hday). reflexivity.
Qed.


(** ** The connection manager *)

Lemma filter_all (p : nat -> bool) (l : list nat) :
  (forall y, In y l -> p y = true) -> List.filter p l = l.
Proof.
  induction l as [|a l IH]; simpl; intros H; [reflexivity|].
  rewrite (H a) by (left; reflexivity). f_equal. apply IH.
  intros y Hy. apply H. right. exact Hy.
Qed.

Lemma list_remove_filter (x : nat) (l : list nat) :
  List.NoDup l ->
  list_remove x l = List.filter (fun y => negb (y =? x)%nat) l.
Proof.
  induction 1 as [|a l Hnotin Hnd IH]; simpl; [reflexivity|].
  destruct (a =? x)%nat eqn:E; simpl.
  - apply Nat.eqb_eq in E. subst a. symmetry. apply filter_all.
    intros y Hy. apply negb_true_iff, Nat.eqb_neq. intros ->. contradiction.
  - f_equal. exact IH.
Qed.

Lemma manager_disconnect_filter (x : nat) (l : list nat) :
  List.NoDup l ->
  manager_disconnect x l = List.filter (fun y => negb (y =? x)%nat) l.
Proof.
  intros Hnd. unfold manager_disconnect.
  destruct (existsb (Nat.eqb x) l) eqn:E.
  - apply list_remove_filter, Hnd.
  - symmetry. apply filter_all. intros y Hy.
    apply negb_true_iff, Nat.eqb_neq. intros ->.
    assert (existsb (Nat.eqb x) l = true); [|congruence].
    apply existsb_exists. exists x. split; [exact Hy|apply Nat.eqb_refl].
Qed.

Lemma NoDup_filter_nat (p : nat -> bool) (l : list nat) :
  List.NoDup l -> List.NoDup (List.filter p l).
Proof.
  induction 1 as [|a l Hnotin Hnd IH]; simpl; [constructor|].
  destruct (p a); [|exact IH].
  constructor; [|exact IH]. intros Hin. apply List.filter_In in Hin as [Hin _].
  contradiction.
Qed.

Lemma filter_twice (p q : nat -> bool) (l : list nat) :
  List.filter p (List.filter q l) = List.filter (fun y => q y && p y) l.
Proof.
  induction l as [|a l IH]; simpl; [reflexivity|].
  destruct (q a); simpl; [destruct (p a); simpl; congruence|exact IH].
Qed.

Lemma disconnect_all (disconnected l : list nat) :
  List.NoDup l ->
  fold_left (fun active conn => manager_disconnect conn active) disconnected l =
  List.filter (fun y => negb (existsb (Nat.eqb y) disconnected)) l.
Proof.
  revert l. induction disconnected as [|d ds IH]; intros l Hnd; simpl.
  - symmetry. apply filter_all. reflexivity.
  - rewrite manager_disconnect_filter by exact Hnd.
    rewrite IH by (apply NoDup_filter_nat, Hnd).
    rewrite filter_twice. apply List.filter_ext. intros y.
    rewrite negb_orb. reflexivity.
Qed.

(** X19. A broadcast attempts one send on every registered connection, in
    order, and afterwards exactly the connections whose send failed are
    gone; the others keep their order. Registering a new connection and
    disconnecting it again gives back the list. *)
Theorem broadcast_drops_failed_connections (send_fails : nat -> bool)
    (active_connections : list nat) (websocket : nat) :
  List.NoDup active_connections ->
  manager_broadcast send_fails active_connections =
    (List.filter (fun c => negb (send_fails c)) active_connections,
     active_connections) /\
  List.NoDup (fst (manager_broadcast send_fails active_connections)) /\
  (~ In websocket active_connections ->
   manager_disconnect websocket (manager_connect websocket active_connections) =
   active_connections).
Proof.
  intros Hnd.
  assert (Hb : manager_broadcast send_fails active_connections =
               (List.filter (fun c => negb (send_fails c)) active_connections,
                active_connections)).
  { unfold manager_broadcast. destruct active_connections as [|a l] eqn:El;
      [reflexivity|]. rewrite <- El in *. f_equal.
    rewrite disconnect_all by exact Hnd.
    apply List.filter_ext_in. intros y Hy. f_equal.
    destruct (send_fails y) eqn:Ef.
    - apply existsb_exists. exists y. split; [|apply Nat.eqb_refl].
      apply List.filter_In. auto.
    - destruct (existsb _ _) eqn:Ee; [|reflexivity].
      apply existsb_exists in Ee as (z & Hz & Hyz).
      apply Nat.eqb_eq in Hyz. subst z.
      apply List.filter_In in Hz as [_ Hz]. congruence. }
  split; [exact Hb|]. split.
  - rewrite Hb. simpl. apply NoDup_filter_nat, Hnd.
  - intros Hnew. unfold manager_connect.
    rewrite manager_disconnect_filter.
    + rewrite List.filter_app. simpl. rewrite Nat.eqb_refl. simpl.
      rewrite app_nil_r. apply filter_all. intros y Hy.
      apply negb_true_iff, Nat.eqb_neq. intros ->. contradiction.
    + clear Hb. induction Hnd as [|a l Ha Hl IH]; simpl.
      * constructor; [intros []|constructor].
      * constructor.
        -- rewrite List.in_app_iff. simpl. intros [Hin|[->|[]]];
             [contradiction|apply Hnew; left; reflexivity].
        -- apply IH. intros Hin. apply Hnew. right. exact Hin.
Qed.

(** ** Scheduled runs and the override reset *)

(** X20. A scheduled start whose end time (now plus the duration) is a
    datetime, on a pump marked off, records the schedule name and its end
    time and switches the pump on, but the auto-off timer it arms runs for
    the configured auto-off duration, whatever the schedule's duration:
    nothing expires before that deadline, at the deadline the pump is
    switched off while the schedule bookkeeping stays, and the schedule's own
    stop job then publishes nothing and only clears the bookkeeping. When
    the end time leaves the range of datetimes the start callback raises
    before anything is recorded or switched on. *)
Theorem scheduled_run_ends_at_auto_off (job_name : string) (duration : Z) (w : world) :
  api_reachable w ->
  representable (clock w) ->
  pump_is_on (db w) = false ->
  let started := run_job (start_scheduled_pump job_name duration) w in
  let end_time := clock w + duration * 60 * second in
  let auto_off := clock w + PUMP_AUTO_OFF_MINUTES * 60 * second in
  (~ representable end_time -> started = (w, Some OverflowError)) /\
  (representable end_time ->
   let w1 := fst started in
   snd started = None /\
   current_schedule_name (db w1) = Some job_name /\
   schedule_end_time (db w1) = Some end_time /\
   pump_is_on (db w1) = true /\
   (forall t, t < auto_off -> advance t w1 = set_clock t w1) /\
   (forall t, auto_off <= t ->
      let w2 := advance t w1 in
      pump_is_on (db w2) = false /\
      current_schedule_name (db w2) = Some job_name /\
      let w3 := fst (run_job (stop_scheduled_pump job_name) w2) in
      trace w3 = trace w2 /\
      current_schedule_name (db w3) = None /\ schedule_end_time (db w3) = None)).
Proof.
  intros Hr Hclock Hp. cbv zeta.
  pose proof (timers_ok_api_reachable w Hr) as Hok.
  split.
  { intros Hover. unfold run_job.
    rewrite plus_minutes_overflow by exact Hover. reflexivity. }
  intros Hend.
  assert (Hnear : - day < clock w < DATETIME_MAX + day).
  { unfold representable, DATETIME_MAX, day, second in *. lia. }
  set (w0 := with_db (fun s => set_schedule_end_time (Some (clock w + duration * 60 * second))
                                 (set_current_schedule_name (Some job_name) s)) w).
  assert (Hstart : run_job (start_scheduled_pump job_name duration) w =
                   (turn_pump_on ("Scheduled: " ++ job_name) w0, None)).
  { unfold run_job. rewrite (plus_minutes_ok (clock w) duration Hnear Hend).
    reflexivity. }
  rewrite Hstart. cbn [fst snd].
  assert (Hok0 : timers_ok w0) by exact Hok.
  assert (Hp0 : pump_is_on (db w0) = false) by exact Hp.
  destruct (armed ("Scheduled: " ++ job_name) w0 Hp0) as (Href & Hn & _ & Hon).
  change (clock w0) with (clock w) in Hn.
  set (w1 := turn_pump_on ("Scheduled: " ++ job_name) w0) in *.
  assert (Hok1 : timers_ok w1) by (apply timers_ok_turn_pump_on, Hok0).
  assert (Hdb1 : db w1 = set_pump_is_on true (db w0)) by apply turn_pump_on_db.
  split; [reflexivity|].
  split; [rewrite Hdb1; reflexivity|]. split; [rewrite Hdb1; reflexivity|].
  split; [exact Hon|]. split.
  - intros t Ht. exact (no_expiry w1 _ _ t Hok1 Href Hn Ht).
  - intros t Ht.
    destruct (expiry w1 _ _ t Hok1 Href Hn Hon Ht) as (Hoff & _ & _).
    split; [exact Hoff|].
    assert (Hname : current_schedule_name (db (advance t w1)) = Some job_name).
    { destruct (advance_db t w1 Hok1) as [-> | ->]; rewrite Hdb1; reflexivity. }
    split; [exact Hname|].
    unfold run_job.
    rewrite (turn_pump_off_already _ (advance t w1)) by exact Hoff.
    simpl. repeat split; reflexivity.
Qed.



(** ** Loading the schedules at startup *)

Lemma load_schedules_keys (now_at : nat -> Z) (rows : list schedule_data) (i : nat)
    (jobs : gmap string job) (k : string) (j : job) :
  load_schedules now_at i rows jobs !! k = Some j ->
  jobs !! k = Some j \/
  exists sd, In sd rows /\
             (k = "on_db_" ++ pretty (sd_id sd) \/ k = "off_db_" ++ pretty (sd_id sd)).
Proof.
  revert i jobs. induction rows as [|a l IH]; intros i jobs; simpl; [auto|].
  intros H. destruct (IH _ _ H) as [H1|(sd & Hin & Hk)].
  - destruct (decide (k = "on_db_" ++ pretty (sd_id a))) as [Hon|Hon];
      [right; exists a; auto|].
    destruct (decide (k = "off_db_" ++ pretty (sd_id a))) as [Hoff|Hoff];
      [right; exists a; auto|].
    left. rewrite <- H1. symmetry. apply compile_other_keys; assumption.
  - right. exists sd. auto.
Qed.

(** X22. Startup loading into the empty job store only registers triggers
    of rows whose is_active field is 1: every job found afterwards is the ON
    or the OFF trigger of such a row. *)
Theorem startup_registers_only_active_schedules (now_at : nat -> Z)
    (items : list schedule_data) (k : string) (j : job) :
  load_active_schedules now_at items ∅ !! k = Some j ->
  exists sd, In sd items /\ sd_is_active sd = Some 1 /\
             (k = "on_db_" ++ pretty (sd_id sd) \/ k = "off_db_" ++ pretty (sd_id sd)).
Proof.
  intros H. unfold load_active_schedules in H.
  destruct (load_schedules_keys _ _ _ _ _ _ H) as [H0|(sd & Hin & Hk)].
  - rewrite lookup_empty in H0. discriminate.
  - apply List.filter_In in Hin as [Hin Hact].
    apply bool_decide_eq_true in Hact. exists sd. auto.
Qed.

End Backend.

(** * Instances on concrete inputs *)

Example thirty_minutes_run :
  let w1 := on_message 30 (Payload (sample (PNum (30 # 1)) "OFF")) initial_world in
  pump_is_on (db w1) = true /\
  timers w1 = [mkTimer (1800 * second) Waiting] /\
  trace w1 =
    [Task (create_alert "CRITICAL_LOW_MOISTURE" "CRITICAL" (Some "AUTOMATED")
             (Some (Finite (30 # 1))));
     audit_on "Automated - Critical Low Moisture"; Publish "ON";
     Task broadcast_current_state; Task broadcast_current_state].
Proof. repeat split; reflexivity. Qed.

Example compile_morning_schedule :
  map_to_list (fst (_add_or_update_job_in_scheduler weekday_list new_year_2025
                      morning_schedule ∅)) =
  [("on_db_7", mkJob (start_scheduled_pump "Morning" 15) "mon,wed,fri" 6 0 "Morning");
   ("off_db_7", mkJob (stop_scheduled_pump "Morning") "mon,wed,fri" 6 15
                      "Morning (Auto OFF)")].
Proof. vm_compute. reflexivity. Qed.

Example compile_late_schedule_rolls_over :
  fst (_add_or_update_job_in_scheduler weekday_list new_year_2025 late_schedule ∅)
    !! "off_db_8" =
  Some (mkJob (stop_scheduled_pump "Schedule 8") "sat" 0 15 "Schedule 8 (Auto OFF)").
Proof. vm_compute. reflexivity. Qed.

Example compile_dated_schedule :
  _add_or_update_job_in_scheduler weekday_list new_year_2025 dated_schedule ∅ = (∅, None).
Proof. vm_compute. reflexivity. Qed.

Example format_1f_examples :
  format_1f (PNum (41 # 2)) = inl (Finite (41 # 2)) /\
  format_1f (PBool true) = inl (Finite (1 # 1)) /\
  format_1f PNaN = inl NaN /\
  format_1f (PInfinity false) = inl (Infinity false) /\
  format_1f (PNum googol_4) = inr OverflowError /\
  format_1f (PNum (inject_Z (2 ^ 1024 - 2 ^ 970 - 1))) =
    inl (Finite (inject_Z (2 ^ 1024 - 2 ^ 970 - 1))) /\
  format_1f (PNum (inject_Z (- (2 ^ 1024 - 2 ^ 970)))) = inr OverflowError /\
  format_1f (PStr "41") = inr FormatError /\
  format_1f PNone = inr FormatError /\
  as_number (PNum (- googol_4)) = None /\
  as_number PNaN = None.
Proof. vm_compute. repeat split; reflexivity. Qed.

Example datetime_examples :
  datetime_hour new_year_2025 = 9 /\ datetime_minute new_year_2025 = 0 /\
  plus_minutes new_year_2025 90 = Some (new_year_2025 + 5400 * second) /\
  plus_minutes new_year_2025 5000000000 = None /\
  plus_minutes DATETIME_MAX 1 = None /\
  plus_minutes 0 (-1) = None.
Proof. vm_compute. repeat split; reflexivity. Qed.

(** Witness of [zone_partition]. *)
Lemma zone_partition_witness :
  (40 # 1 < 80 # 1)%Q /\
  classify (Finite (50 # 1)) (40 # 1) (80 # 1) = Some NORMAL /\
  classify (Finite (80 # 1)) (40 # 1) (80 # 1) = Some NORMAL /\
  classify (Infinity false) (40 # 1) (80 # 1) = Some CRITICAL_HIGH /\
  classify (Finite (- googol_4)) (40 # 1) (80 # 1) = Some CRITICAL_LOW.
Proof.
  assert (H : (40 # 1 < 80 # 1)%Q) by reflexivity.
  split; [exact H|].
  destruct (zone_partition (Finite (50 # 1)) (40 # 1) (80 # 1) H) as (_ & _ & Hn & _).
  destruct (zone_partition (Finite (80 # 1)) (40 # 1) (80 # 1) H)
    as (_ & _ & _ & _ & _ & Hb & _).
  destruct (zone_partition (Infinity false) (40 # 1) (80 # 1) H)
    as (_ & _ & _ & Hh & _).
  destruct (zone_partition (Finite (- googol_4)) (40 # 1) (80 # 1) H)
    as (_ & Hl & _).
  split; [apply Hn; split; unfold num_le, Qle; simpl; lia|].
  split; [exact Hb|].
  split; [apply Hh; reflexivity|].
  apply Hl. vm_compute. reflexivity.
Defined.

(** C7, as stated, fails: [json.loads] also yields NaN, every comparison
    with NaN is false, and the [if] / [elif] / [elif] chain has no [else]:
    between the thresholds 40 < 80 a NaN moisture falls in no zone, and the
    handler processes such a sample without any zone alert. *)
Lemma nan_moisture_has_no_zone_counterexample :
  (40 # 1 < 80 # 1)%Q /\
  format_1f PNaN = inl NaN /\
  classify NaN (40 # 1) (80 # 1) = None /\
  ~ (exists z, classify NaN (40 # 1) (80 # 1) = Some z) /\
  trace (on_message 30 (Payload (sample PNaN "OFF")) initial_world) =
    [Task broadcast_current_state].
Proof.
  split; [reflexivity|]. split; [reflexivity|]. split; [reflexivity|].
  split; [intros [z Hz]; discriminate Hz|]. reflexivity.
Qed.

(** Witness of [should_send_alert_cooldown]. *)
Lemma should_send_alert_cooldown_witness :
  should_send_alert k_last_critical_low_alert 3600 initial_world = true /\
  should_send_alert k_last_critical_low_alert 3600 (alerted_world 0 (3599 * second)) = false /\
  should_send_alert k_last_critical_low_alert 3600 (alerted_world 0 (3600 * second)) = true.
Proof.
  split; [|split].
  - apply (should_send_alert_cooldown k_last_critical_low_alert 3600 initial_world).
    reflexivity.
  - apply (should_send_alert_cooldown k_last_critical_low_alert 3600
             (alerted_world 0 (3599 * second))) with (t := 0); reflexivity.
  - apply (should_send_alert_cooldown k_last_critical_low_alert 3600
             (alerted_world 0 (3600 * second))) with (t := 0); [reflexivity|].
    unfold second. simpl. lia.
Defined.

(** Witness of [pump_commands_idempotent]. *)
Lemma pump_commands_idempotent_witness :
  pump_is_on (db initial_world) = false /\
  count is_publish (trace (turn_pump_on 30 "API" (turn_pump_on 30 "API" initial_world))) = 1%nat /\
  count is_audit (trace (turn_pump_on 30 "API" (turn_pump_on 30 "API" initial_world))) = 1%nat /\
  turn_pump_off "API" initial_world = print AlreadyOff initial_world.
Proof.
  assert (H : pump_is_on (db initial_world) = false) by reflexivity.
  destruct (pump_commands_idempotent 30 "API" "API" initial_world)
    as (_ & _ & Hon & Hoff & _).
  destruct (Hon H) as (_ & Hp & Ha).
  split; [exact H|]. split; [exact Hp|]. split; [exact Ha|]. exact (Hoff H).
Defined.

(** Witness of [auto_off_timer_discipline]. *)
Lemma auto_off_timer_discipline_witness :
  reachable 30 initial_world /\
  at_most_one_live initial_world /\
  pump_is_on (db (advance (1800 * second) (turn_pump_on 30 "API" initial_world))) = false.
Proof.
  assert (H : reachable 30 initial_world) by apply reachable_init.
  destruct (auto_off_timer_discipline 30 "API" "API" initial_world H) as (Hone & Harm).
  split; [exact H|]. split; [exact Hone|].
  destruct (Harm eq_refl) as (_ & _ & Hfire & _).
  apply (Hfire (1800 * second)). unfold second. simpl. lia.
Defined.

(** Witness of [manual_endpoints_force_override]. *)
Lemma manual_endpoints_force_override_witness :
  pump_is_on (db scheduled_world) = true /\
  manual_override_state (db (fst (post_pump_on 30 scheduled_world))) = Some "ON" /\
  current_schedule_name (db (fst (post_pump_on 30 scheduled_world))) = None /\
  count is_publish (trace (fst (post_pump_on 30 scheduled_world))) = 0%nat.
Proof.
  assert (H : pump_is_on (db scheduled_world) = true) by reflexivity.
  destruct (manual_endpoints_force_override 30 scheduled_world)
    as ((_ & Hs & Hn & _ & Hdup) & _).
  split; [exact H|]. split; [exact Hs|]. split; [exact Hn|].
  destruct (Hdup H) as (Hp & _). exact Hp.
Defined.

(** Witness of [emergency_interlock_precedence]. *)
Lemma emergency_interlock_precedence_witness :
  sample (PNum (90 # 1)) "ON" !! "pump_status" = Some (PStr "ON") /\
  (critical_high_threshold (db interlocked_world) < 90 # 1)%Q /\
  pump_is_on (db (on_message 30 (Payload (sample (PNum (90 # 1)) "ON")) interlocked_world))
    = false /\
  pump_is_on (db (on_message 30 (Payload (sample (PNum (90 # 1)) "ON")) manual_on_world))
    = true /\
  pump_is_on (db (on_message 30 (Payload (sample (PInfinity false) "ON"))
                    interlocked_world)) = false.
Proof.
  assert (Hs : sample (PNum (90 # 1)) "ON" !! "pump_status" = Some (PStr "ON"))
    by reflexivity.
  assert (Hh : (critical_high_threshold (db interlocked_world) < 90 # 1)%Q)
    by reflexivity.
  split; [exact Hs|]. split; [exact Hh|]. split; [|split].
  - destruct (emergency_interlock_precedence 30 (sample (PNum (90 # 1)) "ON")
                interlocked_world (Finite (90 # 1)) Hs eq_refl Hh) as (Hlock & _).
    destruct (Hlock eq_refl) as (Hp & _). exact Hp.
  - destruct (emergency_interlock_precedence 30 (sample (PNum (90 # 1)) "ON")
                manual_on_world (Finite (90 # 1)) Hs eq_refl Hh) as (_ & Hman).
    destruct (Hman eq_refl eq_refl eq_refl) as (Hp & _). exact Hp.
  - destruct (emergency_interlock_precedence 30 (sample (PInfinity false) "ON")
                interlocked_world (Infinity false) eq_refl eq_refl eq_refl)
      as (Hlock & _).
    destruct (Hlock eq_refl) as (Hp & _). exact Hp.
Defined.

(** C1, as stated, fails: a sample that reports the pump ON with the
    integer 10 ^ 400 as moisture lies above [critical_high], yet with the
    safety flag false the pump is not forced off. The first [:.1f] raises
    [OverflowError] right after the merge; the handler prints the error and
    returns with the reported status stored and no command issued. *)
Lemma huge_moisture_skips_interlock_counterexample :
  let payload := sample (PNum googol_4) "ON" in
  payload !! "pump_status" = Some (PStr "ON") /\
  (critical_high_threshold (db interlocked_world) < googol_4)%Q /\
  allow_manual_override_at_any_moisture (db interlocked_world) = false /\
  on_message_try 30 (Payload payload) interlocked_world =
    (with_db (merge_sample payload) interlocked_world, Some OverflowError) /\
  trace (on_message 30 (Payload payload) interlocked_world) = [] /\
  pump_is_on (db (on_message 30 (Payload payload) interlocked_world)) = true /\
  ~ pump_is_on (db (on_message 30 (Payload payload) interlocked_world)) = false.
Proof.
  cbv zeta. split; [reflexivity|]. split; [vm_compute; reflexivity|].
  split; [reflexivity|]. split; [vm_compute; reflexivity|].
  split; [vm_compute; reflexivity|]. split; [vm_compute; reflexivity|].
  intros H. vm_compute in H. discriminate H.
Qed.

(** Witness of [hysteresis_off_at_first_normal_sample]. *)
Lemma hysteresis_off_at_first_normal_sample_witness :
  manual_override_active (db initial_world) = false /\
  automated_mode_enabled (db initial_world) = true /\
  (let w1 := on_message 30 (Payload (sample (PNum (30 # 1)) "OFF")) initial_world in
   let w2 := on_message 30 (Payload (sample (PNum (41 # 1)) "ON")) w1 in
   let w3 := on_message 30 (Payload (sample (PNum (50 # 1)) "OFF")) w2 in
   pump_is_on (db w1) = true /\ pump_is_on (db w2) = false /\ pump_is_on (db w3) = false).
Proof.
  split; [reflexivity|]. split; [reflexivity|].
  apply (hysteresis_off_at_first_normal_sample 30 initial_world
           (sample (PNum (30 # 1)) "OFF") (sample (PNum (41 # 1)) "ON")
           (sample (PNum (50 # 1)) "OFF")); reflexivity.
Defined.

(** C2, as stated, fails: with the default state (override inactive,
    automated mode on, thresholds 40 / 80) the samples 30, 41, 50 do not
    yield ON, ON, OFF; the pump is already off after the sample with
    moisture 41. *)
Lemma hysteresis_on_on_off_counterexample :
  let w1 := on_message 30 (Payload (sample (PNum (30 # 1)) "OFF")) initial_world in
  let w2 := on_message 30 (Payload (sample (PNum (41 # 1)) "ON")) w1 in
  let w3 := on_message 30 (Payload (sample (PNum (50 # 1)) "OFF")) w2 in
  manual_override_active (db initial_world) = false /\
  automated_mode_enabled (db initial_world) = true /\
  pump_is_on (db w1) = true /\
  ~ (pump_is_on (db w1) = true /\ pump_is_on (db w2) = true /\ pump_is_on (db w3) = false).
Proof.
  cbv zeta. split; [reflexivity|]. split; [reflexivity|]. split; [reflexivity|].
  intros (_ & H & _). vm_compute in H. discriminate H.
Qed.

(** C3, as stated, fails: when [turn_pump_on] is called twice before the
    first deadline, the second call is ignored, the auto-off fires at the
    first deadline, and nothing fires at the deadline the second call would
    have set. *)
Lemma second_deadline_counterexample :
  let w1 := turn_pump_on 30 "first" initial_world in
  let w2 := turn_pump_on 30 "second" (advance (10 * second) w1) in
  let first_deadline := 30 * 60 * second in
  let second_deadline := 10 * second + 30 * 60 * second in
  let at_first := advance first_deadline w2 in
  first_deadline < second_deadline /\
  pump_is_on (db w2) = true /\
  pump_is_on (db at_first) = false /\
  trace at_first =
    (trace w1 ++ [audit_off "Auto-shutoff"; Publish "OFF"; Task broadcast_current_state])%list /\
  trace (advance second_deadline at_first) = trace at_first.
Proof. vm_compute. repeat split; reflexivity. Qed.

(** Witness of [state_change_alert_follows_report]. *)
Lemma state_change_alert_follows_report_witness :
  format_1f (last_known_moisture
               (merge_sample (sample (PNum (50 # 1)) "OFF") (db scheduled_world)))
    = inl (Finite (50 # 1)) /\
  (let w' := on_message 30 (Payload (sample (PNum (50 # 1)) "OFF")) scheduled_world in
   count is_pump_alert (trace w') = 1%nat /\
   current_schedule_name (db w') = None /\ schedule_end_time (db w') = None).
Proof.
  assert (Hm : format_1f (last_known_moisture
                 (merge_sample (sample (PNum (50 # 1)) "OFF") (db scheduled_world)))
               = inl (Finite (50 # 1))) by reflexivity.
  split; [exact Hm|]. cbv zeta.
  destruct (state_change_alert_follows_report 30 (sample (PNum (50 # 1)) "OFF")
              scheduled_world (Finite (50 # 1)) Hm ltac:(right; reflexivity))
    as (_ & Hc & Hs).
  split; [exact Hc|]. apply Hs; reflexivity.
Defined.

(** C9 (the code at the failing inputs). On the default state a sample
    with moisture 30 that reports the pump OFF makes automated control switch
    the pump on, so the status at the end differs from the one recorded at
    the start, yet no PUMP_ON / PUMP_OFF alert is emitted. And while a
    schedule is running, a sample in the normal band that reports the pump ON
    makes automated control switch it off, yet no alert is emitted and the
    schedule bookkeeping is kept. *)
Lemma pump_change_by_control_not_alerted :
  (let w' := on_message 30 (Payload (sample (PNum (30 # 1)) "OFF")) initial_world in
   pump_is_on (db initial_world) = false /\ pump_is_on (db w') = true /\
   count is_pump_alert (trace w') = 0%nat) /\
  (let w' := on_message 30 (Payload (sample (PNum (50 # 1)) "ON")) scheduled_world in
   pump_is_on (db scheduled_world) = true /\ pump_is_on (db w') = false /\
   count is_pump_alert (trace w') = 0%nat /\
   current_schedule_name (db scheduled_world) = Some "Morning" /\
   current_schedule_name (db w') = Some "Morning").
Proof. vm_compute. repeat split; reflexivity. Qed.



(** Witness of [schedule_compilation]. *)
Lemma schedule_compilation_witness :
  representable new_year_2025 /\
  map_int (split ":" (sd_start_time_of_day morning_schedule)) = Some [6; 0; 0] /\
  weekday_list (lower "mon,wed,fri") = true /\
  (exists on_job off_job,
     _add_or_update_job_in_scheduler weekday_list new_year_2025 morning_schedule ∅ =
       (<["off_db_7" := off_job]> (<["on_db_7" := on_job]> ∅), None) /\
     hour on_job = 6 /\ minute on_job = 0 /\
     hour off_job * 60 + minute off_job = 6 * 60 + 15) /\
  _add_or_update_job_in_scheduler weekday_list new_year_2025 dated_schedule ∅ = (∅, None) /\
  (exists on_job,
     _add_or_update_job_in_scheduler weekday_list new_year_2025 endless_schedule ∅ =
       (<["on_db_7" := on_job]> ∅, Some OverflowError)) /\
  (exists e,
     _add_or_update_job_in_scheduler weekday_list new_year_2025 short_time_schedule ∅ =
       (∅, Some e)).
Proof.
  assert (Hn : representable new_year_2025) by (vm_compute; split; discriminate).
  assert (Hp : map_int (split ":" (sd_start_time_of_day morning_schedule)) = Some [6; 0; 0])
    by reflexivity.
  assert (Hc : weekday_list (lower "mon,wed,fri") = true) by reflexivity.
  split; [exact Hn|]. split; [exact Hp|]. split; [exact Hc|].
  split; [|split; [|split]].
  - destruct (schedule_compilation weekday_list new_year_2025 morning_schedule ∅ Hn)
      as (_ & _ & _ & _ & Hparsed).
    destruct (Hparsed 6 0 0 [] Hp ltac:(lia) ltac:(lia) ltac:(lia)) as (Hreg & _ & _).
    destruct (Hreg "mon,wed,fri" eq_refl eq_refl ltac:(discriminate)
                ltac:(vm_compute; intuition discriminate) Hc) as (Hreg' & _).
    destruct (Hreg' ltac:(vm_compute; split; discriminate))
      as (on_job & off_job & Heq & _ & _ & _ & _ & Hh & Hm & _ & _ & Hoff).
    exists on_job, off_job.
    split; [exact Heq|]. split; [exact Hh|]. split; [exact Hm|]. exact Hoff.
  - destruct (schedule_compilation weekday_list new_year_2025 dated_schedule ∅ Hn)
      as (_ & _ & _ & _ & Hparsed).
    destruct (Hparsed 6 0 0 [] eq_refl ltac:(lia) ltac:(lia) ltac:(lia)) as (_ & Hnone & _).
    apply Hnone. right. right. right. exists "2025-03-01".
    split; [reflexivity|]. vm_compute. auto 10.
  - destruct (schedule_compilation weekday_list new_year_2025 endless_schedule ∅ Hn)
      as (_ & _ & _ & _ & Hparsed).
    destruct (Hparsed 6 0 0 [] eq_refl ltac:(lia) ltac:(lia) ltac:(lia)) as (Hreg & _ & _).
    destruct (Hreg "mon,wed,fri" eq_refl eq_refl ltac:(discriminate)
                ltac:(vm_compute; intuition discriminate) Hc) as (_ & Hover).
    destruct (Hover ltac:(vm_compute; intros [_ H]; apply H; reflexivity))
      as (on_job & Heq & _).
    exists on_job. exact Heq.
  - destruct (schedule_compilation weekday_list new_year_2025 short_time_schedule ∅ Hn)
      as (_ & _ & _ & Hbad & _).
    apply Hbad. right. left. exists [6; 0]. split; [reflexivity|]. simpl. lia.
Defined.

(** C5, as stated, fails. The triggers of schedule 7 are registered; the
    same record is compiled again with its start time written "6:00": the
    compiler raises on the missing seconds before it removes anything, so the
    existing triggers are not removed and stay registered. And a record with
    a duration of five thousand million minutes gets its ON trigger but no
    OFF trigger, the OFF time being beyond the year 9999. *)
Lemma unparsed_start_keeps_triggers_counterexample :
  let registered :=
    fst (_add_or_update_job_in_scheduler weekday_list new_year_2025 morning_schedule ∅) in
  let again :=
    _add_or_update_job_in_scheduler weekday_list new_year_2025 short_time_schedule
      registered in
  let endless :=
    fst (_add_or_update_job_in_scheduler weekday_list new_year_2025 endless_schedule ∅) in
  sd_id short_time_schedule = sd_id morning_schedule /\
  sd_is_active short_time_schedule = Some 1 /\
  registered !! "on_db_7" =
    Some (mkJob (start_scheduled_pump "Morning" 15) "mon,wed,fri" 6 0 "Morning") /\
  again = (registered, Some IndexError) /\
  fst again !! "on_db_7" <> None /\ fst again !! "off_db_7" <> None /\
  size (fst again) = 2%nat /\
  endless !! "on_db_7" =
    Some (mkJob (start_scheduled_pump "Morning" 5000000000) "mon,wed,fri" 6 0 "Morning") /\
  endless !! "off_db_7" = None /\
  size endless = 1%nat.
Proof.
  cbv zeta. split; [reflexivity|]. split; [reflexivity|].
  split; [vm_compute; reflexivity|]. split; [vm_compute; reflexivity|].
  split; [vm_compute; discriminate|]. split; [vm_compute; discriminate|].
  split; [vm_compute; reflexivity|]. split; [vm_compute; reflexivity|].
  split; [vm_compute; reflexivity|]. vm_compute. reflexivity.
Qed.

(** ** Instances of the further properties *)

(** Witness of [zone_alert_tracking]. *)
Lemma zone_alert_tracking_witness :
  format_1f (last_known_moisture
               (merge_sample (sample (PNum (30 # 1)) "OFF") (db initial_world)))
    = inl (Finite (30 # 1)) /\
  classify (Finite (30 # 1)) (critical_low_threshold (db initial_world))
           (critical_high_threshold (db initial_world)) = Some CRITICAL_LOW /\
  (let w' := on_message 30 (Payload (sample (PNum (30 # 1)) "OFF")) initial_world in
   count is_zone_alert (trace w') = 1%nat /\
   get_alert k_last_critical_low_alert (db w') = Some 0 /\
   get_alert k_last_normal_alert (db w') = None) /\
  (let w' := on_message 30 (Payload (sample (PInfinity false) "OFF")) initial_world in
   count is_zone_alert (trace w') = 1%nat /\
   get_alert k_last_critical_high_alert (db w') = Some 0).
Proof.
  assert (Hm : format_1f (last_known_moisture
                 (merge_sample (sample (PNum (30 # 1)) "OFF") (db initial_world)))
               = inl (Finite (30 # 1))) by reflexivity.
  assert (Hc : classify (Finite (30 # 1)) (critical_low_threshold (db initial_world))
                 (critical_high_threshold (db initial_world)) = Some CRITICAL_LOW)
    by reflexivity.
  split; [exact Hm|]. split; [exact Hc|]. cbv zeta.
  destruct (zone_alert_tracking 30 (sample (PNum (30 # 1)) "OFF") initial_world
              (Finite (30 # 1)) CRITICAL_LOW Hm Hc) as (Hn & _ & Ha & Hother).
  destruct (zone_alert_tracking 30 (sample (PInfinity false) "OFF") initial_world
              (Infinity false) CRITICAL_HIGH eq_refl eq_refl) as (Hn' & _ & Ha' & _).
  split; [|split; [exact Hn'|exact Ha']].
  split; [exact Hn|]. split; [exact Ha|].
  apply (Hother k_last_normal_alert). discriminate.
Defined.

(** Witness of [zone_alert_cooldown_between_samples]: a second critical-low
    sample 100 seconds after the first emits no second alert. *)
Lemma zone_alert_cooldown_between_samples_witness :
  should_send_alert (zone_key CRITICAL_LOW) (zone_cooldown CRITICAL_LOW) initial_world = true /\
  (let w1 := set_clock (100 * second)
               (on_message 30 (Payload (sample (PNum (30 # 1)) "OFF")) initial_world) in
   count is_zone_alert (trace (on_message 30 (Payload (sample (PNum (35 # 1)) "ON")) w1)) =
   count is_zone_alert (trace w1)).
Proof.
  split; [reflexivity|]. cbv zeta.
  rewrite (zone_alert_cooldown_between_samples 30
             (sample (PNum (30 # 1)) "OFF") (sample (PNum (35 # 1)) "ON")
             initial_world (Finite (30 # 1)) (Finite (35 # 1)) CRITICAL_LOW (100 * second)
             eq_refl eq_refl eq_refl eq_refl eq_refl).
  reflexivity.
Defined.

(** Witness of [zone_change_resets_cooldown]: one second after a
    critical-low alert, a sample in the normal band emits its alert. *)
Lemma zone_change_resets_cooldown_witness :
  CRITICAL_LOW <> NORMAL /\
  (let w1 := set_clock (1 * second)
               (on_message 30 (Payload (sample (PNum (30 # 1)) "OFF")) initial_world) in
   count is_zone_alert (trace (on_message 30 (Payload (sample (PNum (50 # 1)) "ON")) w1)) =
   S (count is_zone_alert (trace w1))).
Proof.
  assert (Hz : CRITICAL_LOW <> NORMAL) by discriminate.
  split; [exact Hz|]. cbv zeta.
  destruct (zone_change_resets_cooldown 30
              (sample (PNum (30 # 1)) "OFF") (sample (PNum (50 # 1)) "ON")
              initial_world (Finite (30 # 1)) (Finite (50 # 1)) CRITICAL_LOW NORMAL
              (1 * second) eq_refl eq_refl eq_refl eq_refl Hz) as (Hn & _).
  exact Hn.
Defined.

(** Witness of [manual_override_enforced]: the override asks for ON and the
    device reports OFF, once with a moisture of 50 and once with NaN. *)
Lemma manual_override_enforced_witness :
  manual_override_state (db manual_on_world) = Some "ON" /\
  emergency (sample (PNum (50 # 1)) "OFF") (Finite (50 # 1)) (db manual_on_world) = false /\
  (let w' := on_message 30 (Payload (sample (PNum (50 # 1)) "OFF")) manual_on_world in
   pump_is_on (db w') = true /\ count is_publish (trace w') = 1%nat) /\
  (let w' := on_message 30 (Payload (sample PNaN "OFF")) manual_on_world in
   pump_is_on (db w') = true /\ count is_publish (trace w') = 1%nat).
Proof.
  split; [reflexivity|]. split; [reflexivity|]. cbv zeta.
  destruct (manual_override_enforced 30 (sample (PNum (50 # 1)) "OFF") manual_on_world
              (Finite (50 # 1)) "ON" eq_refl eq_refl eq_refl ltac:(discriminate) eq_refl)
    as (Hp & Hc & _).
  destruct (manual_override_enforced 30 (sample PNaN "OFF") manual_on_world
              NaN "ON" eq_refl eq_refl eq_refl ltac:(discriminate) eq_refl)
    as (Hp' & Hc' & _).
  split; [split; [exact Hp|exact Hc]|split; [exact Hp'|exact Hc']].
Defined.

(** Witness of [idle_mode_only_observes]. *)
Lemma idle_mode_only_observes_witness :
  automated_mode_enabled (db idle_world) = false /\
  (let w' := on_message 30 (Payload (sample (PNum (30 # 1)) "OFF")) idle_world in
   pump_is_on (db w') = false /\ count is_publish (trace w') = 0%nat).
Proof.
  split; [reflexivity|]. cbv zeta.
  destruct (idle_mode_only_observes 30 (sample (PNum (30 # 1)) "OFF") idle_world
              (30 # 1) eq_refl eq_refl eq_refl eq_refl) as (Hp & Hc & _).
  split; [exact Hp|exact Hc].
Defined.

(** Witness of [every_command_is_audited]. *)
Lemma every_command_is_audited_witness :
  let w := on_message 30 (Payload (sample (PNum (30 # 1)) "OFF")) initial_world in
  api_reachable 30 w /\ count is_publish (trace w) = count is_audit (trace w).
Proof.
  cbv zeta.
  assert (H : api_reachable 30
                (on_message 30 (Payload (sample (PNum (30 # 1)) "OFF")) initial_world)).
  { eapply api_reachable_step; [apply api_reachable_init|].
    apply api_backend, step_message. }
  split; [exact H|]. exact (every_command_is_audited 30 _ H).
Defined.

(** Witness of [thresholds_stay_ordered]: the thresholds endpoint keeps
    the order; a startup load of the row (80, 40) does not. *)
Lemma thresholds_stay_ordered_witness :
  let w' := fst (set_automated_thresholds (fun _ => "") (20 # 1) (60 # 1) true
                   initial_world) in
  let loaded := load_saved_settings (80 # 1) (40 # 1) true false initial_world in
  api_reachable 30 initial_world /\ api_step 30 initial_world w' /\
  api_step 30 initial_world loaded /\
  thresholds_ok (db initial_world) /\
  thresholds_ok (db w') /\
  ~ thresholds_ok (db loaded) /\
  exists z,
    classify (Finite (61 # 1)) (critical_low_threshold (db w'))
             (critical_high_threshold (db w')) = Some z.
Proof.
  cbv zeta.
  assert (Hr : api_reachable 30 initial_world) by apply api_reachable_init.
  assert (Hs : api_step 30 initial_world
                 (fst (set_automated_thresholds (fun _ => "") (20 # 1) (60 # 1) true
                         initial_world))) by apply api_thresholds.
  assert (Hl : api_step 30 initial_world
                 (load_saved_settings (80 # 1) (40 # 1) true false initial_world))
    by apply api_startup.
  assert (H0 : thresholds_ok (db initial_world)).
  { repeat split; unfold Qle, Qlt; simpl; lia. }
  split; [exact Hr|]. split; [exact Hs|]. split; [exact Hl|]. split; [exact H0|].
  destruct (thresholds_stay_ordered 30 _ _ (Finite (61 # 1)) Hr Hs H0)
    as (Hstep & Hload & Hzone).
  assert (Hok : thresholds_ok
                  (db (fst (set_automated_thresholds (fun _ => "") (20 # 1) (60 # 1) true
                              initial_world)))).
  { destruct Hstep as [Hok|(lo & hi & automated & allow & Heq & Hn)]; [exact Hok|].
    exfalso. apply Hn.
    pose proof (f_equal (fun x => critical_low_threshold (db x)) Heq) as El.
    pose proof (f_equal (fun x => critical_high_threshold (db x)) Heq) as Eh.
    simpl in El, Eh. subst lo hi. repeat split; unfold Qle, Qlt; simpl; lia. }
  split; [exact Hok|]. split.
  - intros Hbad. apply (Hload (80 # 1) (40 # 1) true false) in Hbad.
    destruct Hbad as (_ & Hlt & _). unfold Qlt in Hlt. simpl in Hlt. lia.
  - destruct (Hzone Hok ltac:(discriminate)) as (z & Hz & _). exists z. exact Hz.
Defined.

(** Witness of [shutdown_leaves_pump_off]. *)
Lemma shutdown_leaves_pump_off_witness :
  let w := turn_pump_on 30 "API" initial_world in
  api_reachable 30 w /\ pump_is_on (db w) = true /\
  pump_is_on (db (shutdown w)) = false /\
  count is_publish (trace (shutdown w)) = 2%nat.
Proof.
  cbv zeta.
  assert (H : api_reachable 30 (turn_pump_on 30 "API" initial_world)).
  { eapply api_reachable_step; [apply api_reachable_init|].
    apply api_backend, step_on. }
  split; [exact H|]. split; [reflexivity|].
  destruct (shutdown_leaves_pump_off 30 _ H) as (Hp & _ & _ & Hc).
  split; [exact Hp|exact Hc].
Defined.

(** Witness of [expiry_while_marked_off_is_silent]: the pump was switched
    on through the backend and the device then reported it OFF with a
    moisture in the normal band, so the pump is marked off while the
    auto-off timer still waits. *)
Lemma expiry_while_marked_off_is_silent_witness :
  let w := on_message 30 (Payload (sample (PNum (50 # 1)) "OFF"))
             (turn_pump_on 30 "API" initial_world) in
  api_reachable 30 w /\
  pump_is_on (db w) = false /\
  timers w !! 0%nat = Some (mkTimer (1800 * second) Waiting) /\
  trace (advance (1800 * second) w) = trace w /\
  console (advance (1800 * second) w) = (console w ++ [AlreadyOff])%list.
Proof.
  cbv zeta.
  set (w := on_message 30 (Payload (sample (PNum (50 # 1)) "OFF"))
              (turn_pump_on 30 "API" initial_world)).
  assert (H : api_reachable 30 w).
  { eapply api_reachable_step;
      [eapply api_reachable_step; [apply api_reachable_init|]|].
    - apply api_backend, (step_on 30 "API").
    - apply api_backend, step_message. }
  assert (Hp : pump_is_on (db w) = false) by reflexivity.
  assert (Ht : timers w !! 0%nat = Some (mkTimer (1800 * second) Waiting))
    by reflexivity.
  split; [exact H|]. split; [exact Hp|]. split; [exact Ht|].
  destruct (expiry_while_marked_off_is_silent 30 w 0
              (mkTimer (1800 * second) Waiting) (1800 * second) H Hp Ht eq_refl
              ltac:(reflexivity)) as (Htr & _ & Hc & _).
  split; [exact Htr|exact Hc].
Defined.

(** Witness of [compile_leaves_other_schedules]. *)
Lemma compile_leaves_other_schedules_witness :
  let jobs :=
    fst (_add_or_update_job_in_scheduler weekday_list new_year_2025 late_schedule ∅) in
  8 <> sd_id morning_schedule /\
  fst (_add_or_update_job_in_scheduler weekday_list new_year_2025 morning_schedule jobs)
    !! ("on_db_" ++ pretty 8) = jobs !! ("on_db_" ++ pretty 8).
Proof.
  cbv zeta.
  assert (H : 8 <> sd_id morning_schedule) by discriminate.
  split; [exact H|].
  destruct (compile_leaves_other_schedules weekday_list new_year_2025 morning_schedule
              (fst (_add_or_update_job_in_scheduler weekday_list new_year_2025
                      late_schedule ∅)) 8 H)
    as (Hon & _).
  exact Hon.
Defined.

(** Witness of [pause_then_resume_restores]: paused on new year's day and
    resumed the day after. *)
Lemma pause_then_resume_restores_witness :
  snd (_add_or_update_job_in_scheduler weekday_list new_year_2025 morning_schedule ∅)
    = None /\
  find_schedule 7 [paused_schedule; morning_schedule] = Some morning_schedule /\
  (let compiled :=
     fst (_add_or_update_job_in_scheduler weekday_list new_year_2025 morning_schedule ∅) in
   let paused := fst (pause_schedule store_ok 7 compiled) in
   resume_schedule weekday_list (new_year_2025 + day) store_recovers
     [paused_schedule; morning_schedule] 7 paused = (compiled, Success)).
Proof.
  assert (Hc : snd (_add_or_update_job_in_scheduler weekday_list new_year_2025
                      morning_schedule ∅) = None)
    by (vm_compute; reflexivity).
  assert (Hf : find_schedule 7 [paused_schedule; morning_schedule] = Some morning_schedule)
    by reflexivity.
  split; [exact Hc|]. split; [exact Hf|].
  destruct (pause_then_resume_restores weekday_list new_year_2025 (new_year_2025 + day)
              store_ok store_recovers
              [paused_schedule; morning_schedule] morning_schedule ∅ Hc eq_refl eq_refl Hf)
    as (_ & _ & Hr & _).
  apply Hr. vm_compute. reflexivity.
Defined.

(** Witness of [broadcast_drops_failed_connections]: of three connections
    the second one fails. *)
Lemma broadcast_drops_failed_connections_witness :
  List.NoDup [1; 2; 3]%nat /\
  manager_broadcast (Nat.eqb 2) [1; 2; 3]%nat = ([1; 3]%nat, [1; 2; 3]%nat) /\
  manager_disconnect 4 (manager_connect 4 [1; 2; 3]%nat) = [1; 2; 3]%nat.
Proof.
  assert (H : List.NoDup [1; 2; 3]%nat).
  { repeat (constructor; [simpl; lia|]). constructor. }
  split; [exact H|].
  destruct (broadcast_drops_failed_connections (Nat.eqb 2) [1; 2; 3]%nat 4%nat H)
    as (Hb & _ & Hd).
  split; [exact Hb|]. apply Hd. simpl. lia.
Defined.

(** Witness of [scheduled_run_ends_at_auto_off]: on new year's day 2025
    a schedule of 45 minutes with an auto-off of 30 minutes is switched off
    after 30 minutes, and a schedule of five thousand million minutes does
    not start. *)
Lemma scheduled_run_ends_at_auto_off_witness :
  let w := advance new_year_2025 initial_world in
  api_reachable 30 w /\ representable (clock w) /\
  (let w1 := fst (run_job 30 (start_scheduled_pump "Morning" 45) w) in
   schedule_end_time (db w1) = Some (new_year_2025 + 2700 * second) /\
   pump_is_on (db w1) = true /\
   pump_is_on (db (advance (new_year_2025 + 1800 * second) w1)) = false /\
   current_schedule_name (db (advance (new_year_2025 + 1800 * second) w1))
     = Some "Morning") /\
  run_job 30 (start_scheduled_pump "Morning" 5000000000) w = (w, Some OverflowError).
Proof.
  cbv zeta.
  assert (H : api_reachable 30 (advance new_year_2025 initial_world)).
  { eapply api_reachable_step; [apply api_reachable_init|].
    apply api_backend, step_time. }
  assert (Hc : representable (clock (advance new_year_2025 initial_world)))
    by (vm_compute; split; discriminate).
  split; [exact H|]. split; [exact Hc|].
  destruct (scheduled_run_ends_at_auto_off 30 "Morning" 45 _ H Hc eq_refl)
    as (_ & Hrun).
  destruct (Hrun ltac:(vm_compute; split; discriminate))
    as (_ & _ & He & Hon & _ & Hcut).
  destruct (scheduled_run_ends_at_auto_off 30 "Morning" 5000000000 _ H Hc eq_refl)
    as (Hover & _).
  split; [|apply Hover; vm_compute; intros [_ Hle]; apply Hle; reflexivity].
  split; [exact He|]. split; [exact Hon|].
  destruct (Hcut (new_year_2025 + 1800 * second) ltac:(reflexivity))
    as (Hoff & Hname & _).
  split; [exact Hoff|exact Hname].
Defined.

(** Witness of [startup_registers_only_active_schedules]. *)
Lemma startup_registers_only_active_schedules_witness :
  let loaded :=
    load_active_schedules weekday_list (fun _ => new_year_2025)
      [paused_schedule; morning_schedule] ∅ in
  loaded !! "on_db_7" =
    Some (mkJob (start_scheduled_pump "Morning" 15) "mon,wed,fri" 6 0 "Morning") /\
  loaded !! "on_db_4" = None /\
  exists sd, In sd [paused_schedule; morning_schedule] /\ sd_is_active sd = Some 1 /\
             ("on_db_7" = "on_db_" ++ pretty (sd_id sd) \/
              "on_db_7" = "off_db_" ++ pretty (sd_id sd)).
Proof.
  cbv zeta.
  assert (H : load_active_schedules weekday_list (fun _ => new_year_2025)
                [paused_schedule; morning_schedule] ∅ !! "on_db_7" =
              Some (mkJob (start_scheduled_pump "Morning" 15) "mon,wed,fri" 6 0 "Morning"))
    by (vm_compute; reflexivity).
  split; [exact H|]. split; [vm_compute; reflexivity|].
  exact (startup_registers_only_active_schedules weekday_list _ _ _ _ H).
Defined.

(** Witness of [automated_mode_switch]. *)
Lemma automated_mode_switch_witness :
  automated_mode_enabled (db manual_on_world) = true /\
  enable_automated_mode manual_on_world = (manual_on_world, Success) /\
  automated_mode_enabled (db (fst (disable_automated_mode manual_on_world))) = false /\
  manual_override_active (db (fst (disable_automated_mode manual_on_world))) = true /\
  manual_override_active (db (fst (enable_automated_mode idle_world))) = false.
Proof.
  destruct (automated_mode_switch manual_on_world) as (Hen & _ & _ & Hdis).
  destruct (automated_mode_switch idle_world) as (_ & Hen' & _ & _).
  split; [reflexivity|]. split; [exact (Hen eq_refl)|].
  destruct (Hdis eq_refl) as (Ha & Hm & _).
  split; [exact Ha|]. split; [exact Hm|].
  destruct (Hen' eq_refl) as (_ & Hm' & _). exact Hm'.
Defined.

(** Witness of [make_request_bounded_retry]: a 503 is retried once, after
    half a second. *)
Lemma make_request_bounded_retry_witness :
  returned (_make_request store_recovers) = Some 200 /\
  requests (_make_request store_recovers) = 2%nat /\
  store_recovers (requests (_make_request store_recovers) - 1) = Response 200 /\
  is_retryable (store_recovers 0).
Proof.
  destruct (make_request_bounded_retry store_recovers) as (_ & _ & Hretry & Hret & _).
  split; [reflexivity|]. split; [reflexivity|].
  split; [exact (proj1 (Hret 200 eq_refl))|].
  apply (Hretry 0%nat). simpl. lia.
Defined.

(** Witness of [removal_endpoints_follow_store]. *)
Lemma removal_endpoints_follow_store_witness :
  let jobs :=
    fst (_add_or_update_job_in_scheduler weekday_list new_year_2025 morning_schedule ∅) in
  returned (_make_request store_ok) = Some 200 /\
  pause_schedule store_ok 7 jobs =
    (_remove_job_from_scheduler (pretty 7) jobs, Success) /\
  pause_schedule (fun _ => RequestError) 7 jobs = (jobs, HTTPException 404).
Proof.
  cbv zeta.
  destruct (removal_endpoints_follow_store store_ok 7
              (fst (_add_or_update_job_in_scheduler weekday_list new_year_2025
                      morning_schedule ∅)))
    as (Hok & _).
  destruct (removal_endpoints_follow_store (fun _ => RequestError) 7
              (fst (_add_or_update_job_in_scheduler weekday_list new_year_2025
                      morning_schedule ∅)))
    as (_ & _ & _ & Hdown).
  split; [reflexivity|].
  destruct (Hok (or_introl eq_refl)) as (Hp & _).
  split; [exact Hp|]. apply Hdown. reflexivity.
Defined.

